(** * transform_images.py: the image-model / category-id transformer

    A shallow embedding of [ImageModelTransformer] (src/transform_images.py)
    and the properties of its tree rewrite, of the two caches and of the
    banner regrouping pass.

    Conventions of the embedding.
    - A Python [str] is a [string]: an ASCII text is itself, any other text
      is its UTF-8 bytes.  The text functions ([lower], [isdigit], [int],
      [repr]) are the ASCII ones and carry bytes above 127 through
      unchanged: they are Python's on ASCII text ([is_ascii]).
    - A Python [dict] is an insertion-ordered association list; [d[k] = v]
      is [dict_set] (overwrite in place, else append), [d.get(k)] is
      [dict_get].
    - A raised exception is a value [Raise e]; the stateful methods live in
      a state-and-exception monad [M] over the transformer's two caches and
      the log of HTTP requests sent so far.
    - The HTTP services are functions of the request log and the request:
      they may answer the same request differently at different times. *)

From Stdlib Require Import List String Ascii ZArith Bool Lia Arith.
From Stdlib Require Import Decimal DecimalString DecimalZ.
Import ListNotations.
Local Open Scope string_scope.
Local Open Scope Z_scope.

Set Warnings "-register-all".

(* ================================================================= *)
(** ** Python runtime: exceptions, text, dicts *)

Module Py.

Inductive exn : Type :=
| AttributeError
| TypeError
| KeyError
| IndexError
| ValueError
| RequestException
| HTTPError
| JSONDecodeError
| UnidentifiedImageError.

Inductive result (A : Type) : Type :=
| Ok (a : A)
| Raise (e : exn).
Arguments Ok {A} a.
Arguments Raise {A} e.

Definition rbind {A B} (r : result A) (k : A -> result B) : result B :=
  match r with
  | Ok a => k a
  | Raise e => Raise e
  end.

(** [try: body  except Exception: handler] for a pure body. *)
Definition try_except {A} (body : result A) (handler : exn -> A) : A :=
  match body with
  | Ok a => a
  | Raise e => handler e
  end.

(** *** Text *)

Definition code (c : ascii) : nat := nat_of_ascii c.

Definition between (lo hi : nat) (c : ascii) : bool :=
  (Nat.leb lo (code c) && Nat.leb (code c) hi)%bool.

Definition lower_char (c : ascii) : ascii :=
  if between 65 90 c then ascii_of_nat (code c + 32) else c.


(** [s.lower()], on ASCII text *)
Fixpoint lower (s : string) : string :=
  match s with
  | EmptyString => EmptyString
  | String c t => String (lower_char c) (lower t)
  end.

(** [s.endswith(suffix)] *)
Definition endswith (s suffix : string) : bool :=
  let n := String.length s in
  let m := String.length suffix in
  (Nat.leb m n && String.eqb (substring (n - m) m s) suffix)%bool.

(** [pattern in s] *)
Fixpoint contains (pattern s : string) : bool :=
  (prefix pattern s
   || match s with
      | EmptyString => false
      | String _ t => contains pattern t
      end)%bool.

Definition is_digit (c : ascii) : bool := between 48 57 c.

Fixpoint all_digits (s : string) : bool :=
  match s with
  | EmptyString => true
  | String c t => (is_digit c && all_digits t)%bool
  end.

(** [s.isdigit()], on ASCII text: at least one character, and every
    character a digit. *)
Definition isdigit (s : string) : bool :=
  match s with
  | EmptyString => false
  | _ => all_digits s
  end.

(** [str(n)] for an [int] *)
Definition str_int (n : Z) : string := NilZero.string_of_int (Z.to_int n).

Definition digit_value (c : ascii) : Z := Z.of_nat (code c - 48).

(** The digits of an integer literal as [int()] reads them: a single
    underscore is allowed between two digits. *)
Fixpoint int_digits (s : string) (after_digit : bool) (acc : Z) : option Z :=
  match s with
  | EmptyString => if after_digit then Some acc else None
  | String c t =>
      if is_digit c then int_digits t true (10 * acc + digit_value c)
      else if (Ascii.eqb c "_" && after_digit)%bool then int_digits t false acc
      else None
  end.

Definition is_space (c : ascii) : bool :=
  (between 9 13 c || Ascii.eqb c " ")%bool.

Fixpoint lstrip (s : string) : string :=
  match s with
  | String c t => if is_space c then lstrip t else s
  | EmptyString => EmptyString
  end.

Fixpoint rstrip (s : string) : string :=
  match s with
  | EmptyString => EmptyString
  | String c t =>
      match rstrip t with
      | EmptyString => if is_space c then EmptyString else String c EmptyString
      | t' => String c t'
      end
  end.

Fixpoint no_space (s : string) : bool :=
  match s with
  | EmptyString => true
  | String c t => (negb (is_space c) && no_space t)%bool
  end.

(** [int(s)] for an ASCII [str]: [None] stands for [ValueError]. *)
Definition int_of_str (s : string) : option Z :=
  match rstrip (lstrip s) with
  | String "-" t => option_map Z.opp (int_digits t false 0)
  | String "+" t => int_digits t false 0
  | t => int_digits t false 0
  end.

(** *** Dicts *)

Definition dict (V : Type) : Type := list (string * V).

Fixpoint dict_get {V} (d : dict V) (k : string) : option V :=
  match d with
  | [] => None
  | (k', v) :: rest => if String.eqb k k' then Some v else dict_get rest k
  end.

Fixpoint dict_set {V} (d : dict V) (k : string) (v : V) : dict V :=
  match d with
  | [] => [(k, v)]
  | (k', v') :: rest =>
      if String.eqb k k' then (k', v) :: rest else (k', v') :: dict_set rest k v
  end.

Definition dict_mem {V} (d : dict V) (k : string) : bool :=
  match dict_get d k with
  | Some _ => true
  | None => false
  end.

Definition keys {V} (d : dict V) : list string := map fst d.

End Py.
Import Py.

(* ================================================================= *)
(** ** JSON values, as [json.load] builds them *)

(** A [float] is carried by its [repr] text: the transformer only passes
    floats along, tests them for truth and prints them. *)
Inductive json : Type :=
| JNull
| JBool (b : bool)
| JInt (n : Z)
| JFloat (repr : string)
| JStr (s : string)
| JList (l : list json)
| JDict (d : dict json).

Module Json.

Definition dquote : ascii := ascii_of_nat 34.
Definition squote : ascii := "'"%char.
Definition backslash : ascii := "\"%char.

Definition has_char (c : ascii) (s : string) : bool :=
  existsb (Ascii.eqb c) (list_ascii_of_string s).

Definition hex_digit (n : nat) : ascii :=
  if Nat.ltb n 10 then ascii_of_nat (48 + n) else ascii_of_nat (87 + n).

(** One character of [repr(s)], on ASCII text: the quote and the
    backslash are escaped, and so are the control characters.  A byte
    above 127 is carried through. *)
Definition escape_char (quote c : ascii) : string :=
  if (Ascii.eqb c backslash || Ascii.eqb c quote)%bool
  then String backslash (String c EmptyString)
  else if Nat.eqb (code c) 9 then "\t"
  else if Nat.eqb (code c) 10 then "\n"
  else if Nat.eqb (code c) 13 then "\r"
  else if (Nat.ltb (code c) 32 || Nat.eqb (code c) 127)%bool
  then String backslash
         (String "x" (String (hex_digit (code c / 16))
                        (String (hex_digit (code c mod 16)) EmptyString)))
  else String c EmptyString.

Fixpoint escape (quote : ascii) (s : string) : string :=
  match s with
  | EmptyString => EmptyString
  | String c t => escape_char quote c ++ escape quote t
  end.

(** [repr(s)] for a [str]: single quotes unless the text has a single
    quote and no double quote. *)
Definition repr_str (s : string) : string :=
  let quote := if (has_char squote s && negb (has_char dquote s))%bool
               then dquote else squote in
  String quote (escape quote s ++ String quote EmptyString).

Fixpoint join (sep : string) (l : list string) : string :=
  match l with
  | [] => EmptyString
  | [x] => x
  | x :: rest => x ++ sep ++ join sep rest
  end.

Fixpoint repr (v : json) : string :=
  match v with
  | JNull => "None"
  | JBool true => "True"
  | JBool false => "False"
  | JInt n => str_int n
  | JFloat r => r
  | JStr s => repr_str s
  | JList l => "[" ++ join ", " (map repr l) ++ "]"
  | JDict d =>
      "{" ++ join ", " (map (fun kv => repr_str (fst kv) ++ ": " ++ repr (snd kv)) d)
          ++ "}"
  end.

(** [str(v)] *)
Definition str (v : json) : string :=
  match v with
  | JStr s => s
  | _ => repr v
  end.

(** Truth value of [v] in a condition. *)
Definition truthy (v : json) : bool :=
  match v with
  | JNull => false
  | JBool b => b
  | JInt n => negb (n =? 0)
  | JFloat r => negb (String.eqb r "0.0" || String.eqb r "-0.0")
  | JStr s => negb (String.eqb s EmptyString)
  | JList l => match l with [] => false | _ => true end
  | JDict d => match d with [] => false | _ => true end
  end.

(** [v.get(k, default)]: only a [dict] has [get]. *)
Definition get_default (v : json) (k : string) (default : json) : result json :=
  match v with
  | JDict d => Ok (match dict_get d k with Some x => x | None => default end)
  | _ => Raise AttributeError
  end.

(** [v.get(k)] *)
Definition get (v : json) (k : string) : result json := get_default v k JNull.

(** The elements [for item in v] visits. *)
Definition iter (v : json) : result (list json) :=
  match v with
  | JList l => Ok l
  | JDict d => Ok (map JStr (keys d))
  | JStr s => Ok (map (fun c => JStr (String c EmptyString)) (list_ascii_of_string s))
  | _ => Raise TypeError
  end.

(** [len(v)] *)
Definition len (v : json) : result nat :=
  match v with
  | JList l => Ok (List.length l)
  | JDict d => Ok (List.length d)
  | JStr s => Ok (String.length s)
  | _ => Raise TypeError
  end.

(** [v[0]]: the keys of a JSON mapping are text, so [d[0]] finds nothing. *)
Definition first (v : json) : result json :=
  match v with
  | JList (x :: _) => Ok x
  | JList [] => Raise IndexError
  | JStr (String c _) => Ok (JStr (String c EmptyString))
  | JStr EmptyString => Raise IndexError
  | JDict _ => Raise KeyError
  | _ => Raise TypeError
  end.

(** [v[k]] for a text key *)
Definition item (v : json) (k : string) : result json :=
  match v with
  | JDict d => match dict_get d k with Some x => Ok x | None => Raise KeyError end
  | _ => Raise TypeError
  end.

(** [v == s] for a text literal [s] *)
Definition eq_str (v : json) (s : string) : bool :=
  match v with
  | JStr s' => String.eqb s' s
  | _ => false
  end.


(** [isinstance(v, (str, int))]: [bool] is a subclass of [int]. *)
Definition is_str_or_int (v : json) : bool :=
  match v with JStr _ | JInt _ | JBool _ => true | _ => false end.

(** [isinstance(v, int)] *)
Definition is_int (v : json) : bool :=
  match v with JInt _ | JBool _ => true | _ => false end.

End Json.

(** Induction on a JSON value, with the property at hand for every element
    of an array and every value of a mapping. *)
Section JsonInduction.

Variable P : json -> Prop.
Hypothesis HNull : P JNull.
Hypothesis HBool : forall b, P (JBool b).
Hypothesis HInt : forall n, P (JInt n).
Hypothesis HFloat : forall r, P (JFloat r).
Hypothesis HStr : forall s, P (JStr s).
Hypothesis HList : forall l, Forall P l -> P (JList l).
Hypothesis HDict : forall d, Forall (fun kv => P (snd kv)) d -> P (JDict d).

Fixpoint json_nested_ind (v : json) : P v :=
  match v with
  | JNull => HNull
  | JBool b => HBool b
  | JInt n => HInt n
  | JFloat r => HFloat r
  | JStr s => HStr s
  | JList l =>
      HList l ((fix elements (l : list json) : Forall P l :=
                match l with
                | [] => @Forall_nil json P
                | x :: rest =>
                    @Forall_cons json P x rest (json_nested_ind x) (elements rest)
                end) l)
  | JDict d =>
      HDict d ((fix entries (d : dict json) : Forall (fun kv => P (snd kv)) d :=
                match d with
                | [] => @Forall_nil _ (fun kv => P (snd kv))
                | kv :: rest =>
                    @Forall_cons _ (fun kv => P (snd kv)) kv rest
                      (json_nested_ind (snd kv)) (entries rest)
                end) d)
  end.

End JsonInduction.

Notation "x <- r ;; k" := (rbind r (fun x => k))
  (at level 61, r at next level, right associativity).

Notation "' pat <- r ;; k" := (rbind r (fun x => match x with pat => k end))
  (at level 61, pat pattern, r at next level, right associativity).

(* ================================================================= *)
(** ** The regrouping pass: [collect_main_category_items] *)

(** [l.pop(index)], keeping the list that is left. *)
Fixpoint pop {A} (l : list A) (index : nat) : result (list A) :=
  match l, index with
  | [], _ => Raise IndexError
  | _ :: t, O => Ok t
  | x :: t, S i => t' <- pop t i ;; Ok (x :: t')
  end.

(** [for index in indices: components.pop(index)] *)
Fixpoint pop_each {A} (components : list A) (indices : list nat) : result (list A) :=
  match indices with
  | [] => Ok components
  | index :: rest => components' <- pop components index ;; pop_each components' rest
  end.

(** [all(item.get('isMainCategory', False) for item in items)]: stops at
    the first item whose flag is false. *)
Fixpoint all_main_category (items : list json) : result bool :=
  match items with
  | [] => Ok true
  | item :: rest =>
      flag <- Json.get_default item "isMainCategory" (JBool false) ;;
      if Json.truthy flag then all_main_category rest else Ok false
  end.

(** [{'id': str(item.get('category')), 'image': item.get('image')}] *)
Definition main_category_record (item : json) : result json :=
  category <- Json.get item "category" ;;
  image <- Json.get item "image" ;;
  Ok (JDict [("id", JStr (Json.str category)); ("image", image)]).

(** [for item in items: main_category_items.append({...})] *)
Fixpoint append_records (main_category_items items : list json)
  : result (list json) :=
  match items with
  | [] => Ok main_category_items
  | item :: rest =>
      record <- main_category_record item ;;
      append_records (main_category_items ++ [record]) rest
  end.

(** The first loop, [for i, component in enumerate(components)], from
    index [i] on. *)
Fixpoint scan_components (i : nat) (components : list json)
    (main_category_items : list json) (components_to_remove : list nat)
  : result (list json * list nat) :=
  match components with
  | [] => Ok (main_category_items, components_to_remove)
  | component :: rest =>
      layout <- Json.get component "layout" ;;
      if Json.eq_str layout "banner" then
        config <- Json.get_default component "config" (JDict []) ;;
        items <- Json.get_default config "items" (JList []) ;;
        items <- Json.iter items ;;
        all_main <- all_main_category items ;;
        if all_main then
          main_category_items <- append_records main_category_items items ;;
          scan_components (S i) rest main_category_items
            (components_to_remove ++ [i])
        else scan_components (S i) rest main_category_items components_to_remove
      else scan_components (S i) rest main_category_items components_to_remove
  end.

Definition main_category_list (main_category_items : list json) : json :=
  JDict [("layout", JStr "mainCategoryList");
         ("config", JDict [("categories", JList main_category_items)])].

Definition collect_main_category_items (components : list json)
  : result (list json) :=
  '(main_category_items, components_to_remove)
     <- scan_components 0 components [] [] ;;
  components <- pop_each components (List.rev components_to_remove) ;;
  Ok (match main_category_items with
      | [] => components
      | _ => main_category_list main_category_items :: components
      end).

(* ================================================================= *)
(** ** The transformer and its collaborators *)

Inductive request : Type :=
| GetImage (image_url : string)
| GetWordpressCategory (category_id : string)
| GetOdooCategory (category_name : string).

(** What [requests.get], [raise_for_status] and [Image.open] make of an
    image URL. *)
Inductive image_reply : Type :=
| ImageUnreachable
| ImageBadStatus
| ImageUndecodable
| ImageSize (width height : Z).

(** What [requests.get] and [response.json()] make of an API call:
    no response at all, or a status code and the decoded body ([None] when
    the body is not JSON). *)
Inductive reply : Type :=
| NoReply
| Reply (status_code : Z) (body : option json).

(** The outside world.  Each service sees the requests sent before. *)
Record services : Type := {
  image_service : list request -> string -> image_reply;
  wordpress_service : list request -> string -> reply;
  odoo_service : list request -> string -> reply
}.

(** The constructor's arguments. *)
Record settings : Type := {
  fetch_dimensions : bool;
  cache_dimensions : bool;
  convert_category_ids : bool
}.

Definition dimensions : Type := option Z * option Z.

(** The mutable part of [self], and the requests sent so far (newest
    first). *)
Record state : Type := {
  dimension_cache : dict dimensions;
  category_cache : dict string;
  sent : list request
}.

Definition initial : state :=
  {| dimension_cache := []; category_cache := []; sent := [] |}.

Definition M (A : Type) : Type := state -> result A * state.

Definition ret {A} (a : A) : M A := fun st => (Ok a, st).

Definition bind {A B} (m : M A) (k : A -> M B) : M B :=
  fun st =>
    match m st with
    | (Ok a, st') => k a st'
    | (Raise e, st') => (Raise e, st')
    end.

Definition lift {A} (r : result A) : M A := fun st => (r, st).

(** [try: body  except Exception: handler] *)
Definition try_catch {A} (body : M A) (handler : exn -> M A) : M A :=
  fun st =>
    match body st with
    | (Ok a, st') => (Ok a, st')
    | (Raise e, st') => handler e st'
    end.

Definition send (r : request) : M unit :=
  fun st => (Ok tt, {| dimension_cache := dimension_cache st;
                       category_cache := category_cache st;
                       sent := r :: sent st |}).

Definition set_dimension (image_url : string) (d : dimensions) : M unit :=
  fun st => (Ok tt, {| dimension_cache := dict_set (dimension_cache st) image_url d;
                       category_cache := category_cache st;
                       sent := sent st |}).

Definition set_category (category_id target : string) : M unit :=
  fun st => (Ok tt, {| dimension_cache := dimension_cache st;
                       category_cache := dict_set (category_cache st) category_id target;
                       sent := sent st |}).

Declare Scope m_scope.
Delimit Scope m_scope with M.
Notation "x <- m ; k" := (bind m (fun x => k))
  (at level 61, m at next level, right associativity) : m_scope.
Notation "' pat <- m ; k" := (bind m (fun x => match x with pat => k end))
  (at level 61, pat pattern, m at next level, right associativity) : m_scope.

(** [[f(x) for x in l]], left to right. *)
Fixpoint mapM {A B} (f : A -> M B) (l : list A) : M (list B) :=
  match l with
  | [] => ret []
  | x :: rest => (y <- f x ; ys <- mapM f rest ; ret (y :: ys))%M
  end.

(** [out = {}; for key, value in d.items(): out[key] = f(key, value)] *)
Fixpoint dict_loop {A B} (f : string -> A -> M B) (d : dict A)
    (transformed : dict B) : M (dict B) :=
  match d with
  | [] => ret transformed
  | kv :: rest =>
      (v <- f (fst kv) (snd kv) ; dict_loop f rest (dict_set transformed (fst kv) v))%M
  end.

(** [d[k]] *)
Definition dict_item {V} (d : dict V) (k : string) : result V :=
  match dict_get d k with
  | Some v => Ok v
  | None => Raise KeyError
  end.

Definition IMAGE_FIELDS : list string :=
  ["image"; "small_img"; "slider_images"; "homeTabBarBackgroundImage";
   "sectionTabBackgroundImage"; "sectionBackgrondImg"; "influencer_pfp";
   "backgroundImage"; "banner_image"; "profile_image"; "thumbnail";
   "cover_image"; "logo"; "icon"].

Definition image_extensions : list string :=
  [".jpg"; ".jpeg"; ".png"; ".gif"; ".bmp"; ".webp"; ".svg"].

Definition image_patterns : list string :=
  ["cdn.digitaloceanspaces.com"; "amazonaws.com"; "cloudinary.com";
   "imgur.com"; "unsplash.com"; "/images/"; "/img/"; "/media/"; "/assets/"].

Definition is_image_url (value : json) : bool :=
  match value with
  | JStr s =>
      if existsb (endswith (lower s)) image_extensions then true
      else existsb (fun pattern => contains pattern (lower s)) image_patterns
  | _ => false
  end.

(** [key.lower() in [field.lower() for field in self.IMAGE_FIELDS]] *)
Definition is_image_field (key : string) : bool :=
  existsb (String.eqb (lower key)) (map lower IMAGE_FIELDS).

(** [key.lower() in ['category', 'categoryid']] *)
Definition is_category_key (key : string) : bool :=
  existsb (String.eqb (lower key)) ["category"; "categoryid"].

(** [a or b] on an optional integer: [None] and [0] are false. *)
Definition or_dimension (a b : option Z) : option Z :=
  match a with
  | Some n => if n =? 0 then b else a
  | None => b
  end.

(** The body of [get_wordpress_category_name]'s [try], after the request. *)
Definition wordpress_category_name (r : reply) : result json :=
  match r with
  | NoReply => Raise RequestException
  | Reply status_code body =>
      if status_code =? 200 then
        data <- match body with Some data => Ok data | None => Raise JSONDecodeError end ;;
        if Json.truthy data then
          n <- Json.len data ;;
          if Nat.ltb 0 n then
            entry <- Json.first data ;;
            Json.get_default entry "name" (JStr EmptyString)
          else Ok JNull
        else Ok JNull
      else Ok JNull
  end.

(** The body of [get_odoo_category_id]'s [try], after the request. *)
Definition odoo_category_id (r : reply) : result (option string) :=
  match r with
  | NoReply => Raise RequestException
  | Reply status_code body =>
      if status_code =? 200 then
        data <- match body with Some data => Ok data | None => Raise JSONDecodeError end ;;
        status <- Json.get data "status" ;;
        if Json.eq_str status "success" then
          found <- Json.get data "data" ;;
          if Json.truthy found then
            entries <- Json.item data "data" ;;
            n <- Json.len entries ;;
            if Nat.ltb 0 n then
              entry <- Json.first entries ;;
              matta_id <- Json.get entry "mattaId" ;;
              if Json.truthy matta_id then Ok (Some (Json.str matta_id)) else Ok None
            else Ok None
          else Ok None
        else Ok None
      else Ok None
  end.

(** [urllib.parse.quote] takes text only; the encoded text is part of the
    request that [GetOdooCategory] records. *)
Definition quote (category_name : json) : result string :=
  match category_name with
  | JStr s => Ok s
  | _ => Raise TypeError
  end.

Section Transformer.

Variable self : settings.
Variable world : services.

Local Open Scope m_scope.

Definition request_image (image_url : string) : M (Z * Z) :=
  fun st =>
    (_ <- send (GetImage image_url) ;
     lift (match image_service world (sent st) image_url with
           | ImageUnreachable => Raise RequestException
           | ImageBadStatus => Raise HTTPError
           | ImageUndecodable => Raise UnidentifiedImageError
           | ImageSize width height => Ok (width, height)
           end)) st.

Definition get_image_dimensions (image_url : string) : M dimensions :=
  if negb (fetch_dimensions self) then ret (None, None)
  else fun st =>
    if (cache_dimensions self && dict_mem (dimension_cache st) image_url)%bool
    then lift (dict_item (dimension_cache st) image_url) st
    else
      try_catch
        ('(width, height) <- request_image image_url ;
         _ <- (if cache_dimensions self
               then set_dimension image_url (Some width, Some height)
               else ret tt) ;
         ret (Some width, Some height))
        (fun _ =>
           _ <- (if cache_dimensions self
                 then set_dimension image_url (None, None)
                 else ret tt) ;
           ret (None, None)) st.

Definition create_image_model (image_url : string) (width height : option Z)
  : M json :=
  '(width, height) <-
     match width, height with
     | Some _, Some _ => ret (width, height)
     | _, _ =>
         '(fetched_width, fetched_height) <- get_image_dimensions image_url ;
         ret (or_dimension width fetched_width, or_dimension height fetched_height)
     end ;
  let image_model := [("imageUrl", JStr image_url)] in
  let image_model :=
    match width with
    | Some w => dict_set image_model "width" (JStr (str_int w))
    | None => image_model
    end in
  let image_model :=
    match height with
    | Some h => dict_set image_model "height" (JStr (str_int h))
    | None => image_model
    end in
  ret (JDict image_model).

(** [None] is [JNull]. *)
Definition get_wordpress_category_name (category_id : string) : M json :=
  try_catch
    (fun st =>
       (_ <- send (GetWordpressCategory category_id) ;
        lift (wordpress_category_name
                (wordpress_service world (sent st) category_id))) st)
    (fun _ => ret JNull).

Definition get_odoo_category_id (category_name : json) : M (option string) :=
  try_catch
    (encoded_name <- lift (quote category_name) ;
     fun st =>
       (_ <- send (GetOdooCategory encoded_name) ;
        lift (odoo_category_id (odoo_service world (sent st) encoded_name))) st)
    (fun _ => ret None).

Definition convert_category_id (category_id : string) : M string :=
  if negb (convert_category_ids self) then ret category_id
  else fun st =>
    if dict_mem (category_cache st) category_id
    then lift (dict_item (category_cache st) category_id) st
    else
      (category_name <- get_wordpress_category_name category_id ;
       match category_name with
       | JNull =>
           _ <- set_category category_id category_id ;
           ret category_id
       | _ =>
           odoo_id <- get_odoo_category_id category_name ;
           match odoo_id with
           | None =>
               let placeholder_id := "1139" in
               _ <- set_category category_id placeholder_id ;
               ret placeholder_id
           | Some odoo_id =>
               _ <- set_category category_id odoo_id ;
               ret odoo_id
           end
       end) st.

(** [transform_value], with the recursive call to [transform_data] as a
    parameter. *)
Definition transform_value_with (transform_data : json -> M json)
    (key : string) (value : json) : M json :=
  if (is_category_key key && Json.is_str_or_int value
      && isdigit (Json.str value))%bool
  then
    converted_id <- convert_category_id (Json.str value) ;
    if Json.is_int value then
      match int_of_str converted_id with
      | Some n => ret (JInt n)
      | None => ret (JStr converted_id)
      end
    else ret (JStr converted_id)
  else
    match value with
    | JStr s =>
        if (is_image_field key || is_image_url value)%bool
        then create_image_model s None None
        else ret value
    | JList l =>
        transformed_list <-
          mapM (fun item =>
                  match item with
                  | JStr s =>
                      if (is_image_field key || is_image_url item)%bool
                      then create_image_model s None None
                      else transform_data item
                  | _ => transform_data item
                  end) l ;
        ret (JList transformed_list)
    | JDict _ => transform_data value
    | _ => ret value
    end.

Fixpoint transform_data (data : json) : M json :=
  match data with
  | JDict d =>
      transformed <-
        dict_loop
          (fun key value =>
             match value with
             | JList l =>
                 if String.eqb key "components" then
                   components <- mapM transform_data l ;
                   components <- lift (collect_main_category_items components) ;
                   ret (JList components)
                 else transform_value_with transform_data key value
             | _ => transform_value_with transform_data key value
             end) d [] ;
      ret (JDict transformed)
  | JList l =>
      transformed <- mapM transform_data l ;
      ret (JList transformed)
  | _ => ret data
  end.

Definition transform_value : string -> json -> M json :=
  transform_value_with transform_data.

(** The element rule of [transform_value]'s array branch. *)
Definition transform_element (key : string) (item : json) : M json :=
  match item with
  | JStr s =>
      if (is_image_field key || is_image_url item)%bool
      then create_image_model s None None
      else transform_data item
  | _ => transform_data item
  end.

(** The body of [transform_data]'s loop over a mapping. *)
Definition transform_entry (key : string) (value : json) : M json :=
  match value with
  | JList l =>
      if String.eqb key "components" then
        (components <- mapM transform_data l ;
         components <- lift (collect_main_category_items components) ;
         ret (JList components))%M
      else transform_value key value
  | _ => transform_value key value
  end.

End Transformer.

(* ================================================================= *)
(** ** Vocabulary of the properties *)

(** [[f(x) for x in l]] for a function that may raise. *)
Fixpoint mapR {A B} (f : A -> result B) (l : list A) : result (list B) :=
  match l with
  | [] => Ok []
  | x :: rest => y <- f x ;; ys <- mapR f rest ;; Ok (y :: ys)
  end.

(** What the first loop of [collect_main_category_items] decides for one
    component: [Some records] when it is extracted, [None] when it stays. *)
Definition extraction (component : json) : result (option (list json)) :=
  layout <- Json.get component "layout" ;;
  if Json.eq_str layout "banner" then
    config <- Json.get_default component "config" (JDict []) ;;
    items <- Json.get_default config "items" (JList []) ;;
    items <- Json.iter items ;;
    all_main <- all_main_category items ;;
    if all_main then
      records <- mapR main_category_record items ;;
      Ok (Some records)
    else Ok None
  else Ok None.

Definition decisions (components : list json)
  : result (list (option (list json))) :=
  mapR extraction components.

(** The records of the extracted components, in encounter order. *)
Fixpoint records (ds : list (option (list json))) : list json :=
  match ds with
  | [] => []
  | Some rs :: rest => rs ++ records rest
  | None :: rest => records rest
  end.

(** The components that are not extracted, in their original order. *)
Fixpoint survivors (components : list json) (ds : list (option (list json)))
  : list json :=
  match components, ds with
  | c :: cs, None :: rest => c :: survivors cs rest
  | _ :: cs, Some _ :: rest => survivors cs rest
  | _, _ => []
  end.

(** The indices of the extracted components, counted from [i]. *)
Fixpoint positions (i : nat) (ds : list (option (list json))) : list nat :=
  match ds with
  | [] => []
  | Some _ :: rest => i :: positions (S i) rest
  | None :: rest => positions (S i) rest
  end.

Definition regrouped (components : list json) (ds : list (option (list json)))
  : list json :=
  match records ds with
  | [] => survivors components ds
  | rs => main_category_list rs :: survivors components ds
  end.

(** The component is neither extracted nor makes the pass fail. *)
Definition stays (component : json) : bool :=
  match extraction component with
  | Ok None => true
  | _ => false
  end.

(** The records an extracted component contributes. *)
Definition extracted_records (component : json) : list json :=
  match extraction component with
  | Ok (Some rs) => rs
  | _ => []
  end.

(** [item.get(k)] on a mapping. *)
Definition field (item : json) (k : string) : json :=
  match item with
  | JDict d => match dict_get d k with Some v => v | None => JNull end
  | _ => JNull
  end.

(** The record the pass builds from one item of an extracted banner. *)
Definition record_of (item : json) : json :=
  JDict [("id", JStr (Json.str (field item "category")));
         ("image", field item "image")].

(** The items of a component's [config.items], as the pass visits them. *)
Definition banner_items (component : json) : list json :=
  match (config <- Json.get_default component "config" (JDict []) ;;
         items <- Json.get_default config "items" (JList []) ;;
         Json.iter items)
  with
  | Ok items => items
  | Raise _ => []
  end.

(** A banner component whose [config.items] is the empty array. *)
Definition empty_banner (component : json) : bool :=
  match component with
  | JDict d =>
      match dict_get d "layout", dict_get d "config" with
      | Some (JStr layout), Some (JDict config) =>
          match dict_get config "items" with
          | Some (JList []) => String.eqb layout "banner"
          | _ => false
          end
      | _, _ => false
      end
  | _ => false
  end.

Fixpoint unique (l : list string) : bool :=
  match l with
  | [] => true
  | k :: rest => (negb (existsb (String.eqb k) rest) && unique rest)%bool
  end.






(** The ids (resp. URLs) of the requests in a log. *)
Fixpoint wordpress_ids (log : list request) : list string :=
  match log with
  | [] => []
  | GetWordpressCategory category_id :: rest => category_id :: wordpress_ids rest
  | _ :: rest => wordpress_ids rest
  end.

Fixpoint image_urls (log : list request) : list string :=
  match log with
  | [] => []
  | GetImage image_url :: rest => image_url :: image_urls rest
  | _ :: rest => image_urls rest
  end.

(** The image descriptor of a URL whose dimensions resolved to [dims]. *)
Definition descriptor (image_url : string) (dims : dimensions) : json :=
  JDict
    ((("imageUrl", JStr image_url)
        :: match fst dims with
           | Some w => [("width", JStr (str_int w))]
           | None => []
           end)
       ++ match snd dims with
          | Some h => [("height", JStr (str_int h))]
          | None => []
          end)%list.

(** Stage 1 of the remapping, as [convert_category_id] sees it: the name
    [get_wordpress_category_name] returns on a given request log ([JNull]
    for "no record" and for every error). *)
Definition stage1 (world : services) (log : list request)
    (category_id : string) : json :=
  try_except (wordpress_category_name (wordpress_service world log category_id))
             (fun _ => JNull).

(** Stage 2: the id [get_odoo_category_id] returns for a name ([None] for
    "no match" and for every error), and the log it leaves. *)
Definition stage2 (world : services) (log : list request)
    (category_name : json) : option string * list request :=
  match quote category_name with
  | Ok encoded_name =>
      (try_except (odoo_category_id (odoo_service world log encoded_name))
                  (fun _ => None),
       GetOdooCategory encoded_name :: log)
  | Raise _ => (None, log)
  end.

(** The dimensions a fetch yields on a given request log. *)
Definition fetched (world : services) (log : list request)
    (image_url : string) : dimensions :=
  match image_service world log image_url with
  | ImageSize width height => (Some width, Some height)
  | _ => (None, None)
  end.

(** The action [m] keeps the state property [P]. *)
Definition preserves {A} (P : state -> Prop) (m : M A) : Prop :=
  forall st r st', P st -> m st = (r, st') -> P st'.

(** The action [m] returns normally, whatever the state. *)
Definition total {A} (m : M A) : Prop :=
  forall st, exists a st', m st = (Ok a, st').

(** The state after a fetch, and after a lookup chain. *)
Definition with_dimension (self : settings) (st : state) (image_url : string) (d : dimensions)
    (log : list request) : state :=
  {| dimension_cache :=
       if cache_dimensions self
       then dict_set (dimension_cache st) image_url d
       else dimension_cache st;
     category_cache := category_cache st;
     sent := log |}.

Definition with_category (st : state) (category_id target : string)
    (log : list request) : state :=
  {| dimension_cache := dimension_cache st;
     category_cache := dict_set (category_cache st) category_id target;
     sent := log |}.

(** The id a full lookup chain resolves to, and the log it leaves. *)
Definition chain (world : services) (log : list request) (category_id : string)
  : string * list request :=
  let log1 := GetWordpressCategory category_id :: log in
  match stage1 world log category_id with
  | JNull => (category_id, log1)
  | category_name =>
      (match fst (stage2 world log1 category_name) with
       | None => "1139"
       | Some odoo_id => odoo_id
       end,
       snd (stage2 world log1 category_name))
  end.

(** Every id looked up so far is in the category cache, and none was
    looked up twice. *)
Definition lookups_cached (st : state) : Prop :=
  NoDup (wordpress_ids (sent st))
  /\ forall category_id,
       In category_id (wordpress_ids (sent st)) ->
       dict_get (category_cache st) category_id <> None.

(** Every URL fetched so far is in the dimension cache, and none was
    fetched twice. *)
Definition fetches_cached (st : state) : Prop :=
  NoDup (image_urls (sent st))
  /\ forall image_url,
       In image_url (image_urls (sent st)) ->
       dict_get (dimension_cache st) image_url <> None.


(** The walk keeps [P] on a value, under any key. *)
Definition walks (self : settings) (world : services) (P : state -> Prop)
    (v : json) : Prop :=
  preserves P (transform_data self world v)
  /\ forall key,
       preserves P (transform_value self world key v)
       /\ preserves P (transform_entry self world key v).

(** The walk returns [v] as it is and leaves the state alone. *)
Definition fixed (self : settings) (world : services) (v : json) : Prop :=
  forall st, transform_data self world v st = (Ok v, st).


(* ================================================================= *)
(** ** Sample settings, worlds and documents *)

Definition all_on : settings :=
  {| fetch_dimensions := true; cache_dimensions := true;
     convert_category_ids := true |}.

Definition no_fetch : settings :=
  {| fetch_dimensions := false; cache_dimensions := true;
     convert_category_ids := true |}.

Definition catalog_match (matta_id : Z) : json :=
  JDict [("status", JStr "success");
         ("data", JList [JDict [("mattaId", JInt matta_id)]])].

Definition catalog_empty : json :=
  JDict [("status", JStr "success"); ("data", JList [])].

(** A world where category 42 is "Shoes" (catalog id 777), category 43 is
    "Hats" (not in the catalog), no other category exists, and only
    [a.png] can be fetched (10 x 20). *)
Definition sample_world : services :=
  {| image_service := fun _ image_url =>
       if String.eqb image_url "a.png" then ImageSize 10 20
       else ImageUnreachable;
     wordpress_service := fun _ category_id =>
       if String.eqb category_id "42"
       then Reply 200 (Some (JList [JDict [("name", JStr "Shoes")]]))
       else if String.eqb category_id "43"
       then Reply 200 (Some (JList [JDict [("name", JStr "Hats")]]))
       else Reply 200 (Some (JList []));
     odoo_service := fun _ category_name =>
       if String.eqb category_name "Shoes"
       then Reply 200 (Some (catalog_match 777))
       else Reply 200 (Some catalog_empty) |}.

(** A world whose services change their answers with every request: the
    n-th request gets n as the size or the catalog id. *)
Definition moving_world : services :=
  {| image_service := fun log _ =>
       ImageSize (Z.of_nat (List.length log)) (Z.of_nat (List.length log));
     wordpress_service := fun _ _ =>
       Reply 200 (Some (JList [JDict [("name", JStr "Shoes")]]));
     odoo_service := fun log _ =>
       Reply 200 (Some (catalog_match (Z.of_nat (List.length log)))) |}.

(** A world where every category is "Shoes" and the catalog answers with
    a match whose [mattaId] is 0. *)
Definition zero_world : services :=
  {| image_service := fun _ _ => ImageUnreachable;
     wordpress_service := fun _ _ =>
       Reply 200 (Some (JList [JDict [("name", JStr "Shoes")]]));
     odoo_service := fun _ _ => Reply 200 (Some (catalog_match 0)) |}.

Definition grid_component : json := JDict [("layout", JStr "grid")].

Definition empty_banner_component : json :=
  JDict [("layout", JStr "banner"); ("config", JDict [("items", JList [])])].

Definition main_banner (category : json) (image : string) : json :=
  JDict [("layout", JStr "banner");
         ("config",
          JDict [("items",
                  JList [JDict [("isMainCategory", JBool true);
                                ("category", category);
                                ("image", JStr image)]])])].

Definition two_categories : json :=
  JDict [("category", JStr "42");
         ("children", JList [JDict [("categoryId", JInt 42)];
                             JDict [("category", JStr "42")]])].

Definition two_images : json :=
  JDict [("logo", JStr "a.png");
         ("slider_images", JList [JStr "a.png"; JStr "b.png"; JStr "b.png"])].

Definition banner_document : json :=
  JDict [("components",
          JList [JDict [("layout", JStr "banner");
                        ("config",
                         JDict [("items",
                                 JList [JDict [("isMainCategory", JBool true);
                                               ("category", JInt 42);
                                               ("image", JStr "a.png")];
                                        JDict [("isMainCategory", JBool true);
                                               ("image", JStr "b.png")]])])];
                 grid_component])].

Definition lone_banner_document : json :=
  JDict [("components",
          JList [JDict [("layout", JStr "banner");
                        ("config",
                         JDict [("items",
                                 JList [JDict [("isMainCategory", JBool true);
                                               ("title", JStr "Shoes")]])])]])].


(* ================================================================= *)
(** ** Further vocabulary *)

(** The requests of a log that went to the catalog (stage 2). *)
Fixpoint odoo_names (log : list request) : list string :=
  match log with
  | [] => []
  | GetOdooCategory category_name :: rest => category_name :: odoo_names rest
  | _ :: rest => odoo_names rest
  end.

Definition is_dict (v : json) : bool :=
  match v with JDict _ => true | _ => false end.

(** A component the regrouping pass can read: a mapping that is not a
    banner, or a banner whose [config], when present, is a mapping whose
    [items], when present, is an array of mappings. *)
Definition well_shaped (component : json) : bool :=
  match component with
  | JDict d =>
      if Json.eq_str (field component "layout") "banner" then
        match dict_get d "config" with
        | None => true
        | Some (JDict config) =>
            match dict_get config "items" with
            | None => true
            | Some (JList items) => forallb is_dict items
            | Some _ => false
            end
        | Some _ => false
        end
      else true
  | _ => false
  end.

(** The [isMainCategory] flag of an item, as the pass reads it. *)
Definition main_flag (item : json) : bool :=
  match item with
  | JDict d =>
      match dict_get d "isMainCategory" with
      | Some flag => Json.truthy flag
      | None => false
      end
  | _ => false
  end.

(** The components the pass is to extract, read off the component alone:
    its [layout] is the text [banner] and every item of its [config.items]
    has a true [isMainCategory]. *)
Definition main_category_banner (component : json) : bool :=
  (Json.eq_str (field component "layout") "banner"
   && forallb main_flag (banner_items component))%bool.

(** The name a reply of the directory service stands for: the [name] of
    the first record of a 200 reply (the empty text when the record has no
    name), and [JNull] (Python's [None]) in every other case. *)
Definition directory_name (r : reply) : json :=
  match r with
  | Reply status_code (Some (JList (JDict entry :: _))) =>
      if status_code =? 200 then
        match dict_get entry "name" with
        | Some name => name
        | None => JStr EmptyString
        end
      else JNull
  | _ => JNull
  end.

(** The id a reply of the catalog service stands for: [str] of the
    [mattaId] of the first entry of a successful 200 reply when that id is
    true, and [None] in every other case. *)
Definition catalog_id (r : reply) : option string :=
  match r with
  | Reply status_code (Some (JDict d)) =>
      if ((status_code =? 200) && Json.eq_str (field (JDict d) "status") "success")%bool
      then
        match dict_get d "data" with
        | Some (JList (JDict entry :: _)) =>
            match dict_get entry "mattaId" with
            | Some matta_id =>
                if Json.truthy matta_id then Some (Json.str matta_id) else None
            | None => None
            end
        | _ => None
        end
      else None
  | _ => None
  end.

Definition log_request (r : request) (st : state) : state :=
  {| dimension_cache := dimension_cache st;
     category_cache := category_cache st;
     sent := r :: sent st |}.

(** In a log (newest first) every catalog request comes right after a
    directory request. *)
Fixpoint staged (log : list request) : bool :=
  match log with
  | [] => true
  | GetOdooCategory _ :: rest =>
      match rest with
      | GetWordpressCategory _ :: _ => staged rest
      | _ => false
      end
  | _ :: rest => staged rest
  end.

Definition no_remap : settings :=
  {| fetch_dimensions := true; cache_dimensions := true;
     convert_category_ids := false |}.

Definition no_cache : settings :=
  {| fetch_dimensions := true; cache_dimensions := false;
     convert_category_ids := true |}.

Definition is_list (v : json) : bool :=
  match v with JList _ => true | _ => false end.

(** No mapping of the document has an array under the key [components]. *)
Fixpoint no_components (data : json) : bool :=
  match data with
  | JList l => forallb no_components l
  | JDict d =>
      forallb
        (fun kv =>
           no_components (snd kv)
           && negb (String.eqb (fst kv) "components" && is_list (snd kv)))%bool
        d
  | _ => true
  end.

(** The document holds no mapping at all. *)
Fixpoint no_mapping (data : json) : bool :=
  match data with
  | JList l => forallb no_mapping l
  | JDict _ => false
  | _ => true
  end.

(** Every exception the action raises satisfies [ok]. *)
Definition blames {A} (ok : exn -> Prop) (m : M A) : Prop :=
  forall st e st', m st = (Raise e, st') -> ok e.

(** What the walk can raise on a value [v]. *)
Definition culprit (v : json) (e : exn) : Prop :=
  (e = AttributeError \/ e = TypeError) /\ no_components v = false.

(** What the loop body of [transform_data] can raise on an entry. *)
Definition entry_culprit (key : string) (v : json) (e : exn) : Prop :=
  (e = AttributeError \/ e = TypeError)
  /\ (no_components v
      && negb (String.eqb key "components" && is_list v))%bool = false.

(** The walk blames [culprit] for its failures on a value, under any key. *)
Definition blamed (self : settings) (world : services) (v : json) : Prop :=
  blames (culprit v) (transform_data self world v)
  /\ forall key,
       blames (culprit v) (transform_value self world key v)
       /\ blames (entry_culprit key v) (transform_entry self world key v).

(* ================================================================= *)
(** ** The entry points: [transform_json_file], [transform_json_string],
       [main] *)

(** The command line, as [argparse] hands it to [main]. *)
Record arguments : Type := {
  input_file : string;
  output : option string;
  indent : Z;
  no_dimensions : bool
}.

(** What [json.dump] leaves in the file it writes to: the whole text, or
    the part written when it raised (a text that cannot be encoded, a full
    disk). *)
Inductive written : Type :=
| Complete (text : string)
| Interrupted (partial_text : string).

(** The machine [main] runs on: the paths that [open(path, 'r')] can open
    and read as UTF-8 text, [json.loads] ([None] when it raises
    [JSONDecodeError]), the paths that [open(path, 'w')] can open, and
    [json.dump] to an open file with [ensure_ascii=False] and the given
    indentation.  A file system maps the path of an existing file to its
    text. *)
Record host : Type := {
  readable : string -> bool;
  loads : string -> option json;
  writable : string -> bool;
  dump : string -> Z -> json -> written
}.

Definition files : Type := dict string.

(** What [transform_json_file] raises: a missing input
    ([FileNotFoundError]), an input that cannot be read, a malformed input
    ([JSONDecodeError]), or whatever the walk raises. *)
Inductive failure : Type :=
| InputNotFound
| InputUnreadable
| MalformedJson
| Unexpected (e : exn).

Definition transform_json_string (self : settings) (world : services)
    (h : host) (json_string : string) (st : state)
  : (failure + json) * state :=
  match loads h json_string with
  | None => (inl MalformedJson, st)
  | Some data =>
      let data_copy := data in
      match transform_data self world data_copy st with
      | (Ok transformed, st') => (inr transformed, st')
      | (Raise e, st') => (inl (Unexpected e), st')
      end
  end.

Definition transform_json_file (self : settings) (world : services)
    (h : host) (fs : files) (input_file : string) (st : state)
  : (failure + json) * state :=
  match dict_get fs input_file with
  | None => (inl InputNotFound, st)
  | Some text =>
      if negb (readable h input_file) then (inl InputUnreadable, st)
      else
        match loads h text with
        | None => (inl MalformedJson, st)
        | Some data =>
            let data_copy := data in
            match transform_data self world data_copy st with
            | (Ok transformed, st') => (inr transformed, st')
            | (Raise e, st') => (inl (Unexpected e), st')
            end
        end
  end.

(** [args.output or "output.json"]: [None] and the empty text are false. *)
Definition output_path (args : arguments) : string :=
  match output args with
  | Some path => if String.eqb path EmptyString then "output.json" else path
  | None => "output.json"
  end.

(** The transformer [main] builds. *)
Definition transformer (args : arguments) : settings :=
  {| fetch_dimensions := negb (no_dimensions args);
     cache_dimensions := true;
     convert_category_ids := true |}.

(** What a run of [main] leaves: its return value, the file system, and
    the requests it sent. *)
Record outcome : Type := {
  exit_code : Z;
  files_after : files;
  requests : list request
}.

(** [main] from its [try] on (lines 377-418), for the arguments that
    [parser.parse_args()] returned.  ([parse_args] runs before the [try]:
    on a usage error or [-h] it leaves the process with [SystemExit] and
    [main] returns nothing.)  The output file is opened, and so emptied,
    before [json.dump] writes to it; when the dump raises, the part
    written so far stays in the file and [main] returns 1. *)
Definition main (world : services) (h : host) (args : arguments)
    (fs : files) : outcome :=
  match transform_json_file (transformer args) world h fs (input_file args)
          initial
  with
  | (inr transformed_data, st) =>
      if writable h (output_path args) then
        match dump h (output_path args) (indent args) transformed_data with
        | Complete text =>
            {| exit_code := 0;
               files_after := dict_set fs (output_path args) text;
               requests := sent st |}
        | Interrupted partial_text =>
            {| exit_code := 1;
               files_after := dict_set fs (output_path args) partial_text;
               requests := sent st |}
        end
      else {| exit_code := 1; files_after := fs; requests := sent st |}
  | (inl _, st) => {| exit_code := 1; files_after := fs; requests := sent st |}
  end.

(** A host for the examples: the codec knows two texts, [locked.json]
    cannot be read, [/readonly/out.json] cannot be opened for writing, and
    the dump to [/full/out.json] stops before the first character. *)
Definition sample_host : host :=
  {| readable := fun path => negb (String.eqb path "locked.json");
     loads := fun text =>
       if String.eqb text "{images}" then Some two_images
       else if String.eqb text "{broken components}"
       then Some (JDict [("components", JList [JInt 1])])
       else None;
     writable := fun path => negb (String.eqb path "/readonly/out.json");
     dump := fun path _ data =>
       if String.eqb path "/full/out.json" then Interrupted EmptyString
       else Complete (Json.repr data) |}.

Definition sample_files : files :=
  [("in.json", "{images}"); ("bad.json", "{broken components}");
   ("notes.txt", "not json"); ("locked.json", "{images}");
   ("/full/out.json", "old")].

(** Both dimensions known, or none. *)
Definition all_or_nothing (d : dimensions) : bool :=
  match d with
  | (Some _, Some _) | (None, None) => true
  | _ => false
  end.

(** Every entry of the dimension cache has both dimensions or none. *)
Definition cache_all_or_nothing (st : state) : Prop :=
  forall image_url d,
    dict_get (dimension_cache st) image_url = Some d -> all_or_nothing d = true.

(* ================================================================= *)
(** ** The runtime on examples *)

Example str_int_examples :
  str_int 42 = "42" /\ str_int 0 = "0" /\ str_int (-5) = "-5".
Proof. repeat split. Qed.

Example int_of_str_examples :
  int_of_str " 1_000 " = Some 1000 /\ int_of_str "-12" = Some (-12)
  /\ int_of_str "7.5" = None /\ int_of_str "" = None
  /\ int_of_str "1__0" = None.
Proof. repeat split. Qed.

Example isdigit_examples :
  isdigit "0042" = true /\ isdigit "" = false /\ isdigit "-5" = false
  /\ isdigit "4 2" = false.
Proof. repeat split. Qed.

Example lower_example : lower "homeTabBarBackgroundImage" = "hometabbarbackgroundimage".
Proof. reflexivity. Qed.

Example is_image_url_examples :
  is_image_url (JStr "https://x.org/A.PNG") = true
  /\ is_image_url (JStr "https://x.org/media/42") = true
  /\ is_image_url (JStr "https://x.org/page.html") = false
  /\ is_image_url (JInt 3) = false.
Proof. repeat split. Qed.

Example repr_example :
  Json.str (JList [JInt 1; JStr "a"; JDict [("k", JNull)]; JBool true])
  = "[1, 'a', {'k': None}, True]".
Proof. reflexivity. Qed.

Example spec_examples :
  fst (transform_data all_on sample_world (JDict [("category", JStr "42")]) initial)
  = Ok (JDict [("category", JStr "777")])
  /\ fst (transform_data all_on sample_world (JDict [("category", JStr "44")]) initial)
     = Ok (JDict [("category", JStr "44")])
  /\ fst (transform_data all_on sample_world (JDict [("category", JStr "43")]) initial)
     = Ok (JDict [("category", JStr "1139")]).
Proof. repeat split. Qed.

(* ================================================================= *)
(** ** The regrouping pass *)

Section Regrouping.

Lemma rbind_ok {A B} (r : result A) (k : A -> result B) (b : B) :
  rbind r k = Ok b -> exists a, r = Ok a /\ k a = Ok b.
Proof.
  destruct r as [a|e]; simpl; intros H.
  - exists a. split; [reflexivity | exact H].
  - discriminate H.
Qed.

Lemma mapR_length {A B} (f : A -> result B) (l : list A) (out : list B) :
  mapR f l = Ok out -> List.length out = List.length l.
Proof.
  revert out. induction l as [|x rest IH]; simpl; intros out H.
  - injection H as <-. reflexivity.
  - destruct (f x) as [y|e]; simpl in H; [|discriminate H].
    destruct (mapR f rest) as [ys|e]; simpl in H; [|discriminate H].
    injection H as <-. simpl. now rewrite (IH ys eq_refl).
Qed.

Lemma mapR_app {A B} (f : A -> result B) (l1 l2 : list A) :
  mapR f (l1 ++ l2)
  = (ys1 <- mapR f l1 ;; ys2 <- mapR f l2 ;; Ok (ys1 ++ ys2)%list).
Proof.
  induction l1 as [|x rest IH]; simpl.
  - destruct (mapR f l2); reflexivity.
  - destruct (f x) as [y|e]; simpl; [|reflexivity].
    rewrite IH. destruct (mapR f rest) as [ys|e]; simpl; [|reflexivity].
    destruct (mapR f l2); reflexivity.
Qed.

(** The accumulating loop appends one record per item, in order. *)
Lemma append_records_mapR (items acc : list json) :
  append_records acc items
  = (rs <- mapR main_category_record items ;; Ok (acc ++ rs)%list).
Proof.
  revert acc. induction items as [|item rest IH]; intros acc; simpl.
  - now rewrite app_nil_r.
  - destruct (main_category_record item) as [record|e]; simpl; [|reflexivity].
    rewrite IH. destruct (mapR main_category_record rest) as [rs|e]; simpl.
    + now rewrite <- app_assoc.
    + reflexivity.
Qed.

Lemma scan_components_step i component rest items to_remove :
  scan_components i (component :: rest) items to_remove
  = (d <- extraction component ;;
     match d with
     | Some rs => scan_components (S i) rest (items ++ rs) (to_remove ++ [i])
     | None => scan_components (S i) rest items to_remove
     end).
Proof.
  unfold extraction. simpl.
  destruct (Json.get component "layout") as [layout|e]; simpl; [|reflexivity].
  destruct (Json.eq_str layout "banner"); [|reflexivity].
  destruct (Json.get_default component "config" (JDict [])) as [config|e];
    simpl; [|reflexivity].
  destruct (Json.get_default config "items" (JList [])) as [items0|e];
    simpl; [|reflexivity].
  destruct (Json.iter items0) as [its|e]; simpl; [|reflexivity].
  destruct (all_main_category its) as [[|]|e]; simpl; try reflexivity.
  rewrite append_records_mapR.
  destruct (mapR main_category_record its); reflexivity.
Qed.

Lemma scan_components_decisions components :
  forall i items to_remove,
    scan_components i components items to_remove
    = (ds <- decisions components ;;
       Ok ((items ++ records ds)%list, (to_remove ++ positions i ds)%list)).
Proof.
  induction components as [|c rest IH]; intros i items to_remove.
  - simpl. now rewrite !app_nil_r.
  - rewrite scan_components_step. unfold decisions. simpl.
    destruct (extraction c) as [[rs|]|e]; simpl; [| |reflexivity].
    + rewrite IH. unfold decisions.
      destruct (mapR extraction rest) as [ds|e]; simpl; [|reflexivity].
      now rewrite <- !app_assoc.
    + rewrite IH. unfold decisions.
      destruct (mapR extraction rest) as [ds|e]; reflexivity.
Qed.

Lemma pop_middle {A} (pre post : list A) (x : A) :
  pop (pre ++ x :: post) (List.length pre) = Ok (pre ++ post)%list.
Proof.
  induction pre as [|y pre IH]; simpl.
  - reflexivity.
  - now rewrite IH.
Qed.

Lemma pop_each_app {A} (indices1 indices2 : list nat) :
  forall l : list A,
    pop_each l (indices1 ++ indices2)
    = (l' <- pop_each l indices1 ;; pop_each l' indices2).
Proof.
  induction indices1 as [|i rest IH]; intros l; simpl.
  - reflexivity.
  - destruct (pop l i) as [l'|e]; simpl; [apply IH | reflexivity].
Qed.

(** Popping the recorded indices from the last to the first removes
    exactly the extracted components: no index is ever out of range. *)
Lemma pop_each_positions (components : list json) :
  forall ds pre,
    List.length ds = List.length components ->
    pop_each (pre ++ components) (List.rev (positions (List.length pre) ds))
    = Ok (pre ++ survivors components ds)%list.
Proof.
  induction components as [|c rest IH]; intros ds pre Hlen.
  - destruct ds; [reflexivity | discriminate Hlen].
  - destruct ds as [|d ds]; [discriminate Hlen|].
    injection Hlen as Hlen.
    assert (Hshift : (pre ++ c :: rest = (pre ++ [c]) ++ rest)%list)
      by now rewrite <- app_assoc.
    assert (Hnext : S (List.length pre) = List.length (pre ++ [c]))
      by (rewrite length_app; simpl; lia).
    destruct d as [rs|]; simpl.
    + rewrite pop_each_app, Hnext, Hshift, (IH ds (pre ++ [c])%list Hlen).
      simpl. rewrite <- app_assoc. simpl.
      now rewrite pop_middle.
    + rewrite Hnext, Hshift, (IH ds (pre ++ [c])%list Hlen).
      now rewrite <- app_assoc.
Qed.

(** [collect_main_category_items] as one pass: decide each component,
    keep the survivors in order, and put the records in front. *)
Lemma collect_regrouped (components : list json) :
  collect_main_category_items components
  = (ds <- decisions components ;; Ok (regrouped components ds)).
Proof.
  unfold collect_main_category_items.
  rewrite scan_components_decisions.
  destruct (decisions components) as [ds|e] eqn:Hds; simpl; [|reflexivity].
  pose proof (pop_each_positions components ds [] (mapR_length _ _ _ Hds)) as H.
  simpl in H. rewrite H. unfold regrouped. simpl.
  destruct (records ds); reflexivity.
Qed.

Lemma decisions_read (components : list json) :
  forall ds,
    decisions components = Ok ds ->
    survivors components ds = filter stays components
    /\ records ds = flat_map extracted_records components.
Proof.
  unfold decisions.
  induction components as [|c rest IH]; simpl; intros ds H.
  - injection H as <-. split; reflexivity.
  - unfold stays, extracted_records.
    destruct (extraction c) as [d|e]; simpl in H; [|discriminate H].
    destruct (mapR extraction rest) as [ds'|e]; simpl in H; [|discriminate H].
    injection H as <-. destruct (IH ds' eq_refl) as [Hs Hr].
    destruct d as [rs|]; simpl; rewrite Hs, Hr; split; reflexivity.
Qed.

Lemma records_app ds1 ds2 :
  records (ds1 ++ ds2) = (records ds1 ++ records ds2)%list.
Proof.
  induction ds1 as [|[rs|] ds1 IH]; simpl.
  - reflexivity.
  - now rewrite IH, app_assoc.
  - exact IH.
Qed.

Lemma survivors_app cs1 :
  forall ds1 cs2 ds2,
    List.length ds1 = List.length cs1 ->
    survivors (cs1 ++ cs2) (ds1 ++ ds2)
    = (survivors cs1 ds1 ++ survivors cs2 ds2)%list.
Proof.
  induction cs1 as [|c cs1 IH]; intros [|d ds1] cs2 ds2 Hlen;
    try discriminate Hlen.
  - reflexivity.
  - injection Hlen as Hlen. destruct d; simpl; now rewrite IH.
Qed.

Lemma empty_banner_extraction (component : json) :
  empty_banner component = true -> extraction component = Ok (Some []).
Proof.
  unfold empty_banner, extraction, Json.get, Json.get_default.
  destruct component as [| | | | |l|d]; try discriminate.
  destruct (dict_get d "layout") as [[| | | |layout| |]|]; try discriminate.
  destruct (dict_get d "config") as [[| | | | | |config]|]; try discriminate.
  simpl.
  destruct (dict_get config "items") as [[| | | | |[|x l]|]|]; try discriminate.
  intros H. rewrite H. reflexivity.
Qed.

End Regrouping.

(** C1, as stated, fails: an empty banner does not stay in the output.
    On [[grid; empty banner]] the pass returns [[grid]]. *)
Lemma empty_banner_stays_counterexample :
  ~ (forall components component out,
        In component components ->
        empty_banner component = true ->
        collect_main_category_items components = Ok out ->
        In component out).
Proof.
  intros H.
  specialize (H [grid_component; empty_banner_component] empty_banner_component
                [grid_component]).
  destruct H as [H|[]].
  - right. left. reflexivity.
  - reflexivity.
  - reflexivity.
  - discriminate H.
Qed.

(** C1, amended: a banner component whose [config.items] is the empty
    array IS extracted (the [all] over no item holds): the first loop marks
    it with no record, it is in no output of the pass, and the pass returns
    what it returns on the sequence without it. *)
Theorem empty_banner_is_extracted (component : json)
    (Hempty : empty_banner component = true) :
  extraction component = Ok (Some [])
  /\ (forall components out,
        collect_main_category_items components = Ok out ->
        ~ In component out)
  /\ (forall before after,
        collect_main_category_items (before ++ component :: after)
        = collect_main_category_items (before ++ after)).
Proof.
  pose proof (empty_banner_extraction component Hempty) as Hext.
  split; [exact Hext|]. split.
  - intros components out Hout Hin.
    rewrite collect_regrouped in Hout.
    apply rbind_ok in Hout. destruct Hout as [ds [Hds Hout]].
    injection Hout as <-.
    destruct (decisions_read components ds Hds) as [Hs _].
    assert (Hnot : ~ In component (survivors components ds)).
    { rewrite Hs. intros Hf. apply filter_In in Hf. destruct Hf as [_ Hf].
      unfold stays in Hf. rewrite Hext in Hf. discriminate Hf. }
    unfold regrouped in Hin. destruct (records ds) as [|r rs].
    + exact (Hnot Hin).
    + destruct Hin as [Heq|Hin]; [|exact (Hnot Hin)].
      subst component. discriminate Hempty.
  - intros before after. rewrite !collect_regrouped.
    unfold decisions. rewrite !mapR_app. simpl. rewrite Hext. simpl.
    destruct (mapR extraction before) as [ds1|e] eqn:H1; simpl; [|reflexivity].
    destruct (mapR extraction after) as [ds2|e] eqn:H2; simpl; [|reflexivity].
    pose proof (mapR_length _ _ _ H1) as Hlen.
    unfold regrouped.
    rewrite !records_app, !survivors_app by exact Hlen.
    reflexivity.
Qed.

Lemma empty_banner_is_extracted_witness :
  empty_banner empty_banner_component = true
  /\ collect_main_category_items [grid_component; empty_banner_component]
     = collect_main_category_items [grid_component].
Proof.
  split.
  - reflexivity.
  - exact (proj2 (proj2 (empty_banner_is_extracted empty_banner_component eq_refl))
             [grid_component] []).
Defined.

(** The pass in terms of what its first loop decides for each component:
    the components it leaves are kept in their order, the records come in
    encounter order, and when there is at least one record a
    [mainCategoryList] holding them all is put at index 0.  When a
    component makes the first loop raise, the pass raises the same
    exception. *)
Lemma regrouping_pass (components : list json) :
  match decisions components with
  | Ok _ =>
      collect_main_category_items components
      = Ok (match flat_map extracted_records components with
            | [] => filter stays components
            | rs => main_category_list rs :: filter stays components
            end)
  | Raise e => collect_main_category_items components = Raise e
  end.
Proof.
  rewrite collect_regrouped.
  destruct (decisions components) as [ds|e] eqn:Hds; simpl; [|reflexivity].
  destruct (decisions_read components ds Hds) as [Hs Hr].
  unfold regrouped. now rewrite Hs, Hr.
Qed.

Example regrouping_pass_example :
  collect_main_category_items
    [grid_component; main_banner (JInt 5) "a.png";
     JDict [("layout", JStr "list")]; main_banner (JStr "7") "b.png"]
  = Ok [main_category_list
          [JDict [("id", JStr "5"); ("image", JStr "a.png")];
           JDict [("id", JStr "7"); ("image", JStr "b.png")]];
        grid_component; JDict [("layout", JStr "list")]].
Proof. reflexivity. Qed.

Example regrouping_pass_raises :
  collect_main_category_items [grid_component; JInt 3] = Raise AttributeError.
Proof. reflexivity. Qed.

(* ================================================================= *)
(** ** Dicts *)

Section Dicts.

Context {V : Type}.

Lemma dict_get_set_same (d : dict V) k v :
  dict_get (dict_set d k v) k = Some v.
Proof.
  induction d as [|[k' v'] rest IH]; simpl.
  - now rewrite String.eqb_refl.
  - destruct (String.eqb k k') eqn:E; simpl; rewrite E; [reflexivity | exact IH].
Qed.

Lemma dict_get_set_other (d : dict V) k k' v :
  k' <> k -> dict_get (dict_set d k v) k' = dict_get d k'.
Proof.
  intros Hne. induction d as [|[k0 v0] rest IH]; simpl.
  - destruct (String.eqb k' k) eqn:E; [|reflexivity].
    apply String.eqb_eq in E. contradiction.
  - destruct (String.eqb k k0) eqn:E; simpl.
    + apply String.eqb_eq in E. subst k0.
      destruct (String.eqb k' k) eqn:E'; [|reflexivity].
      apply String.eqb_eq in E'. contradiction.
    + now rewrite IH.
Qed.

Lemma dict_mem_get (d : dict V) k :
  dict_mem d k = true -> exists v, dict_get d k = Some v.
Proof.
  unfold dict_mem. destruct (dict_get d k) as [v|]; [|discriminate].
  intros _. now exists v.
Qed.

Lemma dict_get_keys (d : dict V) k :
  dict_get d k = None <-> ~ In k (keys d).
Proof.
  induction d as [|[k' v'] rest IH]; simpl.
  - tauto.
  - destruct (String.eqb k k') eqn:E.
    + apply String.eqb_eq in E. subst k'. split; [discriminate | tauto].
    + apply String.eqb_neq in E. rewrite IH. split.
      * intros H [H'|H']; [congruence | tauto].
      * tauto.
Qed.

(** Setting a key that the dict does not have appends the entry. *)
Lemma dict_set_fresh (d : dict V) k v :
  ~ In k (keys d) -> dict_set d k v = (d ++ [(k, v)])%list.
Proof.
  induction d as [|[k' v'] rest IH]; simpl; intros Hk.
  - reflexivity.
  - destruct (String.eqb k k') eqn:E.
    + apply String.eqb_eq in E. subst k'. tauto.
    + rewrite IH by tauto. reflexivity.
Qed.

Lemma unique_NoDup (l : list string) : unique l = true <-> NoDup l.
Proof.
  induction l as [|k rest IH]; simpl.
  - split; [constructor | reflexivity].
  - rewrite andb_true_iff, negb_true_iff, IH. split.
    + intros [Hk Hr]. constructor; [|exact Hr].
      intros Hin.
      assert (existsb (String.eqb k) rest = true) as Hex.
      { apply existsb_exists. exists k. split; [exact Hin|apply String.eqb_refl]. }
      congruence.
    + intros Hnd. inversion Hnd as [|? ? Hk Hr]; subst. split; [|exact Hr].
      destruct (existsb (String.eqb k) rest) eqn:E; [|reflexivity].
      apply existsb_exists in E. destruct E as [x [Hin Hx]].
      apply String.eqb_eq in Hx. subst x. contradiction.
Qed.

End Dicts.

(* ================================================================= *)
(** ** The monad *)

Section Monad.

Variable P : state -> Prop.

Lemma preserves_ret {A} (a : A) : preserves P (ret a).
Proof. intros st r st' HP H. injection H as _ <-. exact HP. Qed.

Lemma preserves_lift {A} (x : result A) : preserves P (lift x).
Proof. intros st r st' HP H. injection H as _ <-. exact HP. Qed.

Lemma preserves_bind {A B} (m : M A) (k : A -> M B) :
  preserves P m -> (forall a, preserves P (k a)) -> preserves P (bind m k).
Proof.
  intros Hm Hk st r st' HP H. unfold bind in H.
  destruct (m st) as [[a|e] st1] eqn:E.
  - exact (Hk a st1 r st' (Hm st _ st1 HP E) H).
  - injection H as _ <-. exact (Hm st _ st1 HP E).
Qed.

Lemma preserves_mapM {A B} (f : A -> M B) (l : list A) :
  Forall (fun x => preserves P (f x)) l -> preserves P (mapM f l).
Proof.
  induction 1 as [|x rest Hx _ IH]; simpl.
  - apply preserves_ret.
  - apply preserves_bind; [exact Hx|]. intros y.
    apply preserves_bind; [exact IH|]. intros ys. apply preserves_ret.
Qed.

Lemma preserves_dict_loop {A B} (f : string -> A -> M B) (d : dict A) :
  Forall (fun kv => preserves P (f (fst kv) (snd kv))) d ->
  forall transformed, preserves P (dict_loop f d transformed).
Proof.
  induction 1 as [|kv rest Hkv _ IH]; intros transformed; simpl.
  - apply preserves_ret.
  - apply preserves_bind; [exact Hkv|]. intros v. apply IH.
Qed.

End Monad.

(* ================================================================= *)
(** ** The two resolvers, step by step *)

Section Resolvers.

Variable self : settings.
Variable world : services.

(** What a call of [get_image_dimensions] does when it gets past the
    two early returns: one request, the outcome stored when caching is
    on, and no exception whatever the reply. *)
Lemma get_image_dimensions_fetch image_url st :
  fetch_dimensions self = true ->
  (cache_dimensions self && dict_mem (dimension_cache st) image_url)%bool = false ->
  get_image_dimensions self world image_url st
  = (Ok (fetched world (sent st) image_url),
     with_dimension self st image_url (fetched world (sent st) image_url)
       (GetImage image_url :: sent st)).
Proof.
  intros Hf Hc. unfold get_image_dimensions. rewrite Hf. cbn [negb].
  rewrite Hc.
  unfold try_catch, request_image, bind, send, lift, fetched, with_dimension,
    set_dimension, ret.
  destruct (image_service world (sent st) image_url);
    destruct (cache_dimensions self); reflexivity.
Qed.

Lemma get_image_dimensions_hit image_url st d :
  fetch_dimensions self = true ->
  cache_dimensions self = true ->
  dict_get (dimension_cache st) image_url = Some d ->
  get_image_dimensions self world image_url st = (Ok d, st).
Proof.
  intros Hf Hc Hd. unfold get_image_dimensions, dict_mem, lift, dict_item.
  rewrite Hf, Hc. cbn [negb]. now rewrite Hd.
Qed.

Lemma get_image_dimensions_off image_url st :
  fetch_dimensions self = false ->
  get_image_dimensions self world image_url st = (Ok (None, None), st).
Proof. intros Hf. unfold get_image_dimensions. now rewrite Hf. Qed.

(** The three ways through [get_image_dimensions]. *)
Lemma get_image_dimensions_cases image_url st :
  (fetch_dimensions self = false
   /\ get_image_dimensions self world image_url st = (Ok (None, None), st))
  \/ (fetch_dimensions self = true /\ cache_dimensions self = true
      /\ exists d, dict_get (dimension_cache st) image_url = Some d
                   /\ get_image_dimensions self world image_url st = (Ok d, st))
  \/ (fetch_dimensions self = true
      /\ (cache_dimensions self = true ->
          dict_get (dimension_cache st) image_url = None)
      /\ get_image_dimensions self world image_url st
         = (Ok (fetched world (sent st) image_url),
            with_dimension self st image_url (fetched world (sent st) image_url)
              (GetImage image_url :: sent st))).
Proof.
  destruct (fetch_dimensions self) eqn:Hf.
  - destruct (cache_dimensions self && dict_mem (dimension_cache st) image_url)%bool
      eqn:Hc.
    + apply andb_true_iff in Hc. destruct Hc as [Hc Hm].
      destruct (dict_mem_get _ _ Hm) as [d Hd].
      right. left. repeat split; [exact Hc|]. exists d. split; [exact Hd|].
      now apply get_image_dimensions_hit.
    + right. right. split; [reflexivity|]. split.
      * intros Hc'. rewrite Hc' in Hc. simpl in Hc. unfold dict_mem in Hc.
        destruct (dict_get (dimension_cache st) image_url); [discriminate Hc|reflexivity].
      * now apply get_image_dimensions_fetch.
  - left. split; [reflexivity|]. now apply get_image_dimensions_off.
Qed.

Lemma get_image_dimensions_total image_url :
  total (get_image_dimensions self world image_url).
Proof.
  intros st.
  destruct (get_image_dimensions_cases image_url st)
    as [[_ H]|[[_ [_ [d [_ H]]]]|[_ [_ H]]]]; rewrite H; eauto.
Qed.

Lemma create_image_model_descriptor image_url st :
  create_image_model self world image_url None None st
  = match get_image_dimensions self world image_url st with
    | (Ok dims, st') => (Ok (descriptor image_url dims), st')
    | (Raise e, st') => (Raise e, st')
    end.
Proof.
  unfold create_image_model, bind.
  destruct (get_image_dimensions self world image_url st) as [[[w h]|e] st'];
    [|reflexivity].
  unfold ret, descriptor, or_dimension. simpl.
  destruct w, h; reflexivity.
Qed.

Lemma get_wordpress_category_name_stage1 category_id st :
  get_wordpress_category_name world category_id st
  = (Ok (stage1 world (sent st) category_id),
     {| dimension_cache := dimension_cache st;
        category_cache := category_cache st;
        sent := GetWordpressCategory category_id :: sent st |}).
Proof.
  unfold get_wordpress_category_name, try_catch, bind, send, lift, stage1,
    try_except, ret.
  destruct (wordpress_category_name _); reflexivity.
Qed.

Lemma get_odoo_category_id_stage2 category_name st :
  get_odoo_category_id world category_name st
  = (Ok (fst (stage2 world (sent st) category_name)),
     {| dimension_cache := dimension_cache st;
        category_cache := category_cache st;
        sent := snd (stage2 world (sent st) category_name) |}).
Proof.
  unfold get_odoo_category_id, try_catch, bind, send, lift, stage2,
    try_except, ret.
  destruct (quote category_name) as [encoded|e]; simpl.
  - destruct (odoo_category_id _); reflexivity.
  - destruct st; reflexivity.
Qed.

Lemma convert_category_id_miss category_id st :
  convert_category_ids self = true ->
  dict_get (category_cache st) category_id = None ->
  convert_category_id self world category_id st
  = (Ok (fst (chain world (sent st) category_id)),
     with_category st category_id (fst (chain world (sent st) category_id))
       (snd (chain world (sent st) category_id))).
Proof.
  intros He Hc. unfold convert_category_id, dict_mem. rewrite He.
  cbn [negb]. rewrite Hc.
  unfold bind at 1. rewrite get_wordpress_category_name_stage1.
  unfold chain.
  destruct (stage1 world (sent st) category_id) eqn:Hs; [reflexivity|..].
  all: unfold bind at 1; rewrite get_odoo_category_id_stage2; cbn [sent];
    destruct (stage2 world _ _) as [[odoo_id|] log2]; reflexivity.
Qed.

Lemma convert_category_id_hit category_id st target :
  convert_category_ids self = true ->
  dict_get (category_cache st) category_id = Some target ->
  convert_category_id self world category_id st = (Ok target, st).
Proof.
  intros He Hc. unfold convert_category_id, dict_mem, lift, dict_item.
  rewrite He. cbn [negb]. now rewrite Hc.
Qed.

Lemma convert_category_id_off category_id st :
  convert_category_ids self = false ->
  convert_category_id self world category_id st = (Ok category_id, st).
Proof. intros He. unfold convert_category_id. now rewrite He. Qed.

(** The three ways through [convert_category_id]. *)
Lemma convert_category_id_cases category_id st :
  (convert_category_ids self = false
   /\ convert_category_id self world category_id st = (Ok category_id, st))
  \/ (convert_category_ids self = true
      /\ exists target,
           dict_get (category_cache st) category_id = Some target
           /\ convert_category_id self world category_id st = (Ok target, st))
  \/ (convert_category_ids self = true
      /\ dict_get (category_cache st) category_id = None
      /\ convert_category_id self world category_id st
         = (Ok (fst (chain world (sent st) category_id)),
            with_category st category_id (fst (chain world (sent st) category_id))
              (snd (chain world (sent st) category_id)))).
Proof.
  destruct (convert_category_ids self) eqn:He.
  - destruct (dict_get (category_cache st) category_id) as [target|] eqn:Hc.
    + right. left. split; [reflexivity|]. exists target. split; [reflexivity|].
      now apply convert_category_id_hit.
    + right. right. repeat split. now apply convert_category_id_miss.
  - left. split; [reflexivity|]. now apply convert_category_id_off.
Qed.

Lemma convert_category_id_total category_id :
  total (convert_category_id self world category_id).
Proof.
  intros st.
  destruct (convert_category_id_cases category_id st)
    as [[_ H]|[[_ [target [_ H]]]|[_ [_ H]]]]; rewrite H; eauto.
Qed.

End Resolvers.

(** Case analysis on a call of a resolver: [H] is the equation of the call;
    each case replaces the result and the final state by what the call
    made of them. *)
Ltac remap_cases self world category_id st H :=
  let E := fresh "E" in
  destruct (convert_category_id_cases self world category_id st)
    as [[_ E]|[[_ [?target [?Hhit E]]]|[_ [?Hmiss E]]]];
  rewrite E in H; injection H as _ <-.

Ltac fetch_cases self world image_url st H :=
  let E := fresh "E" in
  destruct (get_image_dimensions_cases self world image_url st)
    as [[_ E]|[[_ [_ [?dims [?Hhit E]]]]|[_ [?Hmiss E]]]];
  rewrite E in H; injection H as _ <-.

(* ================================================================= *)
(** ** The tree walk *)

Section Walk.

Variable self : settings.
Variable world : services.

Lemma transform_data_dict d :
  transform_data self world (JDict d)
  = (transformed <- dict_loop (transform_entry self world) d [] ; ret (JDict transformed))%M.
Proof. reflexivity. Qed.

Lemma transform_data_list l :
  transform_data self world (JList l)
  = (transformed <- mapM (transform_data self world) l ;
     ret (JList transformed))%M.
Proof. reflexivity. Qed.

Lemma transform_value_list key l :
  transform_value self world key (JList l)
  = (transformed_list <- mapM (transform_element self world key) l ;
     ret (JList transformed_list))%M.
Proof.
  unfold transform_value, transform_value_with. simpl.
  rewrite andb_false_r. reflexivity.
Qed.

Lemma transform_value_dict key d :
  transform_value self world key (JDict d) = transform_data self world (JDict d).
Proof.
  unfold transform_value, transform_value_with.
  cbn [Json.is_str_or_int]. rewrite andb_false_r. reflexivity.
Qed.

Section Preservation.

Variable P : state -> Prop.
Hypothesis convert_keeps :
  forall category_id, preserves P (convert_category_id self world category_id).
Hypothesis dimensions_keep :
  forall image_url, preserves P (get_image_dimensions self world image_url).

Lemma create_image_model_preserves image_url :
  preserves P (create_image_model self world image_url None None).
Proof.
  intros st r st' HP H. rewrite create_image_model_descriptor in H.
  destruct (get_image_dimensions self world image_url st) as [[d|e] st1] eqn:E;
    injection H as _ <-; exact (dimensions_keep _ _ _ _ HP E).
Qed.

Lemma remap_preserves key value (rest : M json) :
  preserves P rest ->
  preserves P
    (if (is_category_key key && Json.is_str_or_int value
         && isdigit (Json.str value))%bool
     then
       (converted_id <- convert_category_id self world (Json.str value) ;
        if Json.is_int value then
          match int_of_str converted_id with
          | Some n => ret (JInt n)
          | None => ret (JStr converted_id)
          end
        else ret (JStr converted_id))%M
     else rest).
Proof.
  intros Hrest.
  destruct (is_category_key key && Json.is_str_or_int value
            && isdigit (Json.str value))%bool; [|exact Hrest].
  apply preserves_bind; [apply convert_keeps|]. intros converted.
  destruct (Json.is_int value); [destruct (int_of_str converted)|];
    apply preserves_ret.
Qed.

Lemma walks_scalar v (rest : string -> M json) :
  (forall key, transform_entry self world key v = transform_value self world key v) ->
  transform_data self world v = ret v ->
  (forall key, preserves P (rest key)) ->
  (forall key,
      transform_value self world key v
      = (if (is_category_key key && Json.is_str_or_int v
             && isdigit (Json.str v))%bool
         then
           (converted_id <- convert_category_id self world (Json.str v) ;
            if Json.is_int v then
              match int_of_str converted_id with
              | Some n => ret (JInt n)
              | None => ret (JStr converted_id)
              end
            else ret (JStr converted_id))%M
         else rest key)) ->
  walks self world P v.
Proof.
  intros Hentry Hdata Hrest Hvalue. split.
  - rewrite Hdata. apply preserves_ret.
  - intros key. rewrite Hentry.
    assert (preserves P (transform_value self world key v)) as H.
    { rewrite Hvalue. apply remap_preserves, Hrest. }
    split; exact H.
Qed.

Lemma transform_data_walks : forall v, walks self world P v.
Proof.
  apply json_nested_ind.
  - apply walks_scalar with (rest := fun _ => ret JNull); try reflexivity.
    intros; apply preserves_ret.
  - intros b.
    apply walks_scalar with (rest := fun _ => ret (JBool b)); try reflexivity.
    intros; apply preserves_ret.
  - intros n.
    apply walks_scalar with (rest := fun _ => ret (JInt n)); try reflexivity.
    intros; apply preserves_ret.
  - intros r.
    apply walks_scalar with (rest := fun _ => ret (JFloat r)); try reflexivity.
    intros; apply preserves_ret.
  - intros s.
    apply walks_scalar
      with (rest := fun key =>
                      if (is_image_field key || is_image_url (JStr s))%bool
                      then create_image_model self world s None None
                      else ret (JStr s)); try reflexivity.
    intros key.
    destruct (is_image_field key || is_image_url (JStr s))%bool;
      [apply create_image_model_preserves | apply preserves_ret].
  - intros l IH.
    assert (Hdata : preserves P (mapM (transform_data self world) l)).
    { apply preserves_mapM. eapply Forall_impl; [|exact IH].
      intros x [Hx _]. exact Hx. }
    assert (Hvalue : forall key, preserves P (transform_value self world key (JList l))).
    { intros key. rewrite transform_value_list.
      apply preserves_bind; [|intros; apply preserves_ret].
      apply preserves_mapM. eapply Forall_impl; [|exact IH].
      intros x [Hx _]. unfold transform_element.
      destruct x; try exact Hx.
      destruct (is_image_field key || is_image_url (JStr s))%bool;
        [apply create_image_model_preserves | exact Hx]. }
    split; [|intros key; split].
    + rewrite transform_data_list.
      apply preserves_bind; [exact Hdata | intros; apply preserves_ret].
    + apply Hvalue.
    + unfold transform_entry. destruct (String.eqb key "components").
      * apply preserves_bind; [exact Hdata|]. intros components.
        apply preserves_bind; [apply preserves_lift|].
        intros; apply preserves_ret.
      * apply Hvalue.
  - intros d IH.
    assert (Hdata : preserves P (transform_data self world (JDict d))).
    { rewrite transform_data_dict.
      apply preserves_bind; [|intros; apply preserves_ret].
      apply preserves_dict_loop. eapply Forall_impl; [|exact IH].
      intros kv [_ Hkv]. apply Hkv. }
    split; [exact Hdata|]. intros key.
    unfold transform_entry. rewrite transform_value_dict. split; exact Hdata.
Qed.

(** A state property that both resolvers keep is kept by the whole walk,
    whether it returns or raises. *)
Lemma transform_data_preserves data :
  preserves P (transform_data self world data).
Proof. exact (proj1 (transform_data_walks data)). Qed.

End Preservation.

End Walk.

(* ================================================================= *)
(** ** The caches *)

Section Caches.

Variable self : settings.
Variable world : services.

Lemma stage2_log log category_name :
  image_urls (snd (stage2 world log category_name)) = image_urls log
  /\ wordpress_ids (snd (stage2 world log category_name)) = wordpress_ids log.
Proof.
  unfold stage2. destruct (quote category_name); split; reflexivity.
Qed.

Lemma chain_log log category_id :
  image_urls (snd (chain world log category_id)) = image_urls log
  /\ wordpress_ids (snd (chain world log category_id))
     = category_id :: wordpress_ids log.
Proof.
  unfold chain.
  destruct (stage1 world log category_id); cbn [snd];
    try (destruct (stage2_log (GetWordpressCategory category_id :: log)
                     (stage1 world log category_id)) as [H1 H2]);
    try (split; reflexivity).
  all: match goal with
       | |- context [stage2 world ?l ?n] =>
           destruct (stage2_log l n) as [Hi Hw]; rewrite Hi, Hw
       end; split; reflexivity.
Qed.

(** Remapping a category leaves the dimension side alone. *)
Lemma convert_category_id_frame category_id st r st' :
  convert_category_id self world category_id st = (r, st') ->
  dimension_cache st' = dimension_cache st
  /\ image_urls (sent st') = image_urls (sent st).
Proof.
  intros H. remap_cases self world category_id st H;
    try (split; reflexivity).
  cbn [with_category dimension_cache sent].
  split; [reflexivity | apply chain_log].
Qed.

(** Resolving dimensions leaves the category side alone. *)
Lemma get_image_dimensions_frame image_url st r st' :
  get_image_dimensions self world image_url st = (r, st') ->
  category_cache st' = category_cache st
  /\ wordpress_ids (sent st') = wordpress_ids (sent st).
Proof.
  intros H. fetch_cases self world image_url st H; split; reflexivity.
Qed.

Lemma convert_category_id_lookups category_id :
  preserves lookups_cached (convert_category_id self world category_id).
Proof.
  intros st r st' [Hnd Hin] H.
  remap_cases self world category_id st H; try (split; assumption).
  unfold lookups_cached. cbn [with_category category_cache sent].
  destruct (chain_log (sent st) category_id) as [_ Hw]. rewrite Hw. split.
  - constructor; [|exact Hnd]. intros Hold. exact (Hin _ Hold Hmiss).
  - intros id [<-|Hold].
    + rewrite dict_get_set_same. discriminate.
    + destruct (string_dec id category_id) as [->|Hne].
      * rewrite dict_get_set_same. discriminate.
      * rewrite dict_get_set_other by exact Hne. exact (Hin _ Hold).
Qed.

Lemma get_image_dimensions_lookups image_url :
  preserves lookups_cached (get_image_dimensions self world image_url).
Proof.
  intros st r st' HP H. unfold lookups_cached.
  destruct (@get_image_dimensions_frame _ _ _ _ H) as [-> ->]. exact HP.
Qed.

Lemma convert_category_id_fetches category_id :
  preserves fetches_cached (convert_category_id self world category_id).
Proof.
  intros st r st' HP H. unfold fetches_cached.
  destruct (@convert_category_id_frame _ _ _ _ H) as [-> ->]. exact HP.
Qed.

Lemma get_image_dimensions_fetches image_url :
  cache_dimensions self = true ->
  preserves fetches_cached (get_image_dimensions self world image_url).
Proof.
  intros Hcache st r st' [Hnd Hin] H.
  fetch_cases self world image_url st H; try (split; assumption).
  specialize (Hmiss Hcache). unfold fetches_cached, with_dimension.
  rewrite Hcache. cbn [dimension_cache sent image_urls]. split.
  - constructor; [|exact Hnd]. intros Hold. exact (Hin _ Hold Hmiss).
  - intros url [<-|Hold].
    + rewrite dict_get_set_same. discriminate.
    + destruct (string_dec url image_url) as [->|Hne].
      * rewrite dict_get_set_same. discriminate.
      * rewrite dict_get_set_other by exact Hne. exact (Hin _ Hold).
Qed.

(** A cache entry, once written, is never changed. *)
Lemma convert_category_id_keeps_entry id target category_id :
  preserves (fun st => dict_get (category_cache st) id = Some target)
            (convert_category_id self world category_id).
Proof.
  intros st r st' HP H.
  remap_cases self world category_id st H; try exact HP.
  cbn [with_category category_cache].
  rewrite dict_get_set_other; [exact HP|]. intros ->. congruence.
Qed.

Lemma get_image_dimensions_keeps_entry url dims image_url :
  preserves (fun st => dict_get (dimension_cache st) url = Some dims)
            (get_image_dimensions self world image_url).
Proof.
  intros st r st' HP H.
  fetch_cases self world image_url st H; try exact HP.
  unfold with_dimension. cbn [dimension_cache].
  destruct (cache_dimensions self); [|exact HP].
  rewrite dict_get_set_other; [exact HP|]. intros ->.
  rewrite (Hmiss eq_refl) in HP. discriminate HP.
Qed.

End Caches.

(* ================================================================= *)
(** ** Claims on the category remapping *)

Lemma stage1_misses world log category_id :
  wordpress_service world log category_id = NoReply
  \/ (exists status_code body,
         wordpress_service world log category_id = Reply status_code body
         /\ status_code <> 200)
  \/ wordpress_service world log category_id = Reply 200 None
  \/ wordpress_service world log category_id = Reply 200 (Some (JList [])) ->
  stage1 world log category_id = JNull.
Proof.
  unfold stage1.
  intros [ -> | [ [status_code [body [ -> Hne]]] | [ -> | -> ] ] ]; try reflexivity.
  simpl. apply Z.eqb_neq in Hne. now rewrite Hne.
Qed.

Lemma stage2_misses world log category_name :
  odoo_service world log category_name = NoReply
  \/ (exists status_code body,
         odoo_service world log category_name = Reply status_code body
         /\ status_code <> 200)
  \/ odoo_service world log category_name = Reply 200 None
  \/ odoo_service world log category_name = Reply 200 (Some catalog_empty) ->
  fst (stage2 world log (JStr category_name)) = None.
Proof.
  unfold stage2. simpl.
  intros [ -> | [ [status_code [body [ -> Hne]]] | [ -> | -> ] ] ]; try reflexivity.
  simpl. apply Z.eqb_neq in Hne. now rewrite Hne.
Qed.

Lemma stage2_entry world log category_name d entry more matta_id :
  odoo_service world log category_name = Reply 200 (Some (JDict d)) ->
  dict_get d "status" = Some (JStr "success") ->
  dict_get d "data" = Some (JList (JDict entry :: more)) ->
  dict_get entry "mattaId" = Some matta_id ->
  fst (stage2 world log (JStr category_name))
  = if Json.truthy matta_id then Some (Json.str matta_id) else None.
Proof.
  intros Hr Hs Hd He. unfold stage2. simpl. rewrite Hr. simpl.
  unfold Json.get, Json.get_default. rewrite Hs. simpl.
  unfold Json.item. rewrite Hd. simpl. rewrite He. simpl.
  destruct (Json.truthy matta_id); reflexivity.
Qed.

(** C3, as stated, fails: when both stages succeed the catalog entry's id
    is not always what comes back.  The name is found and the catalog
    answers with a match whose [mattaId] is 0: the result is the
    placeholder "1139", not "0". *)
Lemma catalog_id_zero_counterexample :
  ~ (forall self world category_id st name more_names d entry more matta_id,
        convert_category_ids self = true ->
        dict_get (category_cache st) category_id = None ->
        wordpress_service world (sent st) category_id
        = Reply 200 (Some (JList (JDict [("name", JStr name)] :: more_names))) ->
        odoo_service world (GetWordpressCategory category_id :: sent st) name
        = Reply 200 (Some (JDict d)) ->
        dict_get d "status" = Some (JStr "success") ->
        dict_get d "data" = Some (JList (JDict entry :: more)) ->
        dict_get entry "mattaId" = Some (JInt matta_id) ->
        fst (convert_category_id self world category_id st)
        = Ok (str_int matta_id)).
Proof.
  intros H.
  specialize (H all_on zero_world "42" initial "Shoes" []
                [("status", JStr "success");
                 ("data", JList [JDict [("mattaId", JInt 0)]])]
                [("mattaId", JInt 0)] [] 0
                eq_refl eq_refl eq_refl eq_refl eq_refl eq_refl eq_refl).
  discriminate H.
Qed.

Example catalog_id_zero_output :
  fst (convert_category_id all_on zero_world "42" initial) = Ok "1139".
Proof. reflexivity. Qed.

(** C3, amended: with remapping enabled, a source id that is not yet in
    the cache resolves to itself when stage 1 finds no name (no record, or
    any error), and to the placeholder "1139" when stage 1 finds a name and
    stage 2 finds no id (no match, or any error).  When both replies are
    matches, the result is [str] of the first catalog entry's [mattaId]
    (decimal for an integer; stated for an id that is not an array or a
    mapping) only if that [mattaId] is true: an entry whose [mattaId] is 0,
    null, false, empty or absent counts as no match and gives "1139" as
    well. *)
Theorem remap_fallbacks (self : settings) (world : services)
    (category_id : string) (st : state)
    (Henabled : convert_category_ids self = true)
    (Hmiss : dict_get (category_cache st) category_id = None) :
  let log1 := GetWordpressCategory category_id :: sent st in
  (* the two stages are what the two helper methods return *)
  fst (get_wordpress_category_name world category_id st)
    = Ok (stage1 world (sent st) category_id)
  /\ (forall category_name st1,
        sent st1 = log1 ->
        fst (get_odoo_category_id world category_name st1)
        = Ok (fst (stage2 world log1 category_name)))
  (* the three outcomes *)
  /\ fst (convert_category_id self world category_id st)
     = Ok (match stage1 world (sent st) category_id with
           | JNull => category_id
           | category_name =>
               match fst (stage2 world log1 category_name) with
               | None => "1139"
               | Some odoo_id => odoo_id
               end
           end)
  (* no record and errors at stage 1 *)
  /\ (wordpress_service world (sent st) category_id = NoReply
      \/ (exists status_code body,
             wordpress_service world (sent st) category_id
             = Reply status_code body /\ status_code <> 200)
      \/ wordpress_service world (sent st) category_id = Reply 200 None
      \/ wordpress_service world (sent st) category_id
         = Reply 200 (Some (JList [])) ->
      fst (convert_category_id self world category_id st) = Ok category_id)
  (* no match and errors at stage 2 *)
  /\ (forall name,
        stage1 world (sent st) category_id = JStr name ->
        odoo_service world log1 name = NoReply
        \/ (exists status_code body,
               odoo_service world log1 name = Reply status_code body
               /\ status_code <> 200)
        \/ odoo_service world log1 name = Reply 200 None
        \/ odoo_service world log1 name = Reply 200 (Some catalog_empty) ->
        fst (convert_category_id self world category_id st) = Ok "1139")
  (* both replies are matches: an integer id *)
  /\ (forall name d entry more matta_id,
        stage1 world (sent st) category_id = JStr name ->
        odoo_service world log1 name = Reply 200 (Some (JDict d)) ->
        dict_get d "status" = Some (JStr "success") ->
        dict_get d "data" = Some (JList (JDict entry :: more)) ->
        dict_get entry "mattaId" = Some (JInt matta_id) ->
        fst (convert_category_id self world category_id st)
        = Ok (if matta_id =? 0 then "1139" else str_int matta_id))
  (* both replies are matches: any id that is not an array or a mapping *)
  /\ (forall name d entry more matta_id,
        stage1 world (sent st) category_id = JStr name ->
        odoo_service world log1 name = Reply 200 (Some (JDict d)) ->
        dict_get d "status" = Some (JStr "success") ->
        dict_get d "data" = Some (JList (JDict entry :: more)) ->
        dict_get entry "mattaId" = Some matta_id ->
        is_list matta_id = false -> is_dict matta_id = false ->
        fst (convert_category_id self world category_id st)
        = Ok (if Json.truthy matta_id then Json.str matta_id else "1139"))
  (* both replies are matches: no id in the entry *)
  /\ (forall name d entry more,
        stage1 world (sent st) category_id = JStr name ->
        odoo_service world log1 name = Reply 200 (Some (JDict d)) ->
        dict_get d "status" = Some (JStr "success") ->
        dict_get d "data" = Some (JList (JDict entry :: more)) ->
        dict_get entry "mattaId" = None ->
        fst (convert_category_id self world category_id st) = Ok "1139").
Proof.
  intros log1.
  assert (Hconv :
    fst (convert_category_id self world category_id st)
    = Ok (match stage1 world (sent st) category_id with
          | JNull => category_id
          | category_name =>
              match fst (stage2 world log1 category_name) with
              | None => "1139"
              | Some odoo_id => odoo_id
              end
          end)).
  { rewrite (@convert_category_id_miss self world _ _ Henabled Hmiss).
    cbn [fst]. unfold chain. fold log1.
    destruct (stage1 world (sent st) category_id); reflexivity. }
  split; [|split; [|split; [|split; [|split; [|split; [|split]]]]]].
  - now rewrite get_wordpress_category_name_stage1.
  - intros category_name st1 Hlog.
    rewrite get_odoo_category_id_stage2. cbn [fst]. now rewrite Hlog.
  - exact Hconv.
  - intros H. rewrite Hconv, (stage1_misses _ _ _ H). reflexivity.
  - intros name Hname H. rewrite Hconv, Hname, (stage2_misses _ _ _ H).
    reflexivity.
  - intros name d entry more matta_id Hname Hr Hs Hd He.
    rewrite Hconv, Hname, (stage2_entry _ _ _ _ _ _ _ Hr Hs Hd He).
    cbn [Json.truthy Json.str Json.repr]. destruct (matta_id =? 0); reflexivity.
  - intros name d entry more matta_id Hname Hr Hs Hd He _ _.
    rewrite Hconv, Hname, (stage2_entry _ _ _ _ _ _ _ Hr Hs Hd He).
    destruct (Json.truthy matta_id); reflexivity.
  - intros name d entry more Hname Hr Hs Hd He.
    rewrite Hconv, Hname. unfold stage2. simpl. rewrite Hr. simpl.
    unfold Json.get, Json.get_default. rewrite Hs. simpl.
    unfold Json.item. rewrite Hd. simpl. rewrite He. reflexivity.
Qed.

Lemma remap_fallbacks_witness :
  convert_category_ids all_on = true
  /\ dict_get (category_cache initial) "42" = None
  /\ fst (convert_category_id all_on sample_world "42" initial) = Ok "777"
  /\ fst (convert_category_id all_on sample_world "43" initial) = Ok "1139"
  /\ fst (convert_category_id all_on sample_world "44" initial) = Ok "44"
  /\ fst (convert_category_id all_on zero_world "42" initial) = Ok "1139".
Proof.
  split; [reflexivity|]. split; [reflexivity|].
  pose proof (@remap_fallbacks all_on sample_world "42" initial eq_refl eq_refl)
    as H42.
  pose proof (@remap_fallbacks all_on sample_world "43" initial eq_refl eq_refl)
    as H43.
  pose proof (@remap_fallbacks all_on sample_world "44" initial eq_refl eq_refl)
    as H44.
  pose proof (@remap_fallbacks all_on zero_world "42" initial eq_refl eq_refl)
    as H0.
  cbv zeta in H42, H43, H44, H0.
  split; [|split; [|split]].
  - exact (proj1 (proj2 (proj2 (proj2 (proj2 (proj2 H42)))))
             "Shoes" [("status", JStr "success");
                      ("data", JList [JDict [("mattaId", JInt 777)]])]
             [("mattaId", JInt 777)] [] 777
             eq_refl eq_refl eq_refl eq_refl eq_refl).
  - apply (proj1 (proj2 (proj2 (proj2 (proj2 H43))))) with (name := "Hats").
    + reflexivity.
    + right. right. right. reflexivity.
  - apply (proj1 (proj2 (proj2 (proj2 H44)))).
    right. right. right. reflexivity.
  - exact (proj1 (proj2 (proj2 (proj2 (proj2 (proj2 H0)))))
             "Shoes" [("status", JStr "success");
                      ("data", JList [JDict [("mattaId", JInt 0)]])]
             [("mattaId", JInt 0)] [] 0
             eq_refl eq_refl eq_refl eq_refl eq_refl).
Defined.

(** C7: with remapping enabled, every call of [convert_category_id]
    returns with its result stored under the id; a stored id is answered
    from the cache, with no request and no change of state; a stored entry
    survives the rest of the walk unchanged; and in a whole run no id is
    looked up twice. *)
Theorem remap_memoized (self : settings) (world : services)
    (Henabled : convert_category_ids self = true) :
  (forall category_id st,
      exists target st',
        convert_category_id self world category_id st = (Ok target, st')
        /\ dict_get (category_cache st') category_id = Some target)
  /\ (forall category_id target st,
        dict_get (category_cache st) category_id = Some target ->
        convert_category_id self world category_id st = (Ok target, st))
  /\ (forall data category_id target st r st',
        dict_get (category_cache st) category_id = Some target ->
        transform_data self world data st = (r, st') ->
        dict_get (category_cache st') category_id = Some target)
  /\ (forall data r st',
        transform_data self world data initial = (r, st') ->
        NoDup (wordpress_ids (sent st'))).
Proof.
  split; [|split; [|split]].
  - intros category_id st.
    destruct (dict_get (category_cache st) category_id) as [target|] eqn:Hc.
    + exists target, st. split; [|exact Hc].
      now apply convert_category_id_hit.
    + eexists. eexists. split.
      * now apply convert_category_id_miss.
      * cbn [with_category category_cache]. apply dict_get_set_same.
  - intros category_id target st Hc. now apply convert_category_id_hit.
  - intros data category_id target st r st' Hc H.
    refine (@transform_data_preserves self world
              (fun st => dict_get (category_cache st) category_id = Some target)
              _ _ data st r st' Hc H).
    + intros id. apply convert_category_id_keeps_entry.
    + intros url st0 r0 st0' HP H0.
      destruct (@get_image_dimensions_frame self world _ _ _ _ H0) as [-> _].
      exact HP.
  - intros data r st' H.
    refine (proj1 (@transform_data_preserves self world (@lookups_cached)
                     _ _ data initial r st' _ H)).
    + intros id. apply convert_category_id_lookups.
    + intros url. apply get_image_dimensions_lookups.
    + split; [constructor | intros id []].
Qed.

Lemma remap_memoized_witness :
  convert_category_ids all_on = true
  /\ NoDup (wordpress_ids
              (sent (snd (transform_data all_on moving_world two_categories
                            initial)))).
Proof.
  split; [reflexivity|].
  apply (proj2 (proj2 (proj2 (@remap_memoized all_on moving_world eq_refl))))
    with (data := two_categories)
         (r := fst (transform_data all_on moving_world two_categories initial)).
  apply surjective_pairing.
Defined.

Example remap_memoized_example :
  transform_data all_on moving_world two_categories initial
  = (Ok (JDict [("category", JStr "1");
                ("children", JList [JDict [("categoryId", JInt 1)];
                                    JDict [("category", JStr "1")]])]),
     {| dimension_cache := [];
        category_cache := [("42", "1")];
        sent := [GetOdooCategory "Shoes"; GetWordpressCategory "42"] |}).
Proof. reflexivity. Qed.

(* ================================================================= *)
(** ** Claims on the image dimensions *)

(** C8: [get_image_dimensions] never raises; a fetch that fails in any
    way yields (None, None); with caching on, the outcome of a fetch,
    failed or not, is stored under the URL, a stored URL is answered from
    the cache with no request, a stored entry survives the rest of the
    walk unchanged, and in a whole run no URL is fetched twice. *)
Theorem dimension_fetch_absorbed (self : settings) (world : services) :
  (forall image_url, total (get_image_dimensions self world image_url))
  /\ (forall image_url st r st',
        get_image_dimensions self world image_url st = (r, st') ->
        sent st' = GetImage image_url :: sent st ->
        (forall width height,
            image_service world (sent st) image_url <> ImageSize width height) ->
        r = Ok (None, None))
  /\ (cache_dimensions self = true ->
      (forall image_url st r st',
          get_image_dimensions self world image_url st = (r, st') ->
          sent st' = GetImage image_url :: sent st ->
          exists dims, r = Ok dims
                       /\ dict_get (dimension_cache st') image_url = Some dims)
      /\ (forall image_url dims st,
            fetch_dimensions self = true ->
            dict_get (dimension_cache st) image_url = Some dims ->
            get_image_dimensions self world image_url st = (Ok dims, st))
      /\ (forall data image_url dims st r st',
            dict_get (dimension_cache st) image_url = Some dims ->
            transform_data self world data st = (r, st') ->
            dict_get (dimension_cache st') image_url = Some dims)
      /\ (forall data r st',
            transform_data self world data initial = (r, st') ->
            NoDup (image_urls (sent st')))).
Proof.
  assert (Hfetch : forall image_url st r st',
    get_image_dimensions self world image_url st = (r, st') ->
    sent st' = GetImage image_url :: sent st ->
    r = Ok (fetched world (sent st) image_url)
    /\ st' = with_dimension self st image_url (fetched world (sent st) image_url)
               (GetImage image_url :: sent st)).
  { intros image_url st r st' H Hsent.
    destruct (get_image_dimensions_cases self world image_url st)
      as [[_ E]|[[_ [_ [d [_ E]]]]|[_ [_ E]]]]; rewrite E in H;
      injection H as <- <-.
    - exfalso. apply (f_equal (@List.length _)) in Hsent. simpl in Hsent. lia.
    - exfalso. apply (f_equal (@List.length _)) in Hsent. simpl in Hsent. lia.
    - split; reflexivity. }
  split; [|split].
  - intros image_url. apply get_image_dimensions_total.
  - intros image_url st r st' H Hsent Hfail.
    destruct (Hfetch _ _ _ _ H Hsent) as [-> _]. unfold fetched.
    destruct (image_service world (sent st) image_url) as [| | |width height];
      try reflexivity.
    exfalso. exact (Hfail width height eq_refl).
  - intros Hcache. split; [|split; [|split]].
    + intros image_url st r st' H Hsent.
      destruct (Hfetch _ _ _ _ H Hsent) as [-> ->].
      eexists. split; [reflexivity|].
      unfold with_dimension. rewrite Hcache. cbn [dimension_cache].
      apply dict_get_set_same.
    + intros image_url dims st Hf Hd. now apply get_image_dimensions_hit.
    + intros data image_url dims st r st' Hd H.
      refine (@transform_data_preserves self world
                (fun st => dict_get (dimension_cache st) image_url = Some dims)
                _ _ data st r st' Hd H).
      * intros id st0 r0 st0' HP H0.
        destruct (@convert_category_id_frame self world _ _ _ _ H0) as [-> _].
        exact HP.
      * intros url. apply get_image_dimensions_keeps_entry.
    + intros data r st' H.
      refine (proj1 (@transform_data_preserves self world (@fetches_cached)
                       _ _ data initial r st' _ H)).
      * intros id. apply convert_category_id_fetches.
      * intros url. now apply get_image_dimensions_fetches.
      * split; [constructor | intros url []].
Qed.

Lemma dimension_fetch_absorbed_witness :
  cache_dimensions all_on = true
  /\ NoDup (image_urls
              (sent (snd (transform_data all_on sample_world two_images initial)))).
Proof.
  split; [reflexivity|].
  apply (proj2 (proj2 (proj2
           (proj2 (proj2 (@dimension_fetch_absorbed all_on sample_world))
              eq_refl))))
    with (data := two_images)
         (r := fst (transform_data all_on sample_world two_images initial)).
  apply surjective_pairing.
Defined.

Example dimension_fetch_example :
  transform_data all_on sample_world two_images initial
  = (Ok (JDict
           [("logo", descriptor "a.png" (Some 10, Some 20));
            ("slider_images",
             JList [descriptor "a.png" (Some 10, Some 20);
                    descriptor "b.png" (None, None);
                    descriptor "b.png" (None, None)])]),
     {| dimension_cache := [("a.png", (Some 10, Some 20)); ("b.png", (None, None))];
        category_cache := [];
        sent := [GetImage "b.png"; GetImage "a.png"] |}).
Proof. reflexivity. Qed.

(** C9: with dimension fetching off, [get_image_dimensions] answers
    (None, None) and leaves the state as it is (no request, no cache
    write); every image descriptor is [imageUrl] alone; and a whole walk
    sends no image request and writes nothing to the dimension cache. *)
Theorem fetch_disabled (self : settings) (world : services)
    (Hoff : fetch_dimensions self = false) :
  (forall image_url st,
      get_image_dimensions self world image_url st = (Ok (None, None), st))
  /\ (forall image_url st,
        create_image_model self world image_url None None st
        = (Ok (JDict [("imageUrl", JStr image_url)]), st))
  /\ (forall data st r st',
        transform_data self world data st = (r, st') ->
        dimension_cache st' = dimension_cache st
        /\ image_urls (sent st') = image_urls (sent st)).
Proof.
  split; [|split].
  - intros image_url st. now apply get_image_dimensions_off.
  - intros image_url st. rewrite create_image_model_descriptor.
    now rewrite get_image_dimensions_off.
  - intros data st r st' H.
    refine (@transform_data_preserves self world
              (fun s => dimension_cache s = dimension_cache st
                        /\ image_urls (sent s) = image_urls (sent st))
              _ _ data st r st' (conj eq_refl eq_refl) H).
    + intros id st0 r0 st0' HP H0.
      destruct (@convert_category_id_frame self world _ _ _ _ H0) as [-> ->].
      exact HP.
    + intros url st0 r0 st0' HP H0.
      rewrite get_image_dimensions_off in H0 by exact Hoff.
      injection H0 as _ <-. exact HP.
Qed.

Lemma fetch_disabled_witness :
  fetch_dimensions no_fetch = false
  /\ transform_data no_fetch sample_world two_images initial
     = (Ok (JDict
              [("logo", JDict [("imageUrl", JStr "a.png")]);
               ("slider_images",
                JList [JDict [("imageUrl", JStr "a.png")];
                       JDict [("imageUrl", JStr "b.png")];
                       JDict [("imageUrl", JStr "b.png")]])]),
        initial)
  /\ create_image_model no_fetch sample_world "a.png" None None initial
     = (Ok (JDict [("imageUrl", JStr "a.png")]), initial).
Proof.
  split; [reflexivity|]. split; [reflexivity|].
  exact (proj1 (proj2 (@fetch_disabled no_fetch sample_world eq_refl))
           "a.png" initial).
Defined.
(* ================================================================= *)
(** ** Claims on the per-key rule *)

Lemma category_key_not_image_field key :
  is_category_key key = true -> is_image_field key = false.
Proof.
  unfold is_category_key, is_image_field. generalize (lower key). intros x H.
  cbn [existsb] in H. rewrite orb_false_r in H.
  apply orb_true_iff in H. destruct H as [H|H]; apply String.eqb_eq in H;
    subst x; reflexivity.
Qed.

Lemma image_field_not_category_key key :
  is_image_field key = true -> is_category_key key = false.
Proof.
  intros H. destruct (is_category_key key) eqn:E; [|reflexivity].
  rewrite (@category_key_not_image_field _ E) in H. discriminate H.
Qed.

Lemma all_digits_uint (d : uint) : all_digits (NilEmpty.string_of_uint d) = true.
Proof. induction d; simpl; try reflexivity; exact IHd. Qed.

Lemma isdigit_str_int (n : Z) : isdigit (str_int n) = (0 <=? n).
Proof.
  unfold str_int. destruct n as [|p|p]; simpl.
  - reflexivity.
  - unfold NilZero.string_of_uint.
    destruct (Pos.to_uint p) eqn:E; simpl; try reflexivity; apply all_digits_uint.
  - reflexivity.
Qed.

Lemma digit_not_space c : is_digit c = true -> is_space c = false.
Proof.
  destruct c as [[] [] [] [] [] [] [] []]; try reflexivity; discriminate.
Qed.

Lemma rstrip_no_space s : no_space s = true -> rstrip s = s.
Proof.
  induction s as [|c t IH]; simpl; intros H; [reflexivity|].
  apply andb_true_iff in H. destruct H as [Hc Ht].
  rewrite (IH Ht). apply negb_true_iff in Hc. rewrite Hc.
  destruct t; reflexivity.
Qed.

Lemma all_digits_no_space s : all_digits s = true -> no_space s = true.
Proof.
  induction s as [|c t IH]; simpl; intros H; [reflexivity|].
  apply andb_true_iff in H. destruct H as [Hc Ht].
  now rewrite (digit_not_space c Hc), (IH Ht).
Qed.

Lemma int_digits_digit c t acc :
  is_digit c = true ->
  int_digits (String c t) true acc = int_digits t true (10 * acc + digit_value c).
Proof. intros H. simpl. now rewrite H. Qed.

Lemma int_digits_acc (d : uint) :
  forall acc : positive,
    int_digits (NilEmpty.string_of_uint d) true (Z.pos acc)
    = Some (Z.pos (Pos.of_uint_acc d acc)).
Proof.
  induction d; intros acc;
    cbn [NilEmpty.string_of_uint Pos.of_uint_acc]; try reflexivity;
    rewrite int_digits_digit by reflexivity; rewrite <- IHd; f_equal;
    match goal with
    | |- context [digit_value ?c] =>
        let v := eval vm_compute in (digit_value c) in
        change (digit_value c) with v
    end; lia.
Qed.

Lemma int_digits_uint (d : uint) :
  forall b,
    int_digits (NilEmpty.string_of_uint d) b 0
    = match d with
      | Nil => if b then Some 0 else None
      | _ => Some (Z.of_N (Pos.of_uint d))
      end.
Proof.
  induction d; intros b; simpl; try reflexivity.
  - rewrite IHd. destruct d; reflexivity.
  - apply (int_digits_acc d 1).
  - apply (int_digits_acc d 2).
  - apply (int_digits_acc d 3).
  - apply (int_digits_acc d 4).
  - apply (int_digits_acc d 5).
  - apply (int_digits_acc d 6).
  - apply (int_digits_acc d 7).
  - apply (int_digits_acc d 8).
  - apply (int_digits_acc d 9).
Qed.


Lemma int_of_str_digits c t :
  is_digit c = true -> all_digits t = true ->
  int_of_str (String c t) = int_digits (String c t) false 0.
Proof.
  intros Hc Ht. unfold int_of_str.
  assert (Hl : lstrip (String c t) = String c t)
    by (simpl; now rewrite (digit_not_space c Hc)).
  rewrite Hl, rstrip_no_space.
  - destruct c as [[] [] [] [] [] [] [] []]; try reflexivity; discriminate Hc.
  - apply all_digits_no_space. simpl. now rewrite Hc, Ht.
Qed.

Lemma string_of_uint_digits (d : uint) :
  d <> Nil ->
  exists c t, NilEmpty.string_of_uint d = String c t
              /\ is_digit c = true /\ all_digits t = true.
Proof.
  intros Hd. pose proof (all_digits_uint d) as H.
  destruct d; try contradiction; simpl in *; eexists; eexists;
    (split; [reflexivity|]); split; try reflexivity; exact H.
Qed.

Lemma int_of_str_uint (d : uint) :
  d <> Nil ->
  int_of_str (NilEmpty.string_of_uint d) = Some (Z.of_N (Pos.of_uint d)).
Proof.
  intros Hd. destruct (string_of_uint_digits d Hd) as [c [t [E [Hc Ht]]]].
  rewrite E, (int_of_str_digits c t Hc Ht), <- E, int_digits_uint.
  destruct d; try reflexivity. contradiction.
Qed.

Lemma string_of_uint_nonnil (d : uint) :
  d <> Nil -> NilZero.string_of_uint d = NilEmpty.string_of_uint d.
Proof. destruct d; try reflexivity. contradiction. Qed.

(** [int(str(n))] is [n]. *)
Lemma int_of_str_str_int (n : Z) : int_of_str (str_int n) = Some n.
Proof.
  destruct n as [|p|p]; try reflexivity.
  - unfold str_int. simpl.
    pose proof (DecimalPos.Unsigned.to_uint_nonnil p) as Hnil.
    rewrite (string_of_uint_nonnil _ Hnil), (int_of_str_uint _ Hnil).
    now rewrite DecimalPos.Unsigned.of_to.
  - unfold str_int. simpl.
    pose proof (DecimalPos.Unsigned.to_uint_nonnil p) as Hnil.
    rewrite (string_of_uint_nonnil _ Hnil).
    destruct (string_of_uint_digits _ Hnil) as [c [t [E [Hc Ht]]]].
    unfold int_of_str.
    change (lstrip (String "-" (NilEmpty.string_of_uint (Pos.to_uint p))))
      with (String "-" (NilEmpty.string_of_uint (Pos.to_uint p))).
    rewrite rstrip_no_space
      by (simpl; apply all_digits_no_space, all_digits_uint).
    rewrite int_digits_uint.
    pose proof (DecimalPos.Unsigned.of_to p) as Hof.
    destruct (Pos.to_uint p); try contradiction; rewrite Hof; reflexivity.
Qed.

(** With remapping off, a non-negative integer category is returned as
    the same integer. *)
Lemma category_integer_unchanged_when_off self world key n st :
  convert_category_ids self = false ->
  is_category_key key = true ->
  0 <= n ->
  transform_value self world key (JInt n) st = (Ok (JInt n), st).
Proof.
  intros Hoff Hkey Hn. unfold transform_value, transform_value_with.
  rewrite Hkey. cbn [Json.is_str_or_int Json.str Json.repr andb].
  rewrite isdigit_str_int. apply Z.leb_le in Hn. rewrite Hn.
  unfold bind. rewrite (convert_category_id_off self world _ _ Hoff).
  cbn [Json.is_int]. now rewrite int_of_str_str_int.
Qed.




Example negative_category_not_remapped :
  transform_value all_on moving_world "categoryId" (JInt (-5)) initial
  = (Ok (JInt (-5)), initial)
  /\ transform_value all_on moving_world "categoryId" (JInt 5) initial
     = (Ok (JInt 1),
        {| dimension_cache := [];
           category_cache := [("5", "1")];
           sent := [GetOdooCategory "Shoes"; GetWordpressCategory "5"] |}).
Proof. split; reflexivity. Qed.



Section Entries.

Variable self : settings.
Variable world : services.

Lemma dict_loop_keeps {A B} (f : string -> A -> M B) (k : string)
    (d : dict A) :
  forall transformed st out st',
    ~ In k (keys d) ->
    dict_loop f d transformed st = (Ok out, st') ->
    dict_get out k = dict_get transformed k.
Proof.
  induction d as [|[k0 v0] rest IH]; intros transformed st out st' Hk H.
  - injection H as <- _. reflexivity.
  - simpl in H. unfold bind in H.
    destruct (f k0 v0 st) as [[v'|e] st1]; [|discriminate H].
    simpl in Hk. rewrite (IH _ _ _ _ (fun Hin => Hk (or_intror Hin)) H).
    apply dict_get_set_other. intros ->. apply Hk. now left.
Qed.

(** The value stored under a key of the output is what the loop body
    returned for that key's entry. *)
Lemma dict_loop_lookup {A B} (f : string -> A -> M B) (k : string) (v : A)
    (d : dict A) :
  forall transformed st out st',
    NoDup (keys d) ->
    In (k, v) d ->
    dict_loop f d transformed st = (Ok out, st') ->
    exists st1 v' st2,
      f k v st1 = (Ok v', st2) /\ dict_get out k = Some v'.
Proof.
  induction d as [|[k0 v0] rest IH]; intros transformed st out st' Hnd Hin H.
  - destruct Hin.
  - simpl in H. unfold bind in H. simpl in Hnd.
    inversion Hnd as [|? ? Hfresh Hrest]; subst.
    destruct (f k0 v0 st) as [[v'|e] st1] eqn:E; [|discriminate H].
    destruct Hin as [Heq|Hin].
    + injection Heq as -> ->. exists st, v', st1. split; [exact E|].
      rewrite (dict_loop_keeps _ _ _ _ _ _ _ Hfresh H). apply dict_get_set_same.
    + exact (IH _ _ _ _ Hrest Hin H).
Qed.

Lemma transform_data_lookup (d : dict json) (k : string) (v : json) st out st' :
  unique (keys d) = true ->
  In (k, v) d ->
  transform_data self world (JDict d) st = (Ok out, st') ->
  exists transformed st1 v' st2,
    out = JDict transformed
    /\ transform_entry self world k v st1 = (Ok v', st2)
    /\ dict_get transformed k = Some v'.
Proof.
  intros Hu Hin H. rewrite transform_data_dict in H. unfold bind in H.
  destruct (dict_loop (transform_entry self world) d [] st)
    as [[transformed|e] st0] eqn:E; [|discriminate H].
  injection H as <- <-.
  destruct (dict_loop_lookup _ _ _ _ _ _ _ _ (proj1 (unique_NoDup _) Hu) Hin E)
    as [st1 [v' [st2 [Hf Hget]]]].
  exists transformed, st1, v', st2. repeat split; assumption.
Qed.

Lemma transform_value_image_field key s st :
  is_image_field key = true ->
  transform_value self world key (JStr s) st
  = create_image_model self world s None None st.
Proof.
  intros Hf. unfold transform_value, transform_value_with.
  rewrite (@image_field_not_category_key key Hf), Hf. reflexivity.
Qed.

End Entries.

Lemma descriptor_fields image_url dims :
  exists model,
    descriptor image_url dims = JDict model
    /\ dict_get model "imageUrl" = Some (JStr image_url)
    /\ dict_get model "width"
       = option_map (fun w => JStr (str_int w)) (fst dims)
    /\ dict_get model "height"
       = option_map (fun h => JStr (str_int h)) (snd dims).
Proof.
  destruct dims as [[w|] [h|]]; eexists; (split; [reflexivity|]);
    repeat split; reflexivity.
Qed.

(** C6: a text under an image field (in any letter case) is replaced by
    the image descriptor of that text: a mapping, hence never the text
    itself, whose [imageUrl] is the text and whose [width] and [height],
    when present, are the resolved dimensions in decimal.  The same holds
    for the value stored under that key in a transformed mapping. *)
Theorem image_field_text (self : settings) (world : services)
    (key s : string) (Hfield : is_image_field key = true) :
  (forall st,
      exists dims st',
        get_image_dimensions self world s st = (Ok dims, st')
        /\ transform_value self world key (JStr s) st
           = (Ok (descriptor s dims), st'))
  /\ (forall d st out st',
        unique (keys d) = true ->
        In (key, JStr s) d ->
        transform_data self world (JDict d) st = (Ok out, st') ->
        exists transformed dims,
          out = JDict transformed
          /\ dict_get transformed key = Some (descriptor s dims))
  /\ (forall dims,
        descriptor s dims <> JStr s
        /\ exists model,
             descriptor s dims = JDict model
             /\ dict_get model "imageUrl" = Some (JStr s)
             /\ dict_get model "width"
                = option_map (fun w => JStr (str_int w)) (fst dims)
             /\ dict_get model "height"
                = option_map (fun h => JStr (str_int h)) (snd dims)).
Proof.
  assert (Hvalue : forall st,
    exists dims st',
      get_image_dimensions self world s st = (Ok dims, st')
      /\ transform_value self world key (JStr s) st
         = (Ok (descriptor s dims), st')).
  { intros st.
    destruct (get_image_dimensions_total self world s st) as [dims [st' Hg]].
    exists dims, st'. split; [exact Hg|].
    rewrite transform_value_image_field by exact Hfield.
    rewrite create_image_model_descriptor, Hg. reflexivity. }
  split; [exact Hvalue|]. split.
  - intros d st out st' Hu Hin H.
    destruct (transform_data_lookup _ _ _ _ _ _ _ _ Hu Hin H)
      as [transformed [st1 [v' [st2 [Hout [Hentry Hget]]]]]].
    destruct (Hvalue st1) as [dims [st1' [_ Hv]]].
    exists transformed, dims. split; [exact Hout|].
    unfold transform_entry in Hentry. rewrite Hv in Hentry.
    injection Hentry as <- _. exact Hget.
  - intros dims. split; [discriminate | apply descriptor_fields].
Qed.

Lemma image_field_text_witness :
  is_image_field "LOGO" = true
  /\ exists dims st',
       get_image_dimensions all_on sample_world "a.png" initial = (Ok dims, st')
       /\ transform_value all_on sample_world "LOGO" (JStr "a.png") initial
          = (Ok (descriptor "a.png" dims), st').
Proof.
  split; [reflexivity|].
  exact (proj1 (@image_field_text all_on sample_world "LOGO" "a.png" eq_refl)
           initial).
Defined.

Example image_field_text_example :
  transform_value all_on sample_world "LOGO" (JStr "a.png") initial
  = (Ok (JDict [("imageUrl", JStr "a.png"); ("width", JStr "10");
                ("height", JStr "20")]),
     {| dimension_cache := [("a.png", (Some 10, Some 20))];
        category_cache := [];
        sent := [GetImage "a.png"] |}).
Proof. reflexivity. Qed.

(* ================================================================= *)
(** ** Claims on the records of the regrouping pass *)

Lemma main_category_record_of item r :
  main_category_record item = Ok r -> r = record_of item.
Proof.
  unfold main_category_record, record_of, field, Json.get, Json.get_default.
  destruct item; try discriminate. simpl. intros H. injection H as <-.
  reflexivity.
Qed.

Lemma mapR_record_of items :
  forall rs,
    mapR main_category_record items = Ok rs -> rs = map record_of items.
Proof.
  induction items as [|item rest IH]; simpl; intros rs H.
  - injection H as <-. reflexivity.
  - destruct (main_category_record item) as [r|e] eqn:E; [|discriminate H].
    destruct (mapR main_category_record rest) as [rs'|e]; [|discriminate H].
    simpl in H. injection H as <-.
    now rewrite (main_category_record_of _ _ E), (IH rs' eq_refl).
Qed.

Lemma extraction_record_of component rs :
  extraction component = Ok (Some rs) ->
  rs = map record_of (banner_items component).
Proof.
  unfold extraction, banner_items.
  destruct (Json.get component "layout") as [layout|e]; [|discriminate].
  simpl. destruct (Json.eq_str layout "banner"); [|discriminate].
  destruct (Json.get_default component "config" (JDict [])) as [config|e];
    [|discriminate].
  simpl.
  destruct (Json.get_default config "items" (JList [])) as [items|e];
    [|discriminate].
  simpl. destruct (Json.iter items) as [its|e]; [|discriminate].
  simpl. destruct (all_main_category its) as [[|]|e]; try discriminate.
  simpl. destruct (mapR main_category_record its) as [rs'|e] eqn:E;
    [|discriminate].
  simpl. intros H. injection H as <-. now apply mapR_record_of.
Qed.

Lemma extracted_records_record_of component :
  extracted_records component
  = match extraction component with
    | Ok (Some _) => map record_of (banner_items component)
    | _ => []
    end.
Proof.
  unfold extracted_records.
  destruct (extraction component) as [[rs|]|e] eqn:E; try reflexivity.
  now apply extraction_record_of.
Qed.

(** C10: the array under a [components] key is regrouped after each of
    its elements has been transformed, so every record of the
    [mainCategoryList] comes from a transformed item: its [id] is [str] of
    the item's [category] after the transformation (["None"] without that
    key) and its [image] is the item's [image] after the transformation. *)
Theorem records_from_transformed_items (self : settings) (world : services)
    (d : dict json) (l : list json) (st : state) (out : json) (st' : state)
    (Hkeys : unique (keys d) = true)
    (Hin : In ("components", JList l) d)
    (Hrun : transform_data self world (JDict d) st = (Ok out, st')) :
  exists st1 st2 components ds transformed,
    mapM (transform_data self world) l st1 = (Ok components, st2)
    /\ decisions components = Ok ds
    /\ out = JDict transformed
    /\ dict_get transformed "components"
       = Some (JList (regrouped components ds))
    /\ records ds
       = flat_map
           (fun component =>
              match extraction component with
              | Ok (Some _) => map record_of (banner_items component)
              | _ => []
              end) components
    /\ (forall item,
          dict_get item "category" = None ->
          record_of (JDict item)
          = JDict [("id", JStr "None"); ("image", field (JDict item) "image")])
    /\ (forall item n,
          dict_get item "category" = Some (JInt n) ->
          record_of (JDict item)
          = JDict [("id", JStr (str_int n)); ("image", field (JDict item) "image")]).
Proof.
  destruct (transform_data_lookup _ _ _ _ _ _ _ _ Hkeys Hin Hrun)
    as [transformed [st1 [v' [st2 [Hout [Hentry Hget]]]]]].
  unfold transform_entry in Hentry. simpl in Hentry. unfold bind in Hentry.
  destruct (mapM (transform_data self world) l st1)
    as [[components|e] st1'] eqn:Hmap; [|discriminate Hentry].
  unfold lift in Hentry. rewrite collect_regrouped in Hentry.
  destruct (decisions components) as [ds|e] eqn:Hds; [|discriminate Hentry].
  simpl in Hentry. injection Hentry as <- <-.
  exists st1, st1', components, ds, transformed.
  repeat split; try assumption; try reflexivity.
  - destruct (decisions_read components ds Hds) as [_ Hr]. rewrite Hr.
    apply flat_map_ext. intros c. apply extracted_records_record_of.
  - intros item Hc. unfold record_of, field. now rewrite Hc.
  - intros item n Hc. unfold record_of, field. now rewrite Hc.
Qed.

Lemma records_from_transformed_items_witness :
  unique (keys [("components", JList [main_banner (JInt 42) "a.png"])]) = true
  /\ exists st1 st2 components ds transformed,
       mapM (transform_data all_on sample_world)
            [main_banner (JInt 42) "a.png"] st1
       = (Ok components, st2)
       /\ decisions components = Ok ds
       /\ JDict [("components",
                  JList [main_category_list
                           [JDict [("id", JStr "777");
                                   ("image",
                                    descriptor "a.png" (Some 10, Some 20))]]])]
          = JDict transformed
       /\ dict_get transformed "components"
          = Some (JList (regrouped components ds)).
Proof.
  split; [reflexivity|].
  destruct (@records_from_transformed_items all_on sample_world
              [("components", JList [main_banner (JInt 42) "a.png"])]
              [main_banner (JInt 42) "a.png"] initial
              (JDict [("components",
                       JList [main_category_list
                                [JDict [("id", JStr "777");
                                        ("image",
                                         descriptor "a.png" (Some 10, Some 20))]]])])
              {| dimension_cache := [("a.png", (Some 10, Some 20))];
                 category_cache := [("42", "777")];
                 sent := [GetImage "a.png"; GetOdooCategory "Shoes";
                          GetWordpressCategory "42"] |}
              eq_refl (or_introl eq_refl) eq_refl)
    as [st1 [st2 [components [ds [transformed [H1 [H2 [H3 [H4 _]]]]]]]]].
  exists st1, st2, components, ds, transformed.
  repeat split; assumption.
Defined.

Example records_from_transformed_items_example :
  fst (transform_data all_on sample_world banner_document initial)
  = Ok (JDict
          [("components",
            JList [main_category_list
                     [JDict [("id", JStr "777");
                             ("image", descriptor "a.png" (Some 10, Some 20))];
                      JDict [("id", JStr "None");
                             ("image", descriptor "b.png" (None, None))]];
                   grid_component])]).
Proof. reflexivity. Qed.

(* ================================================================= *)
(** ** Claims on documents with nothing to rewrite *)

Lemma mapM_fixed {A} (f : A -> M A) (l : list A) :
  Forall (fun x => forall st, f x st = (Ok x, st)) l ->
  forall st, mapM f l st = (Ok l, st).
Proof.
  induction 1 as [|x rest Hx _ IH]; intros st; simpl.
  - reflexivity.
  - unfold bind. rewrite Hx, IH. reflexivity.
Qed.


Lemma collect_stays (components : list json) :
  forallb stays components = true ->
  collect_main_category_items components = Ok components.
Proof.
  intros Hstay. rewrite collect_regrouped.
  assert (Hds : decisions components = Ok (map (fun _ => None) components)).
  { unfold decisions. induction components as [|c rest IH]; [reflexivity|].
    simpl in Hstay. apply andb_true_iff in Hstay. destruct Hstay as [Hc Hrest].
    cbn [mapR map]. rewrite (IH Hrest). unfold stays in Hc.
    destruct (extraction c) as [[rs|]|e]; try discriminate Hc. reflexivity. }
  rewrite Hds. simpl. f_equal. unfold regrouped.
  assert (Hrec : records (map (fun _ => None) components) = [])
    by (clear; induction components; [reflexivity | assumption]).
  rewrite Hrec. clear. induction components as [|c rest IH]; simpl.
  - reflexivity.
  - now rewrite IH.
Qed.

Section Identity.

Variable self : settings.
Variable world : services.





End Identity.


Example identity_counterexample_output :
  transform_data all_on sample_world lone_banner_document initial
  = (Ok (JDict [("components",
                 JList [main_category_list
                          [JDict [("id", JStr "None"); ("image", JNull)]]])]),
     initial).
Proof. reflexivity. Qed.



(* ================================================================= *)
(** ** The image-URL heuristic *)

Section Text.

Lemma length_append (a b : string) :
  String.length (a ++ b) = (String.length a + String.length b)%nat.
Proof. induction a as [|c a IH]; simpl; [reflexivity | now rewrite IH]. Qed.

Lemma append_assoc (a b c : string) : (a ++ b) ++ c = a ++ (b ++ c).
Proof. induction a as [|x a IH]; simpl; [reflexivity | now rewrite IH]. Qed.

Lemma lower_append (a b : string) : lower (a ++ b) = lower a ++ lower b.
Proof. induction a as [|c a IH]; simpl; [reflexivity | now rewrite IH]. Qed.

Lemma substring_all (s : string) : substring 0 (String.length s) s = s.
Proof. induction s as [|c s IH]; simpl; [reflexivity | now rewrite IH]. Qed.

Lemma substring_skip (a b : string) (m : nat) :
  substring (String.length a) m (a ++ b) = substring 0 m b.
Proof. induction a as [|c a IH]; simpl; [reflexivity | exact IH]. Qed.

Lemma substring_split (s : string) :
  forall k, (k <= String.length s)%nat ->
    s = substring 0 k s ++ substring k (String.length s - k) s.
Proof.
  induction s as [|c s IH]; intros k Hk.
  - destruct k; reflexivity.
  - destruct k as [|k]; simpl.
    + now rewrite substring_all.
    + simpl in Hk. rewrite <- IH by lia. reflexivity.
Qed.

Lemma endswith_iff (s suffix : string) :
  endswith s suffix = true <-> exists a, s = a ++ suffix.
Proof.
  unfold endswith. rewrite andb_true_iff, Nat.leb_le, String.eqb_eq. split.
  - intros [Hlen Hsub].
    exists (substring 0 (String.length s - String.length suffix) s).
    pose proof (substring_split s (String.length s - String.length suffix))
      as H.
    replace (String.length s - (String.length s - String.length suffix))%nat
      with (String.length suffix) in H by lia.
    rewrite Hsub in H. apply H. lia.
  - intros [a ->]. rewrite length_append. split; [lia|].
    replace (String.length a + String.length suffix - String.length suffix)%nat
      with (String.length a) by lia.
    now rewrite substring_skip, substring_all.
Qed.

Lemma prefix_iff (p s : string) :
  prefix p s = true <-> exists b, s = p ++ b.
Proof.
  revert s. induction p as [|c p IH]; intros s.
  - split; [intros _; now exists s | intros _; destruct s; reflexivity].
  - destruct s as [|c' s]; simpl.
    + split; [discriminate | intros [b Hb]; discriminate Hb].
    + destruct (ascii_dec c c') as [<-|Hne].
      * rewrite IH. split; intros [b Hb]; exists b; congruence.
      * split; [discriminate | intros [b Hb]; congruence].
Qed.

Lemma contains_iff (p s : string) :
  contains p s = true <-> exists a b, s = a ++ p ++ b.
Proof.
  induction s as [|c s IH].
  - cbn [contains]. rewrite orb_false_r, prefix_iff. split.
    + intros [b Hb]. now exists EmptyString, b.
    + intros [a [b Hab]]. destruct a; [now exists b | discriminate Hab].
  - cbn [contains]. rewrite orb_true_iff, prefix_iff, IH. split.
    + intros [[b Hb]|[a [b Hab]]].
      * now exists EmptyString, b.
      * exists (String c a), b. simpl. now rewrite Hab.
    + intros [[|c' a] [b Hab]].
      * left. now exists b.
      * right. exists a, b. simpl in Hab. congruence.
Qed.

End Text.

(** X1: [is_image_url] accepts exactly the texts whose lower-case form ends
    with one of the seven extensions or contains one of the nine hosting
    patterns, and nothing that is not a text; so an extension or a pattern
    written in any letter case is accepted wherever the rest of the text
    puts it. *)
Theorem is_image_url_iff (value : json) :
  (is_image_url value = true <->
   exists s,
     value = JStr s
     /\ ((exists ext a, In ext image_extensions /\ lower s = a ++ ext)
         \/ (exists pattern a b,
                In pattern image_patterns /\ lower s = a ++ pattern ++ b)))
  /\ (forall a ext,
        In (lower ext) image_extensions ->
        is_image_url (JStr (a ++ ext)) = true)
  /\ (forall a pattern b,
        In (lower pattern) image_patterns ->
        is_image_url (JStr (a ++ pattern ++ b)) = true).
Proof.
  assert (Hiff : forall s,
    is_image_url (JStr s) = true <->
    (exists ext a, In ext image_extensions /\ lower s = a ++ ext)
    \/ (exists pattern a b,
           In pattern image_patterns /\ lower s = a ++ pattern ++ b)).
  { intros s. unfold is_image_url.
    destruct (existsb (endswith (lower s)) image_extensions) eqn:E.
    - split; [intros _|reflexivity]. left.
      apply existsb_exists in E. destruct E as [ext [Hin He]].
      apply endswith_iff in He. destruct He as [a Ha]. now exists ext, a.
    - rewrite existsb_exists. split.
      + intros [pattern [Hin Hp]]. right.
        apply contains_iff in Hp. destruct Hp as [a [b Hab]].
        now exists pattern, a, b.
      + intros [[ext [a [Hin Ha]]]|[pattern [a [b [Hin Hab]]]]].
        * assert (existsb (endswith (lower s)) image_extensions = true) as Ht.
          { apply existsb_exists. exists ext. split; [exact Hin|].
            apply endswith_iff. now exists a. }
          congruence.
        * exists pattern. split; [exact Hin|].
          apply contains_iff. now exists a, b. }
  split; [|split].
  - split.
    + intros H. destruct value as [| | | |s| |]; try discriminate H.
      exists s. split; [reflexivity | now apply Hiff].
    + intros [s [-> H]]. now apply Hiff.
  - intros a ext Hin. apply Hiff. left.
    exists (lower ext), (lower a). split; [exact Hin | apply lower_append].
  - intros a pattern b Hin. apply Hiff. right.
    exists (lower pattern), (lower a), (lower b). split; [exact Hin|].
    now rewrite !lower_append.
Qed.

Lemma is_image_url_iff_witness :
  In (lower ".JPeG") image_extensions
  /\ is_image_url (JStr ("https://shop.example/Photo" ++ ".JPeG")) = true.
Proof.
  split.
  - right. left. reflexivity.
  - apply (proj1 (proj2 (is_image_url_iff JNull))).
    right. left. reflexivity.
Defined.

(* ================================================================= *)
(** ** More on the regrouping pass *)

Lemma filter_all {A} (f : A -> bool) (l : list A) :
  forallb f (filter f l) = true.
Proof.
  induction l as [|x l IH]; simpl; [reflexivity|].
  destruct (f x) eqn:E; simpl; [now rewrite E | exact IH].
Qed.

(** X2: the regrouping pass is idempotent: run on its own output it
    changes nothing (the [mainCategoryList] it put in front is not a
    banner, and every component it kept is one it would keep again). *)
Theorem regrouping_idempotent (components out : list json)
    (Hout : collect_main_category_items components = Ok out) :
  collect_main_category_items out = Ok out.
Proof.
  rewrite collect_regrouped in Hout.
  apply rbind_ok in Hout. destruct Hout as [ds [Hds Hout]].
  injection Hout as <-.
  destruct (decisions_read components ds Hds) as [Hs _].
  apply collect_stays. unfold regrouped. rewrite Hs.
  destruct (records ds); simpl; apply filter_all.
Qed.

Lemma regrouping_idempotent_witness :
  collect_main_category_items
    [grid_component; main_banner (JInt 5) "a.png"; empty_banner_component]
  = Ok [main_category_list [JDict [("id", JStr "5"); ("image", JStr "a.png")]];
        grid_component]
  /\ collect_main_category_items
       [main_category_list [JDict [("id", JStr "5"); ("image", JStr "a.png")]];
        grid_component]
     = Ok [main_category_list [JDict [("id", JStr "5"); ("image", JStr "a.png")]];
           grid_component].
Proof.
  split; [reflexivity|].
  exact (regrouping_idempotent
           [grid_component; main_banner (JInt 5) "a.png"; empty_banner_component]
           _ eq_refl).
Defined.

Lemma all_main_category_raises items e :
  all_main_category items = Raise e -> e = AttributeError.
Proof.
  induction items as [|item rest IH]; simpl; [discriminate|].
  destruct item; simpl; try (intros H; injection H as <-; reflexivity).
  destruct (Json.truthy _); [exact IH | discriminate].
Qed.

Lemma mapR_record_raises items e :
  mapR main_category_record items = Raise e -> e = AttributeError.
Proof.
  induction items as [|item rest IH]; simpl; [discriminate|].
  destruct item; simpl; try (intros H; injection H as <-; reflexivity).
  destruct (mapR main_category_record rest); simpl; [discriminate|].
  intros H. injection H as <-. now apply IH.
Qed.

Lemma extraction_raises component e :
  extraction component = Raise e -> e = AttributeError \/ e = TypeError.
Proof.
  unfold extraction, Json.get, Json.get_default.
  destruct component as [| | | | | |d];
    try (intros H; injection H as <-; left; reflexivity).
  simpl. destruct (Json.eq_str _ "banner"); [|discriminate].
  destruct (match dict_get d "config" with Some x => x | None => JDict [] end)
    as [| | | | | |config];
    try (intros H; injection H as <-; left; reflexivity).
  simpl.
  destruct (match dict_get config "items" with Some x => x | None => JList [] end)
    as [| | | |s|l|d'];
    try (intros H; injection H as <-; right; reflexivity).
  all: simpl;
    match goal with
    | |- context [all_main_category ?its] =>
        destruct (all_main_category its) as [[|]|e'] eqn:Ea; simpl;
        [ destruct (mapR main_category_record its) as [rs|e'] eqn:Er; simpl;
          [ discriminate
          | intros H; injection H as <-; left;
            exact (mapR_record_raises _ _ Er) ]
        | discriminate
        | intros H; injection H as <-; left;
          exact (all_main_category_raises _ _ Ea) ]
    end.
Qed.

(** X3: when the regrouping pass fails it is with [AttributeError] (a
    component, a [config] or an item that is not a mapping) or [TypeError]
    (an [items] that cannot be iterated), raised by the first loop; the
    [pop] calls of the second loop never go out of range. *)
Theorem regrouping_raises (components : list json) (e : exn)
    (Hraise : collect_main_category_items components = Raise e) :
  (e = AttributeError \/ e = TypeError)
  /\ decisions components = Raise e.
Proof.
  rewrite collect_regrouped in Hraise.
  destruct (decisions components) as [ds|e'] eqn:Hds; [discriminate Hraise|].
  simpl in Hraise. injection Hraise as ->. split; [|reflexivity].
  clear -Hds. unfold decisions in Hds.
  induction components as [|c rest IH]; simpl in Hds; [discriminate Hds|].
  destruct (extraction c) as [d|e'] eqn:Ec; simpl in Hds.
  - destruct (mapR extraction rest) as [ds|e'']; simpl in Hds;
      [discriminate Hds|].
    injection Hds as ->. now apply IH.
  - injection Hds as ->. exact (extraction_raises _ _ Ec).
Qed.

Lemma regrouping_raises_witness :
  collect_main_category_items
    [grid_component;
     JDict [("layout", JStr "banner"); ("config", JDict [("items", JNull)])]]
  = Raise TypeError
  /\ (TypeError = AttributeError \/ TypeError = TypeError).
Proof.
  split; [reflexivity|].
  exact (proj1 (regrouping_raises
                  [grid_component;
                   JDict [("layout", JStr "banner");
                          ("config", JDict [("items", JNull)])]]
                  TypeError eq_refl)).
Defined.

Lemma all_main_category_dicts items :
  forallb is_dict items = true ->
  all_main_category items = Ok (forallb main_flag items).
Proof.
  induction items as [|item rest IH]; simpl; [reflexivity|].
  intros H. apply andb_true_iff in H. destruct H as [Hi Hr].
  destruct item as [| | | | | |d]; try discriminate Hi. simpl.
  destruct (dict_get d "isMainCategory") as [flag|]; simpl.
  - destruct (Json.truthy flag); [exact (IH Hr) | reflexivity].
  - reflexivity.
Qed.

Lemma mapR_record_dicts items :
  forallb is_dict items = true ->
  mapR main_category_record items = Ok (map record_of items).
Proof.
  induction items as [|item rest IH]; simpl; [reflexivity|].
  intros H. apply andb_true_iff in H. destruct H as [Hi Hr].
  destruct item as [| | | | | |d]; try discriminate Hi.
  rewrite (IH Hr). reflexivity.
Qed.

(** What the first loop decides for a well-shaped component. *)
Lemma extraction_well_shaped component :
  well_shaped component = true ->
  extraction component
  = Ok (if (Json.eq_str (field component "layout") "banner"
            && forallb main_flag (banner_items component))%bool
        then Some (map record_of (banner_items component))
        else None).
Proof.
  unfold well_shaped, extraction, banner_items, field, Json.get,
    Json.get_default.
  destruct component as [| | | | | |d]; try discriminate. simpl.
  destruct (Json.eq_str _ "banner"); [|reflexivity].
  destruct (dict_get d "config") as [[| | | | | |config]|]; try discriminate;
    [|reflexivity].
  simpl.
  destruct (dict_get config "items") as [[| | | | |items|]|]; try discriminate;
    [|reflexivity].
  simpl. intros H. rewrite (all_main_category_dicts _ H). simpl.
  destruct (forallb main_flag items); [|reflexivity].
  now rewrite (mapR_record_dicts _ H).
Qed.

Lemma all_main_category_flags items b :
  all_main_category items = Ok b -> b = forallb main_flag items.
Proof.
  induction items as [|item rest IH]; simpl.
  - intros H. now injection H as <-.
  - destruct item as [| | | | | |d]; try discriminate. simpl.
    destruct (dict_get d "isMainCategory") as [flag|]; simpl.
    + destruct (Json.truthy flag); [exact IH|].
      intros H. now injection H as <-.
    + intros H. now injection H as <-.
Qed.

(** What the first loop decides for a component it does not fail on. *)
Lemma extraction_ok component decision :
  extraction component = Ok decision ->
  decision = if main_category_banner component
             then Some (map record_of (banner_items component))
             else None.
Proof.
  unfold main_category_banner. intros H.
  assert (Hlayout : Json.get component "layout" = Ok (field component "layout")).
  { unfold extraction, Json.get, Json.get_default in *.
    destruct component; try discriminate H. reflexivity. }
  destruct decision as [rs|].
  - rewrite (extraction_record_of _ _ H).
    unfold extraction in H. rewrite Hlayout in H. simpl in H.
    destruct (Json.eq_str (field component "layout") "banner");
      [|discriminate H].
    unfold banner_items.
    destruct (Json.get_default component "config" (JDict [])) as [config|e];
      [|discriminate H].
    simpl in H |- *.
    destruct (Json.get_default config "items" (JList [])) as [items|e];
      [|discriminate H].
    simpl in H |- *. destruct (Json.iter items) as [its|e]; [|discriminate H].
    simpl in H |- *.
    destruct (all_main_category its) as [[|]|e] eqn:Ea; try discriminate H.
    now rewrite <- (all_main_category_flags _ _ Ea).
  - unfold extraction in H. rewrite Hlayout in H. simpl in H.
    destruct (Json.eq_str (field component "layout") "banner");
      [|reflexivity].
    unfold banner_items.
    destruct (Json.get_default component "config" (JDict [])) as [config|e];
      [|discriminate H].
    simpl in H |- *.
    destruct (Json.get_default config "items" (JList [])) as [items|e];
      [|discriminate H].
    simpl in H |- *. destruct (Json.iter items) as [its|e]; [|discriminate H].
    simpl in H |- *.
    destruct (all_main_category its) as [[|]|e] eqn:Ea; try discriminate H.
    + simpl in H. destruct (mapR main_category_record its); discriminate H.
    + now rewrite <- (all_main_category_flags _ _ Ea).
Qed.

Lemma decisions_ok (components : list json) :
  forall ds,
    decisions components = Ok ds ->
    records ds
    = flat_map (fun c => if main_category_banner c
                         then map record_of (banner_items c) else [])
               components
    /\ survivors components ds
       = filter (fun c => negb (main_category_banner c)) components.
Proof.
  unfold decisions.
  induction components as [|c rest IH]; simpl; intros ds H.
  - injection H as <-. split; reflexivity.
  - destruct (extraction c) as [d|e] eqn:Ec; simpl in H; [|discriminate H].
    destruct (mapR extraction rest) as [ds'|e]; simpl in H; [|discriminate H].
    injection H as <-. destruct (IH ds' eq_refl) as [Hr Hs].
    rewrite (extraction_ok _ _ Ec).
    destruct (main_category_banner c); simpl; rewrite Hr, Hs; split; reflexivity.
Qed.

Lemma decisions_well_shaped (components : list json) :
  forallb well_shaped components = true ->
  exists ds, decisions components = Ok ds.
Proof.
  unfold decisions. induction components as [|c rest IH]; simpl; intros H.
  - now exists [].
  - apply andb_true_iff in H. destruct H as [Hc Hrest].
    destruct (IH Hrest) as [ds Hds].
    rewrite (extraction_well_shaped c Hc), Hds. simpl. now eexists.
Qed.

(** C4: whenever the regrouping pass returns, its output is the input
    without the banners all of whose items carry a true [isMainCategory],
    the others in their original order; the records, one per item of a
    removed banner ([id]: [str] of the item's [category], [image]: the
    item's [image]), come in encounter order; and when there is at least
    one record, exactly one component
    [{layout: mainCategoryList, config: {categories: records}}] is put at
    index 0, before every component that is kept.  On every array of
    well-shaped components the pass does return, with that output. *)
Theorem regrouping_removes_and_prepends (components : list json) :
  let accumulated :=
    flat_map (fun c => if main_category_banner c
                       then map record_of (banner_items c) else [])
             components in
  let remaining :=
    filter (fun c => negb (main_category_banner c)) components in
  let expected :=
    match accumulated with
    | [] => remaining
    | _ :: _ =>
        JDict [("layout", JStr "mainCategoryList");
               ("config", JDict [("categories", JList accumulated)])]
        :: remaining
    end in
  (forall out,
      collect_main_category_items components = Ok out -> out = expected)
  /\ (forallb well_shaped components = true ->
      collect_main_category_items components = Ok expected).
Proof.
  intros accumulated remaining expected.
  assert (Hout : forall out,
            collect_main_category_items components = Ok out -> out = expected).
  { intros out Hout. rewrite collect_regrouped in Hout.
    apply rbind_ok in Hout. destruct Hout as [ds [Hds Hout]].
    injection Hout as <-.
    destruct (decisions_ok components ds Hds) as [Hr Hs].
    unfold regrouped, expected, remaining, accumulated. rewrite Hr, Hs.
    destruct (flat_map _ components); reflexivity. }
  split; [exact Hout|].
  intros Hshape.
  destruct (decisions_well_shaped components Hshape) as [ds Hds].
  assert (Hret : collect_main_category_items components
                 = Ok (regrouped components ds))
    by (rewrite collect_regrouped, Hds; reflexivity).
  rewrite Hret. f_equal. exact (Hout _ Hret).
Qed.

Lemma regrouping_removes_and_prepends_witness :
  forallb well_shaped
    [grid_component; main_banner (JInt 5) "a.png";
     JDict [("layout", JStr "list")]; main_banner (JStr "7") "b.png";
     empty_banner_component]
  = true
  /\ collect_main_category_items
       [grid_component; main_banner (JInt 5) "a.png";
        JDict [("layout", JStr "list")]; main_banner (JStr "7") "b.png";
        empty_banner_component]
     = Ok [JDict [("layout", JStr "mainCategoryList");
                  ("config",
                   JDict [("categories",
                           JList [JDict [("id", JStr "5");
                                         ("image", JStr "a.png")];
                                  JDict [("id", JStr "7");
                                         ("image", JStr "b.png")]])])];
           grid_component; JDict [("layout", JStr "list")]].
Proof.
  split; [reflexivity|].
  exact (proj2 (regrouping_removes_and_prepends
                  [grid_component; main_banner (JInt 5) "a.png";
                   JDict [("layout", JStr "list")];
                   main_banner (JStr "7") "b.png";
                   empty_banner_component]) eq_refl).
Defined.

(** X4: on an array of well-shaped components (mappings; a banner's
    [config] a mapping or absent, its [items] an array of mappings or
    absent) the regrouping pass returns, and it extracts exactly the
    banners all of whose items carry a true [isMainCategory]. *)
Theorem regrouping_returns (components : list json)
    (Hshape : forallb well_shaped components = true) :
  collect_main_category_items components
  = Ok (let extracted c :=
          (Json.eq_str (field c "layout") "banner"
           && forallb main_flag (banner_items c))%bool in
        match flat_map (fun c => if extracted c
                                 then map record_of (banner_items c) else [])
                       components
        with
        | [] => filter (fun c => negb (extracted c)) components
        | rs => main_category_list rs
                  :: filter (fun c => negb (extracted c)) components
        end).
Proof.
  rewrite collect_regrouped.
  assert (Hds : exists ds,
    decisions components = Ok ds
    /\ records ds
       = flat_map (fun c =>
                     if (Json.eq_str (field c "layout") "banner"
                         && forallb main_flag (banner_items c))%bool
                     then map record_of (banner_items c) else []) components
    /\ survivors components ds
       = filter (fun c =>
                   negb (Json.eq_str (field c "layout") "banner"
                         && forallb main_flag (banner_items c))%bool)
                components).
  { unfold decisions. induction components as [|c rest IH].
    - exists []. repeat split.
    - simpl in Hshape. apply andb_true_iff in Hshape.
      destruct Hshape as [Hc Hrest].
      destruct (IH Hrest) as [ds [H1 [H2 H3]]].
      cbn [mapR flat_map filter]. rewrite (extraction_well_shaped c Hc), H1.
      destruct (Json.eq_str (field c "layout") "banner"
                && forallb main_flag (banner_items c))%bool;
        eexists; (split; [reflexivity|]); simpl; rewrite H2, H3;
        split; reflexivity. }
  destruct Hds as [ds [H1 [H2 H3]]]. rewrite H1. simpl.
  unfold regrouped. now rewrite H2, H3.
Qed.

Lemma regrouping_returns_witness :
  forallb well_shaped
    [grid_component; main_banner (JInt 5) "a.png"; empty_banner_component;
     JDict [("layout", JStr "banner");
            ("config", JDict [("items", JList [JDict [("category", JInt 1)]])])]]
  = true
  /\ collect_main_category_items
       [grid_component; main_banner (JInt 5) "a.png"; empty_banner_component;
        JDict [("layout", JStr "banner");
               ("config", JDict [("items", JList [JDict [("category", JInt 1)]])])]]
     = Ok [main_category_list [JDict [("id", JStr "5"); ("image", JStr "a.png")]];
           grid_component;
           JDict [("layout", JStr "banner");
                  ("config", JDict [("items", JList [JDict [("category", JInt 1)]])])]].
Proof.
  split; [reflexivity|].
  exact (regrouping_returns
           [grid_component; main_banner (JInt 5) "a.png"; empty_banner_component;
            JDict [("layout", JStr "banner");
                   ("config",
                    JDict [("items", JList [JDict [("category", JInt 1)]])])]]
           eq_refl).
Defined.

(** X5: a banner is extracted as a whole or not at all.  As soon as one
    item of its [items] has no true [isMainCategory] (the items before it
    being mappings with a true flag) the banner stays, adds no record, and
    whatever follows that item is not even looked at. *)
Theorem mixed_banner_stays (d config : dict json) (before after : list json)
    (item : json)
    (Hlayout : dict_get d "layout" = Some (JStr "banner"))
    (Hconfig : dict_get d "config" = Some (JDict config))
    (Hitems : dict_get config "items"
              = Some (JList (before ++ item :: after)))
    (Hbefore : forallb (fun i => is_dict i && main_flag i)%bool before = true)
    (Hitem : is_dict item = true)
    (Hflag : main_flag item = false) :
  extraction (JDict d) = Ok None
  /\ forall left right,
       forallb stays left = true -> forallb stays right = true ->
       collect_main_category_items (left ++ JDict d :: right)
       = Ok (left ++ JDict d :: right)%list.
Proof.
  assert (Hext : extraction (JDict d) = Ok None).
  { unfold extraction, Json.get, Json.get_default. rewrite Hlayout. simpl.
    rewrite Hconfig. simpl. rewrite Hitems. simpl.
    assert (Hall : all_main_category (before ++ item :: after) = Ok false).
    { clear -Hbefore Hitem Hflag.
      induction before as [|i rest IH]; simpl.
      - destruct item as [| | | | | |f]; try discriminate Hitem.
        simpl in Hflag |- *.
        destruct (dict_get f "isMainCategory") as [flag|]; simpl;
          [now rewrite Hflag | reflexivity].
      - simpl in Hbefore. apply andb_true_iff in Hbefore.
        destruct Hbefore as [Hi Hrest]. apply andb_true_iff in Hi.
        destruct Hi as [Hd Hf].
        destruct i as [| | | | | |f]; try discriminate Hd.
        simpl in Hf |- *.
        destruct (dict_get f "isMainCategory") as [flag|];
          [|discriminate Hf].
        simpl. rewrite Hf. exact (IH Hrest). }
    now rewrite Hall. }
  split; [exact Hext|].
  intros left right Hl Hr. apply collect_stays.
  rewrite forallb_app. simpl. unfold stays at 2. now rewrite Hext, Hl, Hr.
Qed.

Lemma mixed_banner_stays_witness :
  collect_main_category_items
    [JDict [("layout", JStr "banner");
            ("config",
             JDict [("items",
                     JList [JDict [("isMainCategory", JBool true)];
                            JDict [("isMainCategory", JInt 0)];
                            JStr "not a mapping"])])];
     grid_component]
  = Ok [JDict [("layout", JStr "banner");
               ("config",
                JDict [("items",
                        JList [JDict [("isMainCategory", JBool true)];
                               JDict [("isMainCategory", JInt 0)];
                               JStr "not a mapping"])])];
        grid_component].
Proof.
  exact (proj2
           (mixed_banner_stays
              [("layout", JStr "banner");
               ("config",
                JDict [("items",
                        JList [JDict [("isMainCategory", JBool true)];
                               JDict [("isMainCategory", JInt 0)];
                               JStr "not a mapping"])])]
              [("items",
                JList [JDict [("isMainCategory", JBool true)];
                       JDict [("isMainCategory", JInt 0)];
                       JStr "not a mapping"])]
              [JDict [("isMainCategory", JBool true)]]
              [JStr "not a mapping"]
              (JDict [("isMainCategory", JInt 0)])
              eq_refl eq_refl eq_refl eq_refl eq_refl eq_refl)
           [] [grid_component] eq_refl eq_refl).
Defined.

(* ================================================================= *)
(** ** The two lookup services *)

Lemma wordpress_category_name_closed (r : reply) :
  try_except (wordpress_category_name r) (fun _ => JNull) = directory_name r.
Proof.
  destruct r as [|status_code [data|]]; simpl; try reflexivity;
    destruct (status_code =? 200); try reflexivity.
  all: destruct data as [|b|n|f|s|l|d]; simpl; try reflexivity.
  all: try (destruct b; reflexivity).
  all: try (destruct (n =? 0); reflexivity).
  all: try (destruct (String.eqb f "0.0" || String.eqb f "-0.0")%bool;
            reflexivity).
  all: try (destruct s; reflexivity).
  all: try (destruct l as [|[| | | | | |entry] rest]; reflexivity).
  all: destruct d as [|[k v] rest]; reflexivity.
Qed.

(** X6: [get_wordpress_category_name] never raises, sends exactly one
    request and touches no cache.  It returns a name only for a reply with
    status 200 whose body is a non-empty array starting with a mapping:
    that mapping's [name], or the empty text when it has none.  Every other
    reply, and every exception on the way, gives [None]. *)
Theorem get_wordpress_category_name_closed (world : services)
    (category_id : string) (st : state) :
  get_wordpress_category_name world category_id st
  = (Ok (directory_name (wordpress_service world (sent st) category_id)),
     log_request (GetWordpressCategory category_id) st).
Proof.
  rewrite get_wordpress_category_name_stage1. unfold stage1.
  now rewrite wordpress_category_name_closed.
Qed.

Lemma odoo_category_id_closed (r : reply) :
  try_except (odoo_category_id r) (fun _ => None) = catalog_id r.
Proof.
  destruct r as [|status_code [data|]]; simpl; try reflexivity;
    destruct (status_code =? 200); try reflexivity.
  all: destruct data as [|b|n|f|s|l|d]; try reflexivity.
  all: unfold field; cbn [andb Json.get Json.get_default rbind].
  all: destruct (dict_get d "status") as [status|]; try reflexivity.
  all: destruct (Json.eq_str status "success"); try reflexivity.
  all: cbn [rbind Json.item].
  all: destruct (dict_get d "data") as [found|]; try reflexivity.
  all: destruct found as [|b|n|f|s|l|d']; simpl; try reflexivity.
  all: try (destruct b; reflexivity).
  all: try (destruct (n =? 0); reflexivity).
  all: try (destruct (String.eqb f "0.0" || String.eqb f "-0.0")%bool;
            reflexivity).
  all: try (destruct s; reflexivity).
  all: try (destruct d' as [|[k v] rest]; reflexivity).
  all: destruct l as [|[| | | | | |entry] rest]; try reflexivity.
  all: simpl; destruct (dict_get entry "mattaId") as [matta_id|]; try reflexivity.
  all: simpl; destruct (Json.truthy matta_id); reflexivity.
Qed.

(** X7: [get_odoo_category_id] never raises and touches no cache.  For a
    name that is not a text it returns [None] without sending anything
    ([quote] fails first).  For a text it sends exactly one request and
    returns an id only for a 200 reply whose body is a mapping with
    [status] "success" and a [data] array starting with a mapping whose
    [mattaId] is true (so not 0, not null, not empty): [str] of that id.
    Every other reply, and every exception on the way, gives [None]. *)
Theorem get_odoo_category_id_closed (world : services)
    (category_name : json) (st : state) :
  get_odoo_category_id world category_name st
  = match category_name with
    | JStr name =>
        (Ok (catalog_id (odoo_service world (sent st) name)),
         log_request (GetOdooCategory name) st)
    | _ => (Ok None, st)
    end.
Proof.
  rewrite get_odoo_category_id_stage2. unfold stage2.
  destruct category_name; simpl; try (destruct st; reflexivity).
  now rewrite odoo_category_id_closed.
Qed.

Example get_odoo_category_id_zero :
  fst (get_odoo_category_id
         {| image_service := fun _ _ => ImageUnreachable;
            wordpress_service := fun _ _ => NoReply;
            odoo_service := fun _ _ => Reply 200 (Some (catalog_match 0)) |}
         (JStr "Shoes") initial)
  = Ok None.
Proof. reflexivity. Qed.

(* ================================================================= *)
(** ** More on the caches and the requests *)

Lemma get_image_dimensions_odoo self world image_url st r st' :
  get_image_dimensions self world image_url st = (r, st') ->
  odoo_names (sent st') = odoo_names (sent st).
Proof. intros H. fetch_cases self world image_url st H; reflexivity. Qed.

(** X8: with category remapping off, [convert_category_id] returns its
    argument and leaves the state alone, and a whole walk sends no
    directory and no catalog request and writes nothing to the category
    cache. *)
Theorem remap_disabled (self : settings) (world : services)
    (Hoff : convert_category_ids self = false) :
  (forall category_id st,
      convert_category_id self world category_id st = (Ok category_id, st))
  /\ (forall data st r st',
        transform_data self world data st = (r, st') ->
        category_cache st' = category_cache st
        /\ wordpress_ids (sent st') = wordpress_ids (sent st)
        /\ odoo_names (sent st') = odoo_names (sent st)).
Proof.
  split.
  - intros category_id st. now apply convert_category_id_off.
  - intros data st r st' H.
    refine (transform_data_preserves self world
              (fun s => category_cache s = category_cache st
                        /\ wordpress_ids (sent s) = wordpress_ids (sent st)
                        /\ odoo_names (sent s) = odoo_names (sent st))
              _ _ data st r st' (conj eq_refl (conj eq_refl eq_refl)) H).
    + intros id st0 r0 st0' HP H0.
      rewrite (convert_category_id_off self world _ _ Hoff) in H0.
      injection H0 as _ <-. exact HP.
    + intros url st0 r0 st0' HP H0.
      rewrite (get_image_dimensions_odoo _ _ _ _ _ _ H0).
      destruct (get_image_dimensions_frame self world _ _ _ _ H0) as [-> ->].
      exact HP.
Qed.

Lemma remap_disabled_witness :
  convert_category_ids no_remap = false
  /\ category_cache
       (snd (transform_data no_remap sample_world two_categories initial))
     = category_cache initial
  /\ wordpress_ids
       (sent (snd (transform_data no_remap sample_world two_categories initial)))
     = wordpress_ids (sent initial)
  /\ odoo_names
       (sent (snd (transform_data no_remap sample_world two_categories initial)))
     = odoo_names (sent initial).
Proof.
  split; [reflexivity|].
  exact (proj2 (remap_disabled no_remap sample_world eq_refl)
           two_categories initial _ _ (surjective_pairing _)).
Defined.

Example remap_disabled_example :
  transform_data no_remap sample_world two_categories initial
  = (Ok two_categories, initial).
Proof. reflexivity. Qed.

Lemma chain_staged world log category_id :
  staged log = true -> staged (snd (chain world log category_id)) = true.
Proof.
  intros H. unfold chain, stage2.
  destruct (stage1 world log category_id); simpl; exact H.
Qed.

(** X9: the catalog (stage 2) is only ever asked right after the
    directory (stage 1) has been asked: in the request log of a run every
    catalog request follows a directory request directly. *)
Theorem catalog_after_directory (self : settings) (world : services)
    (data : json) (st : state) (r : result json) (st' : state)
    (Hlog : staged (sent st) = true)
    (Hrun : transform_data self world data st = (r, st')) :
  staged (sent st') = true.
Proof.
  refine (transform_data_preserves self world
            (fun s => staged (sent s) = true) _ _ data st r st' Hlog Hrun).
  - intros id st0 r0 st0' HP H0.
    remap_cases self world id st0 H0; try exact HP.
    cbn [with_category sent]. now apply chain_staged.
  - intros url st0 r0 st0' HP H0.
    fetch_cases self world url st0 H0; exact HP.
Qed.

Lemma catalog_after_directory_witness :
  staged (sent initial) = true
  /\ staged (sent (snd (transform_data all_on sample_world banner_document
                          initial))) = true.
Proof.
  split; [reflexivity|].
  exact (catalog_after_directory all_on sample_world banner_document initial
           _ _ eq_refl (surjective_pairing _)).
Defined.

(** X10: with the dimension cache off, every call of
    [get_image_dimensions] that is not cut short by [fetch_dimensions]
    sends a request, even for a URL fetched before, and a whole walk
    writes nothing to the dimension cache. *)
Theorem cache_disabled (self : settings) (world : services)
    (Hoff : cache_dimensions self = false) :
  (forall image_url st,
      fetch_dimensions self = true ->
      get_image_dimensions self world image_url st
      = (Ok (fetched world (sent st) image_url),
         log_request (GetImage image_url) st))
  /\ (forall data st r st',
        transform_data self world data st = (r, st') ->
        dimension_cache st' = dimension_cache st).
Proof.
  assert (Hcall : forall image_url st r st',
    get_image_dimensions self world image_url st = (r, st') ->
    dimension_cache st' = dimension_cache st).
  { intros image_url st r st' H.
    fetch_cases self world image_url st H; try reflexivity.
    unfold with_dimension. now rewrite Hoff. }
  split.
  - intros image_url st Hf.
    rewrite get_image_dimensions_fetch by (rewrite ?Hoff; auto).
    unfold with_dimension, log_request. now rewrite Hoff.
  - intros data st r st' H.
    refine (transform_data_preserves self world
              (fun s => dimension_cache s = dimension_cache st)
              _ _ data st r st' eq_refl H).
    + intros id st0 r0 st0' HP H0.
      destruct (convert_category_id_frame self world _ _ _ _ H0) as [-> _].
      exact HP.
    + intros url st0 r0 st0' HP H0. now rewrite (Hcall _ _ _ _ H0).
Qed.

Lemma cache_disabled_witness :
  cache_dimensions no_cache = false
  /\ dimension_cache
       (snd (transform_data no_cache sample_world two_images initial))
     = dimension_cache initial.
Proof.
  split; [reflexivity|].
  exact (proj2 (cache_disabled no_cache sample_world eq_refl)
           two_images initial _ _ (surjective_pairing _)).
Defined.

Example cache_disabled_example :
  transform_data no_cache sample_world two_images initial
  = (Ok (JDict
           [("logo", descriptor "a.png" (Some 10, Some 20));
            ("slider_images",
             JList [descriptor "a.png" (Some 10, Some 20);
                    descriptor "b.png" (None, None);
                    descriptor "b.png" (None, None)])]),
     {| dimension_cache := [];
        category_cache := [];
        sent := [GetImage "b.png"; GetImage "b.png"; GetImage "a.png";
                 GetImage "a.png"] |}).
Proof. reflexivity. Qed.

(* ================================================================= *)
(** ** [create_image_model] with dimensions given *)

(** X11: [create_image_model] never raises and always returns a mapping
    that starts with [imageUrl].  With both dimensions given it sends no
    request and reports them as given (a 0 included); with only a non-zero
    width given that width wins over the fetched one; and a width of 0
    given alone is dropped in favour of the fetched one ([0 or x] is [x]). *)
Theorem create_image_model_given (self : settings) (world : services)
    (image_url : string) (st : state) :
  (forall width height,
      exists dims st',
        create_image_model self world image_url width height st
        = (Ok (descriptor image_url dims), st'))
  /\ (forall w h,
        create_image_model self world image_url (Some w) (Some h) st
        = (Ok (descriptor image_url (Some w, Some h)), st))
  /\ (forall w,
        w <> 0 ->
        exists fetched_width fetched_height st',
          get_image_dimensions self world image_url st
          = (Ok (fetched_width, fetched_height), st')
          /\ create_image_model self world image_url (Some w) None st
             = (Ok (descriptor image_url (Some w, fetched_height)), st'))
  /\ create_image_model self world image_url (Some 0) None st
     = create_image_model self world image_url None None st.
Proof.
  assert (Hdesc : forall w h st0,
    ret (JDict
           (let image_model := [("imageUrl", JStr image_url)] in
            let image_model :=
              match w with
              | Some w0 => dict_set image_model "width" (JStr (str_int w0))
              | None => image_model
              end in
            match h with
            | Some h0 => dict_set image_model "height" (JStr (str_int h0))
            | None => image_model
            end)) st0
    = (Ok (descriptor image_url (w, h)), st0)).
  { intros [w|] [h|] st0; reflexivity. }
  assert (Hfetch : forall width height,
    exists fw fh st',
      get_image_dimensions self world image_url st = (Ok (fw, fh), st')
      /\ (match width, height with Some _, Some _ => False | _, _ => True end ->
          create_image_model self world image_url width height st
          = (Ok (descriptor image_url
                   (or_dimension width fw, or_dimension height fh)), st'))).
  { intros width height.
    destruct (get_image_dimensions_total self world image_url st)
      as [[fw fh] [st' Hg]].
    exists fw, fh, st'. split; [exact Hg|]. intros Hmissing.
    unfold create_image_model, bind.
    destruct width as [w|], height as [h|]; try contradiction;
      rewrite Hg; cbn [ret]; apply Hdesc. }
  split; [|split; [|split]].
  - intros [w|] [h|].
    + exists (Some w, Some h), st. exact (Hdesc (Some w) (Some h) st).
    + destruct (Hfetch (Some w) None) as [fw [fh [st' [_ H]]]].
      eexists. exists st'. exact (H I).
    + destruct (Hfetch None (Some h)) as [fw [fh [st' [_ H]]]].
      eexists. exists st'. exact (H I).
    + destruct (Hfetch None None) as [fw [fh [st' [_ H]]]].
      eexists. exists st'. exact (H I).
  - intros w h. exact (Hdesc (Some w) (Some h) st).
  - intros w Hw. destruct (Hfetch (Some w) None) as [fw [fh [st' [Hg H]]]].
    exists fw, fh, st'. split; [exact Hg|]. rewrite (H I).
    unfold or_dimension. apply Z.eqb_neq in Hw. now rewrite Hw.
  - destruct (Hfetch (Some 0) None) as [fw [fh [st' [Hg H]]]].
    destruct (Hfetch None None) as [fw' [fh' [st'' [Hg' H']]]].
    rewrite (H I), (H' I). rewrite Hg in Hg'. injection Hg' as <- <- <-.
    reflexivity.
Qed.

Lemma create_image_model_given_witness :
  7 <> 0
  /\ create_image_model all_on sample_world "b.png" (Some 0) (Some 0) initial
     = (Ok (JDict [("imageUrl", JStr "b.png"); ("width", JStr "0");
                   ("height", JStr "0")]), initial)
  /\ exists fetched_width fetched_height st',
       get_image_dimensions all_on sample_world "a.png" initial
       = (Ok (fetched_width, fetched_height), st')
       /\ create_image_model all_on sample_world "a.png" (Some 7) None initial
          = (Ok (descriptor "a.png" (Some 7, fetched_height)), st').
Proof.
  split; [discriminate|]. split.
  - exact (proj1 (proj2 (create_image_model_given all_on sample_world "b.png"
                           initial)) 0 0).
  - apply (proj1 (proj2 (proj2 (create_image_model_given all_on sample_world
                                  "a.png" initial)))).
    discriminate.
Defined.

(* ================================================================= *)
(** ** The shape of the output *)

Lemma mapM_length {A B} (f : A -> M B) (l : list A) :
  forall st out st',
    mapM f l st = (Ok out, st') -> List.length out = List.length l.
Proof.
  induction l as [|x rest IH]; simpl; intros st out st' H.
  - injection H as <- _. reflexivity.
  - unfold bind in H. destruct (f x st) as [[y|e] st1]; [|discriminate H].
    destruct (mapM f rest st1) as [[ys|e] st2] eqn:E; [|discriminate H].
    injection H as <- _. simpl. now rewrite (IH _ _ _ E).
Qed.

Lemma dict_loop_keys {A B} (f : string -> A -> M B) (d : dict A) :
  forall transformed st out st',
    NoDup (keys transformed ++ keys d)%list ->
    dict_loop f d transformed st = (Ok out, st') ->
    keys out = (keys transformed ++ keys d)%list.
Proof.
  induction d as [|[k v] rest IH]; intros transformed st out st' Hnd H.
  - injection H as <- _. simpl. now rewrite app_nil_r.
  - simpl in H. unfold bind in H.
    destruct (f k v st) as [[v'|e] st1]; [|discriminate H].
    simpl in Hnd.
    assert (Hfresh : ~ In k (keys transformed)).
    { apply NoDup_remove_2 in Hnd. intros Hin. apply Hnd.
      apply in_or_app. now left. }
    rewrite (dict_set_fresh _ _ _ Hfresh) in H.
    assert (Hk : keys (transformed ++ [(k, v')])%list
                 = (keys transformed ++ [k])%list)
      by (unfold keys; now rewrite map_app).
    rewrite (IH _ _ _ _ ltac:(rewrite Hk, <- app_assoc; exact Hnd) H).
    rewrite Hk, <- app_assoc. reflexivity.
Qed.

(** X12: the walk keeps the shape of a value.  A mapping comes back as a
    mapping with the same keys in the same order (its keys being distinct);
    an array as an array of the same length, also an array under a key
    other than [components]; anything else comes back as it is. *)
Theorem transform_data_shape (self : settings) (world : services)
    (data : json) (st : state) (out : json) (st' : state)
    (Hrun : transform_data self world data st = (Ok out, st')) :
  match data with
  | JDict d =>
      exists d', out = JDict d' /\ (unique (keys d) = true -> keys d' = keys d)
  | JList l => exists l', out = JList l' /\ List.length l' = List.length l
  | _ => out = data /\ st' = st
  end
  /\ (forall key l st0 out0 st0',
        transform_value self world key (JList l) st0 = (Ok out0, st0') ->
        exists l', out0 = JList l' /\ List.length l' = List.length l).
Proof.
  split.
  - destruct data as [| | | | |l|d];
      try (injection Hrun as <- <-; split; reflexivity).
    + rewrite transform_data_list in Hrun. unfold bind in Hrun.
      destruct (mapM (transform_data self world) l st)
        as [[l'|e] st1] eqn:E; [|discriminate Hrun].
      injection Hrun as <- _. exists l'. split; [reflexivity|].
      exact (mapM_length _ _ _ _ _ E).
    + rewrite transform_data_dict in Hrun. unfold bind in Hrun.
      destruct (dict_loop (transform_entry self world) d [] st)
        as [[d'|e] st1] eqn:E; [|discriminate Hrun].
      injection Hrun as <- _. exists d'. split; [reflexivity|].
      intros Hu. apply unique_NoDup in Hu.
      exact (dict_loop_keys (transform_entry self world) d [] st d' st1 Hu E).
  - intros key l st0 out0 st0' H. rewrite transform_value_list in H.
    unfold bind in H.
    destruct (mapM (transform_element self world key) l st0)
      as [[l'|e] st1] eqn:E; [|discriminate H].
    injection H as <- _. exists l'. split; [reflexivity|].
    exact (mapM_length _ _ _ _ _ E).
Qed.

Lemma transform_data_shape_witness :
  exists d',
    JDict [("logo", descriptor "a.png" (Some 10, Some 20));
           ("slider_images",
            JList [descriptor "a.png" (Some 10, Some 20);
                   descriptor "b.png" (None, None);
                   descriptor "b.png" (None, None)])]
    = JDict d'
    /\ (unique (keys [("logo", JStr "a.png");
                      ("slider_images",
                       JList [JStr "a.png"; JStr "b.png"; JStr "b.png"])])
        = true ->
        keys d' = ["logo"; "slider_images"]).
Proof.
  exact (proj1 (transform_data_shape all_on sample_world two_images initial
                  (JDict [("logo", descriptor "a.png" (Some 10, Some 20));
                          ("slider_images",
                           JList [descriptor "a.png" (Some 10, Some 20);
                                  descriptor "b.png" (None, None);
                                  descriptor "b.png" (None, None)])])
                  {| dimension_cache :=
                       [("a.png", (Some 10, Some 20)); ("b.png", (None, None))];
                     category_cache := [];
                     sent := [GetImage "b.png"; GetImage "a.png"] |}
                  eq_refl)).
Defined.

(* ================================================================= *)
(** ** When the walk fails *)

Section Blame.

Context {A : Type} (ok : exn -> Prop).

Lemma blames_ret (a : A) : blames ok (ret a).
Proof. intros st e st' H. discriminate H. Qed.

Lemma blames_total (m : M A) : total m -> blames ok m.
Proof.
  intros Hm st e st' H. destruct (Hm st) as [a [st1 Ha]]. congruence.
Qed.

Lemma blames_weaken (ok' : exn -> Prop) (m : M A) :
  (forall e, ok' e -> ok e) -> blames ok' m -> blames ok m.
Proof. intros Hw Hm st e st' H. exact (Hw e (Hm st e st' H)). Qed.

Lemma blames_bind {B} (m : M B) (k : B -> M A) :
  blames ok m -> (forall b, blames ok (k b)) -> blames ok (bind m k).
Proof.
  intros Hm Hk st e st' H. unfold bind in H.
  destruct (m st) as [[b|e0] st1] eqn:E.
  - exact (Hk b st1 e st' H).
  - injection H as <- _. exact (Hm st e0 st1 E).
Qed.

End Blame.

Lemma blames_mapM {A B} (ok : exn -> Prop) (f : A -> M B) (l : list A) :
  Forall (fun x => blames ok (f x)) l -> blames ok (mapM f l).
Proof.
  induction 1 as [|x rest Hx _ IH]; simpl.
  - apply blames_ret.
  - apply blames_bind; [exact Hx|]. intros y.
    apply blames_bind; [exact IH|]. intros ys. apply blames_ret.
Qed.

Lemma blames_dict_loop {A B} (ok : exn -> Prop) (f : string -> A -> M B)
    (d : dict A) :
  Forall (fun kv => blames ok (f (fst kv) (snd kv))) d ->
  forall transformed, blames ok (dict_loop f d transformed).
Proof.
  induction 1 as [|kv rest Hkv _ IH]; intros transformed; simpl.
  - apply blames_ret.
  - apply blames_bind; [exact Hkv|]. intros v. apply IH.
Qed.

Lemma decisions_raises components e :
  decisions components = Raise e -> e = AttributeError \/ e = TypeError.
Proof.
  unfold decisions.
  induction components as [|c rest IH]; simpl; [discriminate|].
  destruct (extraction c) as [d|e'] eqn:Ec; simpl.
  - destruct (mapR extraction rest) as [ds|e'']; simpl; [discriminate|].
    intros H. injection H as ->. now apply IH.
  - intros H. injection H as ->. exact (extraction_raises _ _ Ec).
Qed.

Section Failures.

Variable self : settings.
Variable world : services.

Lemma create_image_model_total image_url :
  total (create_image_model self world image_url None None).
Proof.
  intros st. rewrite create_image_model_descriptor.
  destruct (get_image_dimensions_total self world image_url st)
    as [dims [st' H]].
  rewrite H. eauto.
Qed.

Lemma blames_remap (ok : exn -> Prop) key value (rest : M json) :
  blames ok rest ->
  blames ok
    (if (is_category_key key && Json.is_str_or_int value
         && isdigit (Json.str value))%bool
     then
       (converted_id <- convert_category_id self world (Json.str value) ;
        if Json.is_int value then
          match int_of_str converted_id with
          | Some n => ret (JInt n)
          | None => ret (JStr converted_id)
          end
        else ret (JStr converted_id))%M
     else rest).
Proof.
  intros Hrest.
  destruct (is_category_key key && Json.is_str_or_int value
            && isdigit (Json.str value))%bool; [|exact Hrest].
  apply blames_bind; [apply blames_total, convert_category_id_total|].
  intros converted.
  destruct (Json.is_int value); [destruct (int_of_str converted)|];
    apply blames_ret.
Qed.

Lemma entry_culprit_value key v e : culprit v e -> entry_culprit key v e.
Proof. intros [Hk Hc]. split; [exact Hk|]. now rewrite Hc. Qed.

Lemma culprit_element l x e : In x l -> culprit x e -> culprit (JList l) e.
Proof.
  intros Hin [Hk Hc]. split; [exact Hk|]. simpl.
  destruct (forallb no_components l) eqn:E; [|reflexivity].
  rewrite forallb_forall in E. rewrite (E x Hin) in Hc. discriminate Hc.
Qed.

Lemma culprit_entry d kv e :
  In kv d -> entry_culprit (fst kv) (snd kv) e -> culprit (JDict d) e.
Proof.
  intros Hin [Hk Hc]. split; [exact Hk|]. simpl.
  match goal with |- forallb ?f d = false => destruct (forallb f d) eqn:E end;
    [|reflexivity].
  rewrite forallb_forall in E. specialize (E kv Hin). simpl in E.
  rewrite E in Hc. discriminate Hc.
Qed.

Lemma blamed_scalar v (rest : string -> M json) :
  (forall key, transform_entry self world key v = transform_value self world key v) ->
  transform_data self world v = ret v ->
  (forall key, total (rest key)) ->
  (forall key,
      transform_value self world key v
      = (if (is_category_key key && Json.is_str_or_int v
             && isdigit (Json.str v))%bool
         then
           (converted_id <- convert_category_id self world (Json.str v) ;
            if Json.is_int v then
              match int_of_str converted_id with
              | Some n => ret (JInt n)
              | None => ret (JStr converted_id)
              end
            else ret (JStr converted_id))%M
         else rest key)) ->
  blamed self world v.
Proof.
  intros Hentry Hdata Hrest Hvalue. split.
  - rewrite Hdata. apply blames_ret.
  - intros key. rewrite Hentry, Hvalue.
    split; apply blames_remap, blames_total, Hrest.
Qed.

Lemma total_ret {A} (a : A) : total (ret a).
Proof. intros st. exists a, st. reflexivity. Qed.

Lemma transform_data_blamed : forall v, blamed self world v.
Proof.
  apply json_nested_ind.
  - apply blamed_scalar with (rest := fun _ => ret JNull); try reflexivity.
    intros; apply total_ret.
  - intros b.
    apply blamed_scalar with (rest := fun _ => ret (JBool b)); try reflexivity.
    intros; apply total_ret.
  - intros n.
    apply blamed_scalar with (rest := fun _ => ret (JInt n)); try reflexivity.
    intros; apply total_ret.
  - intros r.
    apply blamed_scalar with (rest := fun _ => ret (JFloat r)); try reflexivity.
    intros; apply total_ret.
  - intros s.
    apply blamed_scalar
      with (rest := fun key =>
                      if (is_image_field key || is_image_url (JStr s))%bool
                      then create_image_model self world s None None
                      else ret (JStr s)); try reflexivity.
    intros key.
    destruct (is_image_field key || is_image_url (JStr s))%bool;
      [apply create_image_model_total | apply total_ret].
  - intros l IH. rewrite Forall_forall in IH.
    assert (Hdata : blames (culprit (JList l))
                      (mapM (transform_data self world) l)).
    { apply blames_mapM. apply Forall_forall. intros x Hx.
      apply blames_weaken with (ok' := culprit x).
      - intros e. now apply culprit_element.
      - exact (proj1 (IH x Hx)). }
    assert (Hvalue : forall key,
      blames (culprit (JList l)) (transform_value self world key (JList l))).
    { intros key. rewrite transform_value_list.
      apply blames_bind; [|intros; apply blames_ret].
      apply blames_mapM. apply Forall_forall. intros x Hx.
      assert (Hrec : blames (culprit (JList l)) (transform_data self world x)).
      { apply blames_weaken with (ok' := culprit x).
        - intros e. now apply culprit_element.
        - exact (proj1 (IH x Hx)). }
      unfold transform_element. destruct x; try exact Hrec.
      destruct (is_image_field key || is_image_url (JStr s))%bool;
        [apply blames_total, create_image_model_total | exact Hrec]. }
    split; [|intros key; split].
    + rewrite transform_data_list.
      apply blames_bind; [exact Hdata | intros; apply blames_ret].
    + apply Hvalue.
    + unfold transform_entry. destruct (String.eqb key "components") eqn:Ek.
      * assert (Hhere : forall e,
          e = AttributeError \/ e = TypeError ->
          entry_culprit key (JList l) e).
        { intros e He. split; [exact He|]. rewrite Ek. simpl.
          apply andb_false_r. }
        apply blames_bind.
        -- apply blames_weaken with (ok' := culprit (JList l));
             [|exact Hdata].
           intros e [He _]. now apply Hhere.
        -- intros components. apply blames_bind; [|intros; apply blames_ret].
           intros st e st' H. unfold lift in H. injection H as H _.
           apply Hhere. rewrite collect_regrouped in H.
           destruct (decisions components) as [ds|e'] eqn:Hds;
             [discriminate H|].
           simpl in H. injection H as <-. exact (decisions_raises _ _ Hds).
      * apply blames_weaken with (ok' := culprit (JList l)); [|apply Hvalue].
        intros e. apply entry_culprit_value.
  - intros d IH. rewrite Forall_forall in IH.
    assert (Hdata : blames (culprit (JDict d)) (transform_data self world (JDict d))).
    { rewrite transform_data_dict.
      apply blames_bind; [|intros; apply blames_ret].
      apply blames_dict_loop. apply Forall_forall. intros kv Hkv.
      apply blames_weaken with (ok' := entry_culprit (fst kv) (snd kv)).
      - intros e. now apply culprit_entry.
      - exact (proj2 (proj2 (IH kv Hkv) (fst kv))). }
    split; [exact Hdata|]. intros key.
    unfold transform_entry. rewrite transform_value_dict.
    split; [exact Hdata|].
    apply blames_weaken with (ok' := culprit (JDict d)); [|exact Hdata].
    intros e. apply entry_culprit_value.
Qed.

End Failures.

(** X13: the only thing that can make the walk fail is the regrouping
    pass.  When [transform_data] raises, the exception is [AttributeError]
    or [TypeError] and the document has an array under a [components] key;
    a document with no such array is always transformed. *)
Theorem walk_failures (self : settings) (world : services) (data : json)
    (st : state) :
  (forall e st',
      transform_data self world data st = (Raise e, st') ->
      (e = AttributeError \/ e = TypeError) /\ no_components data = false)
  /\ (no_components data = true ->
      exists out st', transform_data self world data st = (Ok out, st')).
Proof.
  pose proof (proj1 (transform_data_blamed self world data)) as Hb.
  split.
  - intros e st' H. exact (Hb st e st' H).
  - intros Hnone.
    destruct (transform_data self world data st) as [[out|e] st'] eqn:E.
    + now exists out, st'.
    + destruct (Hb st e st' E) as [_ Hc]. congruence.
Qed.

Lemma walk_failures_witness :
  no_components two_images = true
  /\ (exists out st',
         transform_data all_on sample_world two_images initial = (Ok out, st'))
  /\ transform_data all_on sample_world
       (JDict [("page", JDict [("components", JList [JStr "a.png"])])]) initial
     = (Raise AttributeError, initial)
  /\ ((AttributeError = AttributeError \/ AttributeError = TypeError)
      /\ no_components
           (JDict [("page", JDict [("components", JList [JStr "a.png"])])])
         = false).
Proof.
  split; [reflexivity|]. split; [|split; [reflexivity|]].
  - exact (proj2 (walk_failures all_on sample_world two_images initial)
             eq_refl).
  - exact (proj1 (walk_failures all_on sample_world
                    (JDict [("page",
                             JDict [("components", JList [JStr "a.png"])])])
                    initial)
             AttributeError initial eq_refl).
Defined.

(* ================================================================= *)
(** ** Where texts are rewritten, and where not *)

Lemma no_mapping_fixed self world :
  forall v, no_mapping v = true -> fixed self world v.
Proof.
  unfold fixed.
  apply (json_nested_ind
           (fun v => no_mapping v = true ->
                     forall st, transform_data self world v st = (Ok v, st)));
    try (intros; reflexivity).
  - intros l IH Hl st. simpl in Hl. rewrite forallb_forall in Hl.
    rewrite Forall_forall in IH.
    rewrite transform_data_list. unfold bind.
    rewrite mapM_fixed; [reflexivity|].
    apply Forall_forall. intros x Hx. exact (IH x Hx (Hl x Hx)).
  - intros d _ Hd. discriminate Hd.
Qed.

(** X14: only the values of a mapping are ever rewritten.  A document
    that holds no mapping (a text, an array of texts, arrays of arrays) is
    returned as it is even when its texts are image URLs; and so is, under
    any key, an array whose elements are such arrays. *)
Theorem texts_outside_mappings (self : settings) (world : services)
    (data : json) (Hplain : no_mapping data = true) :
  (forall st, transform_data self world data st = (Ok data, st))
  /\ (forall key items st,
        data = JList items ->
        forallb is_list items = true ->
        transform_value self world key data st = (Ok data, st)).
Proof.
  split; [exact (no_mapping_fixed self world data Hplain)|].
  intros key items st -> Hl. rewrite transform_value_list. unfold bind.
  rewrite mapM_fixed; [reflexivity|].
  simpl in Hplain. rewrite forallb_forall in Hplain, Hl.
  apply Forall_forall. intros x Hx st0.
  pose proof (no_mapping_fixed self world x (Hplain x Hx)) as Hfix.
  specialize (Hl x Hx). unfold transform_element.
  destruct x; try discriminate Hl. apply Hfix.
Qed.

Lemma texts_outside_mappings_witness :
  no_mapping (JList [JStr "a.png"; JList [JStr "https://x.org/images/1"]]) = true
  /\ transform_data all_on sample_world
       (JList [JStr "a.png"; JList [JStr "https://x.org/images/1"]]) initial
     = (Ok (JList [JStr "a.png"; JList [JStr "https://x.org/images/1"]]),
        initial).
Proof.
  split; [reflexivity|].
  exact (proj1 (texts_outside_mappings all_on sample_world
                  (JList [JStr "a.png"; JList [JStr "https://x.org/images/1"]])
                  eq_refl) initial).
Defined.

(** X15: an array of texts under an image field (in any letter case)
    becomes an array of image descriptors, one per text and in the same
    order, each with the text as its [imageUrl]; the call never raises. *)
Theorem image_field_array (self : settings) (world : services)
    (key : string) (texts : list string) (st : state)
    (Hfield : is_image_field key = true) :
  exists out st',
    transform_value self world key (JList (map JStr texts)) st
    = (Ok (JList out), st')
    /\ Forall2 (fun s o => exists dims, o = descriptor s dims) texts out.
Proof.
  rewrite transform_value_list. unfold bind.
  assert (Hmap : forall st0,
    exists out st',
      mapM (transform_element self world key) (map JStr texts) st0
      = (Ok out, st')
      /\ Forall2 (fun s o => exists dims, o = descriptor s dims) texts out).
  { induction texts as [|s rest IH]; intros st0; simpl.
    - exists [], st0. split; [reflexivity | constructor].
    - unfold bind. rewrite Hfield. cbn [orb].
      rewrite create_image_model_descriptor.
      destruct (get_image_dimensions_total self world s st0)
        as [dims [st1 Hg]].
      rewrite Hg. destruct (IH st1) as [out [st2 [Hrest HR]]].
      rewrite Hrest. exists (descriptor s dims :: out), st2.
      split; [reflexivity|]. constructor; [now exists dims | exact HR]. }
  destruct (Hmap st) as [out [st' [H HR]]]. rewrite H.
  exists out, st'. split; [reflexivity | exact HR].
Qed.

Lemma image_field_array_witness :
  is_image_field "Slider_Images" = true
  /\ exists out st',
       transform_value no_fetch sample_world "Slider_Images"
         (JList (map JStr ["x"; "y"])) initial
       = (Ok (JList out), st')
       /\ Forall2 (fun s o => exists dims, o = descriptor s dims) ["x"; "y"] out.
Proof.
  split; [reflexivity|].
  exact (image_field_array no_fetch sample_world "Slider_Images" ["x"; "y"]
           initial eq_refl).
Defined.

Example nested_array_under_image_field :
  transform_value all_on sample_world "slider_images"
    (JList [JList [JStr "a.png"]; JStr "a.png"]) initial
  = (Ok (JList [JList [JStr "a.png"]; descriptor "a.png" (Some 10, Some 20)]),
     {| dimension_cache := [("a.png", (Some 10, Some 20))];
        category_cache := [];
        sent := [GetImage "a.png"] |}).
Proof. reflexivity. Qed.

(** X16: a text that [is_image_url] accepts is replaced by an image
    descriptor under every key, unless it is an all-digit text under a
    category key.  This holds for the key [imageUrl] too, so the walk is
    not idempotent: run on a descriptor it has produced from such a text,
    it wraps the URL in a second descriptor. *)
Theorem image_url_text (self : settings) (world : services)
    (s : string) (st : state)
    (Hurl : is_image_url (JStr s) = true) :
  (forall key,
      (is_category_key key && isdigit s)%bool = false ->
      transform_value self world key (JStr s) st
      = create_image_model self world s None None st)
  /\ (exists dims st',
        transform_data self world (JDict [("imageUrl", JStr s)]) st
        = (Ok (JDict [("imageUrl", descriptor s dims)]), st')).
Proof.
  assert (Hvalue : forall key,
    (is_category_key key && isdigit s)%bool = false ->
    transform_value self world key (JStr s) st
    = create_image_model self world s None None st).
  { intros key Hkey. unfold transform_value, transform_value_with.
    cbn [Json.is_str_or_int Json.str andb]. rewrite andb_true_r, Hkey, Hurl.
    now rewrite orb_true_r. }
  split; [exact Hvalue|].
  destruct (get_image_dimensions_total self world s st) as [dims [st' Hg]].
  exists dims, st'. rewrite transform_data_dict. simpl. unfold bind.
  unfold transform_entry. rewrite (Hvalue "imageUrl" eq_refl).
  rewrite create_image_model_descriptor, Hg. reflexivity.
Qed.

Lemma image_url_text_witness :
  is_image_url (JStr "https://cdn.example/media/7") = true
  /\ exists dims st',
       transform_data no_fetch sample_world
         (JDict [("imageUrl", JStr "https://cdn.example/media/7")]) initial
       = (Ok (JDict [("imageUrl",
                      descriptor "https://cdn.example/media/7" dims)]), st').
Proof.
  split; [reflexivity|].
  exact (proj2 (image_url_text no_fetch sample_world
                  "https://cdn.example/media/7" initial eq_refl)).
Defined.

(** X17: an integer category comes back as an integer: when the id that
    [convert_category_id] resolves for a non-negative integer [n] is the
    decimal text of an integer [m], the value becomes [m]; in particular
    [n] itself comes back when remapping is off or the id resolves to
    itself. *)
Theorem integer_category_stays_integer (self : settings) (world : services)
    (key : string) (n m : Z) (st st' : state)
    (Hkey : is_category_key key = true)
    (Hn : 0 <= n)
    (Hconvert : convert_category_id self world (str_int n) st
                = (Ok (str_int m), st')) :
  transform_value self world key (JInt n) st = (Ok (JInt m), st').
Proof.
  unfold transform_value, transform_value_with.
  rewrite Hkey. cbn [Json.is_str_or_int Json.str Json.repr andb].
  rewrite isdigit_str_int. apply Z.leb_le in Hn. rewrite Hn.
  unfold bind. rewrite Hconvert. cbn [Json.is_int].
  now rewrite int_of_str_str_int.
Qed.

Lemma integer_category_stays_integer_witness :
  is_category_key "categoryId" = true
  /\ 0 <= 42
  /\ transform_value all_on sample_world "categoryId" (JInt 42) initial
     = (Ok (JInt 777),
        {| dimension_cache := [];
           category_cache := [("42", "777")];
           sent := [GetOdooCategory "Shoes"; GetWordpressCategory "42"] |}).
Proof.
  split; [reflexivity|]. split; [lia|].
  exact (integer_category_stays_integer all_on sample_world "categoryId"
           42 777 initial _ eq_refl ltac:(lia) eq_refl).
Defined.

(* ================================================================= *)
(** ** Width and height come together *)

Lemma fetched_all_or_nothing world log image_url :
  all_or_nothing (fetched world log image_url) = true.
Proof. unfold fetched. destruct (image_service world log image_url); reflexivity. Qed.

Lemma get_image_dimensions_all_or_nothing self world image_url :
  preserves cache_all_or_nothing (get_image_dimensions self world image_url).
Proof.
  intros st r st' HP H. fetch_cases self world image_url st H; try exact HP.
  unfold cache_all_or_nothing, with_dimension. cbn [dimension_cache].
  destruct (cache_dimensions self); [|exact HP].
  intros url d Hd. destruct (string_dec url image_url) as [->|Hne].
  - rewrite dict_get_set_same in Hd. injection Hd as <-.
    apply fetched_all_or_nothing.
  - rewrite dict_get_set_other in Hd by exact Hne. exact (HP url d Hd).
Qed.

(** X20: width and height come together.  Starting from an empty cache,
    the dimension cache only ever holds pairs with both dimensions or
    none, during and after a walk; so every call of [get_image_dimensions]
    in a run answers with both or none, and no descriptor built in a run
    has a [width] without a [height] or the reverse. *)
Theorem dimensions_all_or_nothing (self : settings) (world : services) :
  cache_all_or_nothing initial
  /\ (forall data st r st',
        cache_all_or_nothing st ->
        transform_data self world data st = (r, st') ->
        cache_all_or_nothing st')
  /\ (forall image_url st dims st',
        cache_all_or_nothing st ->
        get_image_dimensions self world image_url st = (Ok dims, st') ->
        all_or_nothing dims = true
        /\ exists model,
             descriptor image_url dims = JDict model
             /\ (dict_get model "width" = None
                 <-> dict_get model "height" = None)).
Proof.
  split; [|split].
  - intros url d H. discriminate H.
  - intros data st r st' HP H.
    refine (transform_data_preserves self world cache_all_or_nothing
              _ _ data st r st' HP H).
    + intros id st0 r0 st0' HP0 H0. unfold cache_all_or_nothing.
      destruct (convert_category_id_frame self world _ _ _ _ H0) as [-> _].
      exact HP0.
    + intros url. apply get_image_dimensions_all_or_nothing.
  - intros image_url st dims st' HP H.
    assert (Hd : all_or_nothing dims = true).
    { destruct (get_image_dimensions_cases self world image_url st)
        as [[_ E]|[[_ [_ [d [Hhit E]]]]|[_ [_ E]]]]; rewrite E in H;
        injection H as <- _.
      - reflexivity.
      - exact (HP _ _ Hhit).
      - apply fetched_all_or_nothing. }
    split; [exact Hd|].
    destruct dims as [[w|] [h|]]; try discriminate Hd; eexists;
      (split; [reflexivity|]); simpl; split; intros E;
      (discriminate E || reflexivity).
Qed.

Lemma dimensions_all_or_nothing_witness :
  cache_all_or_nothing initial
  /\ all_or_nothing (Some 10, Some 20) = true.
Proof.
  split.
  - exact (proj1 (dimensions_all_or_nothing all_on sample_world)).
  - exact (proj1 (proj2 (proj2 (dimensions_all_or_nothing all_on sample_world))
                    "a.png" initial (Some 10, Some 20)
                    {| dimension_cache := [("a.png", (Some 10, Some 20))];
                       category_cache := [];
                       sent := [GetImage "a.png"] |}
                    (proj1 (dimensions_all_or_nothing all_on sample_world))
                    eq_refl)).
Defined.

(* ================================================================= *)
(** ** The entry points *)

(** X18: for the arguments [parse_args] returned, [main] returns 0 or 1.
    It returns 0 exactly when the input file exists, can be read, parses,
    is transformed without an exception, the output path can be opened and
    the dump completes; the output path (the [-o] path, or [output.json]
    when [-o] is absent or empty) then holds the dump of the transformed
    document.  The walk runs before the output is opened: when the input is
    missing, unreadable or malformed, when the walk raises, or when the
    output cannot be opened, [main] returns 1 and the file system is
    untouched.  When the dump raises after the output was opened, [main]
    returns 1 and the output file is left with the part written so far.
    No file but the output is ever changed. *)
Theorem main_outcome (world : services) (h : host) (args : arguments)
    (fs : files) :
  (exit_code (main world h args fs) = 0 \/ exit_code (main world h args fs) = 1)
  /\ (exit_code (main world h args fs) = 0 <->
      exists text data transformed st' out,
        dict_get fs (input_file args) = Some text
        /\ readable h (input_file args) = true
        /\ loads h text = Some data
        /\ transform_data (transformer args) world data initial
           = (Ok transformed, st')
        /\ writable h (output_path args) = true
        /\ dump h (output_path args) (indent args) transformed = Complete out
        /\ files_after (main world h args fs)
           = dict_set fs (output_path args) out)
  /\ (dict_get fs (input_file args) = None
      \/ readable h (input_file args) = false
      \/ (exists text,
             dict_get fs (input_file args) = Some text /\ loads h text = None)
      \/ (exists text data e st',
             dict_get fs (input_file args) = Some text
             /\ loads h text = Some data
             /\ transform_data (transformer args) world data initial
                = (Raise e, st'))
      \/ writable h (output_path args) = false ->
      exit_code (main world h args fs) = 1
      /\ files_after (main world h args fs) = fs)
  /\ (forall text data transformed st' partial_text,
        dict_get fs (input_file args) = Some text ->
        readable h (input_file args) = true ->
        loads h text = Some data ->
        transform_data (transformer args) world data initial
        = (Ok transformed, st') ->
        writable h (output_path args) = true ->
        dump h (output_path args) (indent args) transformed
        = Interrupted partial_text ->
        exit_code (main world h args fs) = 1
        /\ files_after (main world h args fs)
           = dict_set fs (output_path args) partial_text)
  /\ (forall path,
        path <> output_path args ->
        dict_get (files_after (main world h args fs)) path = dict_get fs path)
  /\ (output args = None \/ output args = Some EmptyString ->
      output_path args = "output.json").
Proof.
  assert (Hpath : output args = None \/ output args = Some EmptyString ->
                  output_path args = "output.json").
  { unfold output_path. intros [->| ->]; reflexivity. }
  unfold main, transform_json_file.
  destruct (dict_get fs (input_file args)) as [text|] eqn:Hin.
  2: { cbn [exit_code files_after].
       split; [now right|]. split; [|split; [|split; [|split]]]; auto.
       - split; [discriminate|].
         intros [text [data [transformed [st' [out [H _]]]]]]. discriminate H.
       - intros text data transformed st' partial_text H. discriminate H. }
  destruct (readable h (input_file args)) eqn:Hread; cbn [negb].
  2: { cbn [exit_code files_after].
       split; [now right|]. split; [|split; [|split; [|split]]]; auto.
       - split; [discriminate|].
         intros [text' [data [transformed [st' [out [_ [H _]]]]]]].
         discriminate H.
       - intros text' data transformed st' partial_text _ H. discriminate H. }
  destruct (loads h text) as [data|] eqn:Hload.
  2: { cbn [exit_code files_after].
       split; [now right|]. split; [|split; [|split; [|split]]]; auto.
       - split; [discriminate|].
         intros [text' [data [transformed [st' [out [H1 [_ [H2 _]]]]]]]].
         congruence.
       - intros text' data transformed st' partial_text H1 _ H2. congruence. }
  cbv zeta.
  destruct (transform_data (transformer args) world data initial)
    as [[transformed|e] st'] eqn:Hrun.
  2: { cbn [exit_code files_after].
       split; [now right|]. split; [|split; [|split; [|split]]]; auto.
       - split; [discriminate|].
         intros [text' [data' [transformed [st'' [out [H1 [_ [H2 [H3 _]]]]]]]]].
         congruence.
       - intros text' data' transformed st'' partial_text H1 _ H2 H3.
         congruence. }
  destruct (writable h (output_path args)) eqn:Hw.
  2: { cbn [exit_code files_after].
       split; [now right|]. split; [|split; [|split; [|split]]]; auto.
       - split; [discriminate|].
         intros [text' [data' [transformed' [st'' [out [_ [_ [_ [_ [H _]]]]]]]]]].
         discriminate H.
       - intros text' data' transformed' st'' partial_text _ _ _ _ H.
         discriminate H. }
  assert (Hsame : forall text' data' transformed' st'',
            Some text = Some text' -> loads h text' = Some data' ->
            transform_data (transformer args) world data' initial
            = (Ok transformed', st'') -> transformed' = transformed).
  { intros text' data' transformed' st'' H1 H2 H3. injection H1 as <-.
    rewrite Hload in H2. injection H2 as <-. rewrite Hrun in H3.
    now injection H3 as <- _. }
  assert (Hnone :
    Some text = None
    \/ true = false
    \/ (exists text', Some text = Some text' /\ loads h text' = None)
    \/ (exists text' data' e st'',
           Some text = Some text'
           /\ loads h text' = Some data'
           /\ transform_data (transformer args) world data' initial
              = (Raise e, st''))
    \/ true = false -> False).
  { intros [ H | [ H | [ [text' [H1 H2] ] | [ [text' [data' [e [st'' [H1 [H2 H3] ] ] ] ] ] | H ] ] ] ];
      try discriminate H.
    - injection H1 as <-. congruence.
    - injection H1 as <-. rewrite Hload in H2. injection H2 as <-.
      rewrite Hrun in H3. discriminate H3. }
  destruct (dump h (output_path args) (indent args) transformed)
    as [out|partial_text] eqn:Hdump; cbn [exit_code files_after].
  - split; [now left|]. split; [|split; [|split; [|split]]].
    + split; [intros _|reflexivity].
      exists text, data, transformed, st', out.
      repeat split; assumption || reflexivity.
    + intros H. destruct (Hnone H).
    + intros text' data' transformed' st'' partial_text H1 _ H2 H3 _ H4.
      rewrite (Hsame _ _ _ _ H1 H2 H3), Hdump in H4. discriminate H4.
    + intros path Hne. now apply dict_get_set_other.
    + exact Hpath.
  - split; [now right|]. split; [|split; [|split; [|split]]].
    + split; [discriminate|].
      intros [text' [data' [transformed' [st'' [out [H1 [_ [H2 [H3 [_ [H4 _]]]]]]]]]]].
      rewrite (Hsame _ _ _ _ H1 H2 H3), Hdump in H4. discriminate H4.
    + intros H. destruct (Hnone H).
    + intros text' data' transformed' st'' partial_text' H1 _ H2 H3 _ H4.
      rewrite (Hsame _ _ _ _ H1 H2 H3), Hdump in H4. injection H4 as <-.
      split; reflexivity.
    + intros path Hne. now apply dict_get_set_other.
    + exact Hpath.
Qed.

Lemma main_outcome_witness :
  output_path {| input_file := "in.json"; output := Some EmptyString;
                 indent := 2; no_dimensions := true |} = "output.json"
  /\ (exit_code (main sample_world sample_host
                   {| input_file := "bad.json"; output := None; indent := 2;
                      no_dimensions := true |} sample_files) = 1
      /\ files_after (main sample_world sample_host
                        {| input_file := "bad.json"; output := None;
                           indent := 2; no_dimensions := true |} sample_files)
         = sample_files)
  /\ (exit_code (main sample_world sample_host
                   {| input_file := "in.json"; output := Some "/full/out.json";
                      indent := 2; no_dimensions := true |} sample_files) = 1
      /\ files_after (main sample_world sample_host
                        {| input_file := "in.json";
                           output := Some "/full/out.json";
                           indent := 2; no_dimensions := true |} sample_files)
         = dict_set sample_files "/full/out.json" EmptyString).
Proof.
  split; [|split].
  - apply (proj2 (proj2 (proj2 (proj2 (proj2
             (main_outcome sample_world sample_host
                {| input_file := "in.json"; output := Some EmptyString;
                   indent := 2; no_dimensions := true |} sample_files)))))).
    right. reflexivity.
  - apply (proj1 (proj2 (proj2
             (main_outcome sample_world sample_host
                {| input_file := "bad.json"; output := None; indent := 2;
                   no_dimensions := true |} sample_files)))).
    right. right. right. left.
    exists "{broken components}", (JDict [("components", JList [JInt 1])]),
      AttributeError, initial.
    repeat split.
  - apply (proj1 (proj2 (proj2 (proj2
             (main_outcome sample_world sample_host
                {| input_file := "in.json"; output := Some "/full/out.json";
                   indent := 2; no_dimensions := true |} sample_files)))))
      with (text := "{images}") (data := two_images)
           (transformed :=
              JDict [("logo", JDict [("imageUrl", JStr "a.png")]);
                     ("slider_images",
                      JList [JDict [("imageUrl", JStr "a.png")];
                             JDict [("imageUrl", JStr "b.png")];
                             JDict [("imageUrl", JStr "b.png")]])])
           (st' := initial);
      reflexivity.
Defined.

Example main_example :
  main sample_world sample_host
    {| input_file := "in.json"; output := Some "in.json"; indent := 2;
       no_dimensions := true |} sample_files
  = {| exit_code := 0;
       files_after :=
         [("in.json",
           "{'logo': {'imageUrl': 'a.png'}, 'slider_images': [{'imageUrl': 'a.png'}, {'imageUrl': 'b.png'}, {'imageUrl': 'b.png'}]}");
          ("bad.json", "{broken components}"); ("notes.txt", "not json");
          ("locked.json", "{images}"); ("/full/out.json", "old")];
       requests := [] |}.
Proof. reflexivity. Qed.

Example main_failures :
  exit_code (main sample_world sample_host
               {| input_file := "missing.json"; output := None; indent := 2;
                  no_dimensions := true |} sample_files) = 1
  /\ exit_code (main sample_world sample_host
                  {| input_file := "locked.json"; output := None; indent := 2;
                     no_dimensions := true |} sample_files) = 1
  /\ exit_code (main sample_world sample_host
                  {| input_file := "notes.txt"; output := None; indent := 2;
                     no_dimensions := true |} sample_files) = 1
  /\ main sample_world sample_host
       {| input_file := "in.json"; output := Some "/readonly/out.json";
          indent := 2; no_dimensions := true |} sample_files
     = {| exit_code := 1; files_after := sample_files; requests := [] |}.
Proof. repeat split. Qed.

Lemma main_requests world h args fs :
  requests (main world h args fs)
  = sent (snd (transform_json_file (transformer args) world h fs
                 (input_file args) initial)).
Proof.
  unfold main.
  destruct (transform_json_file (transformer args) world h fs
              (input_file args) initial) as [[e|out] st]; [reflexivity|].
  destruct (writable h (output_path args)); [|reflexivity].
  destruct (dump h (output_path args) (indent args) out); reflexivity.
Qed.

Lemma transform_json_file_preserves self world h fs path (P : state -> Prop) :
  (forall category_id, preserves P (convert_category_id self world category_id)) ->
  (forall image_url, preserves P (get_image_dimensions self world image_url)) ->
  forall st, P st -> P (snd (transform_json_file self world h fs path st)).
Proof.
  intros Hc Hd st HP. unfold transform_json_file.
  destruct (dict_get fs path) as [text|]; [|exact HP].
  destruct (readable h path); [|exact HP]. cbn [negb].
  destruct (loads h text) as [data|]; [|exact HP].
  cbv zeta.
  destruct (transform_data self world data st) as [[out|e] st'] eqn:E;
    exact (transform_data_preserves self world P Hc Hd data st _ st' HP E).
Qed.

(** X19: in a run of [main] (which always caches) no image URL is fetched
    twice, no category id is looked up twice, and every catalog request
    comes right after a directory request, whatever the input file holds
    and whether the run succeeds or not; with [--no-dimensions] no image
    request is sent at all. *)
Theorem main_requests_once (world : services) (h : host) (args : arguments)
    (fs : files) :
  NoDup (image_urls (requests (main world h args fs)))
  /\ NoDup (wordpress_ids (requests (main world h args fs)))
  /\ staged (requests (main world h args fs)) = true
  /\ (no_dimensions args = true ->
      image_urls (requests (main world h args fs)) = []).
Proof.
  rewrite main_requests.
  split; [|split; [|split]].
  - refine (proj1 (transform_json_file_preserves (transformer args) world h fs
                     (input_file args) fetches_cached _ _ initial _)).
    + intros id. apply convert_category_id_fetches.
    + intros url. now apply get_image_dimensions_fetches.
    + split; [constructor | intros url []].
  - refine (proj1 (transform_json_file_preserves (transformer args) world h fs
                     (input_file args) lookups_cached _ _ initial _)).
    + intros id. apply convert_category_id_lookups.
    + intros url. apply get_image_dimensions_lookups.
    + split; [constructor | intros id []].
  - refine (transform_json_file_preserves (transformer args) world h fs
              (input_file args) (fun s => staged (sent s) = true)
              _ _ initial eq_refl).
    + intros id st0 r0 st0' HP H0.
      remap_cases (transformer args) world id st0 H0; try exact HP.
      cbn [with_category sent]. now apply chain_staged.
    + intros url st0 r0 st0' HP H0.
      fetch_cases (transformer args) world url st0 H0; exact HP.
  - intros Hno.
    refine (transform_json_file_preserves (transformer args) world h fs
              (input_file args) (fun s => image_urls (sent s) = [])
              _ _ initial eq_refl).
    + intros id st0 r0 st0' HP H0.
      destruct (convert_category_id_frame (transformer args) world _ _ _ _ H0)
        as [_ ->]. exact HP.
    + intros url st0 r0 st0' HP H0.
      rewrite get_image_dimensions_off in H0
        by (unfold transformer; cbn [fetch_dimensions]; now rewrite Hno).
      injection H0 as _ <-. exact HP.
Qed.

Lemma main_requests_once_witness :
  no_dimensions {| input_file := "in.json"; output := None; indent := 2;
                   no_dimensions := true |} = true
  /\ image_urls
       (requests (main sample_world sample_host
                    {| input_file := "in.json"; output := None; indent := 2;
                       no_dimensions := true |} sample_files)) = [].
Proof.
  split; [reflexivity|].
  exact (proj2 (proj2 (proj2
           (main_requests_once sample_world sample_host
              {| input_file := "in.json"; output := None; indent := 2;
                 no_dimensions := true |} sample_files))) eq_refl).
Defined.

Example main_fetches_once :
  requests (main sample_world sample_host
              {| input_file := "in.json"; output := None; indent := 2;
                 no_dimensions := false |} sample_files)
  = [GetImage "b.png"; GetImage "a.png"].
Proof. reflexivity. Qed.

Lemma transform_json_file_string self world h fs path text st :
  dict_get fs path = Some text ->
  readable h path = true ->
  transform_json_file self world h fs path st
  = transform_json_string self world h text st.
Proof.
  intros H Hr. unfold transform_json_file, transform_json_string.
  now rewrite H, Hr.
Qed.
